(** * vscode-go debug adapter (src/Source/debugAdapter/goDebug.ts)

    A shallow embedding of the parts of the Delve debug-adapter bridge that
    its specification makes promises about: the path mapper, the shadowed
    locals annotation, the fully-qualified-name propagation, the continue
    epoch, the breakpoint reconciliation, the threads / setVariable handlers,
    the launch / attach guards and the disconnect sequence; and, beyond
    these, the stack trace, evaluate, configuration-done, step, pause and
    disconnect handlers, and the word and error helpers of the declaration
    provider that shares the file.

    Conventions.
    - A JavaScript string is a [string] (a sequence of 8-bit code units; the
      paths and names handled here are ASCII, and UTF-8 text is its bytes).
    - A JavaScript number that holds an integer is a [Z].
    - A callback or promise continuation is a function that is applied to the
      outcome of the RPC it waits for; the outcome is an argument of the
      model, since the backend is not part of the adapter.
    - What a handler does to the outside world (responses, events, RPCs,
      processes) is recorded, in order, in a list of [Effect]s.
    - Where the answers of the backend can arrive in more than one order and
      the handler's result depends on it, the order is an argument of the
      model as well. *)

From Stdlib Require Import ZArith Lia Ascii String List Bool Permutation Sorted.
From Stdlib Require DecimalString HexadecimalString.
From stdpp Require Import base tactics option list strings gmap.

#[local] Set Warnings "-register-all".

Local Open Scope Z_scope.

(** ** JavaScript string primitives *)

Module JS.

(** Truthiness of a string: only the empty string is falsy. *)
Definition truthy (s : string) : bool :=
  match s with EmptyString => false | String _ _ => true end.

(** [s.startsWith(p)]. *)
Definition startsWith (s p : string) : bool := String.prefix p s.

(** [s.substr(n)] for a non-negative [n]: the suffix from code unit [n]. *)
Fixpoint substr (s : string) (n : nat) : string :=
  match n, s with
  | O, _ => s
  | S _, EmptyString => EmptyString
  | S k, String _ s' => substr s' k
  end.

(** [s.substring(0, n)]: the first [n] code units. *)
Fixpoint take (s : string) (n : nat) : string :=
  match n, s with
  | O, _ => EmptyString
  | S _, EmptyString => EmptyString
  | S k, String c s' => String c (take s' k)
  end.

(** Search of the first occurrence of [pat] in [s], left to right. *)
Fixpoint find (s pat : string) : option nat :=
  if String.prefix pat s then Some O
  else match s with
       | EmptyString => None
       | String _ s' => option_map S (find s' pat)
       end.

(** [s.indexOf(pat)]: the position of the first occurrence, or -1. *)
Definition indexOf (s pat : string) : Z :=
  match find s pat with
  | Some i => Z.of_nat i
  | None => -1
  end.

(** [s.includes(pat)]. *)
Definition includes (s pat : string) : bool :=
  match find s pat with Some _ => true | None => false end.

(** [s.endsWith(p)]. *)
Definition endsWith (s p : string) : bool :=
  (String.length p <=? String.length s)%nat &&
  String.eqb (substr s (String.length s - String.length p)) p.

(** The replacement patterns of [String.prototype.replace] when the second
    argument is a string (GetSubstitution with no capture groups): [$$] is a
    dollar, [$&] the matched text, [$`] the text before the match, [$'] the
    text after it; every other dollar stands for itself. *)
Fixpoint expand (repl matched before after : string) : string :=
  match repl with
  | EmptyString => EmptyString
  | String a r =>
      if Ascii.eqb a "$" then
        match r with
        | String c r' =>
            if Ascii.eqb c "$" then String "$" (expand r' matched before after)
            else if Ascii.eqb c "&" then matched +:+ expand r' matched before after
            else if Ascii.eqb c "`" then before +:+ expand r' matched before after
            else if Ascii.eqb c "'" then after +:+ expand r' matched before after
            else String a (expand r matched before after)
        | EmptyString => String a (expand r matched before after)
        end
      else String a (expand r matched before after)
  end.

(** [s.replace(pat, repl)] with a string pattern: only the first occurrence
    is replaced. *)
Definition replace (s pat repl : string) : string :=
  match find s pat with
  | None => s
  | Some i =>
      let before := take s i in
      let after := substr s (i + String.length pat) in
      before +:+ expand repl pat before after +:+ after
  end.

Definition is_slash (c : ascii) : bool := Ascii.eqb c "/" || Ascii.eqb c "\".

(** [s.replace(re, repl)] for a global regular expression [re] that matches
    single code units, those that satisfy [m]: every match is replaced.
    [before] is the text already passed, for the [$`] pattern. *)
Fixpoint replaceEach_from (m : ascii -> bool) (before s repl : string) : string :=
  match s with
  | EmptyString => EmptyString
  | String c s' =>
      (if m c then expand repl (String c EmptyString) before s'
       else String c EmptyString)
      +:+ replaceEach_from m (before +:+ String c EmptyString) s' repl
  end.

(** [s.replace(/\/|\\/g, repl)]: every slash and every backslash. *)
Definition replaceSlashes (s repl : string) : string :=
  replaceEach_from is_slash EmptyString s repl.

(** [s.replace(/\\/g, repl)]: every backslash. *)
Definition replaceBackslashes (s repl : string) : string :=
  replaceEach_from (fun c => Ascii.eqb c "\") EmptyString s repl.

(** [s.split(sep)] for a non-empty string separator. [skip] counts the code
    units of a separator that was just matched and is still to be passed;
    [cur] is the piece being collected. *)
Fixpoint split_from (sep : string) (skip : nat) (cur s : string) : list string :=
  match s with
  | EmptyString => [cur]
  | String c s' =>
      match skip with
      | S k => split_from sep k cur s'
      | O =>
          if String.prefix sep s
          then cur :: split_from sep (String.length sep - 1) EmptyString s'
          else split_from sep O (cur +:+ String c EmptyString) s'
      end
  end.

(** With the empty separator, [split] gives the code units one by one. *)
Fixpoint chars (s : string) : list string :=
  match s with
  | EmptyString => []
  | String c s' => String c EmptyString :: chars s'
  end.

Definition split (s sep : string) : list string :=
  match sep with
  | EmptyString => chars s
  | String _ _ => split_from sep O EmptyString s
  end.

(** [s.split(/\/|\\/)]: pieces between slashes and backslashes. *)
Fixpoint splitSlashes_from (cur s : string) : list string :=
  match s with
  | EmptyString => [cur]
  | String c s' =>
      if is_slash c then cur :: splitSlashes_from EmptyString s'
      else splitSlashes_from (cur +:+ String c EmptyString) s'
  end.

Definition splitSlashes (s : string) : list string :=
  splitSlashes_from EmptyString s.

(** [l.join(sep)]. *)
Definition join (l : list string) (sep : string) : string := String.concat sep l.

End JS.

(** ** Node's [path] module, POSIX flavour

    [path.join] and [path.normalize] belong to the runtime, not to the
    adapter; the adapter reaches them through the [Host] record below, and
    this module gives the POSIX implementation for concrete runs. A path is
    cut into segments at each slash; [normalizeString] drops empty and [.]
    segments and lets [..] remove the segment before it. *)

Module Posix.

Fixpoint segments_from (cur s : string) : list string :=
  match s with
  | EmptyString => [cur]
  | String c s' =>
      if Ascii.eqb c "/" then cur :: segments_from EmptyString s'
      else segments_from (cur +:+ String c EmptyString) s'
  end.

(** The stack is kept reversed: its head is the last segment written. *)
Fixpoint normalizeSegments (allowAboveRoot : bool) (stack segs : list string)
  : list string :=
  match segs with
  | [] => rev stack
  | seg :: rest =>
      if String.eqb seg "" || String.eqb seg "." then
        normalizeSegments allowAboveRoot stack rest
      else if String.eqb seg ".." then
        match stack with
        | top :: below =>
            if String.eqb top ".." then
              normalizeSegments allowAboveRoot
                (if allowAboveRoot then seg :: stack else stack) rest
            else normalizeSegments allowAboveRoot below rest
        | [] =>
            normalizeSegments allowAboveRoot
              (if allowAboveRoot then [seg] else []) rest
        end
      else normalizeSegments allowAboveRoot (seg :: stack) rest
  end.

Definition normalizeString (p : string) (allowAboveRoot : bool) : string :=
  String.concat "/" (normalizeSegments allowAboveRoot [] (segments_from "" p)).

Definition normalize (p : string) : string :=
  match p with
  | EmptyString => "."
  | String c _ =>
      let isAbsolute := Ascii.eqb c "/" in
      let trailingSeparator := JS.endsWith p "/" in
      let q := normalizeString p (negb isAbsolute) in
      match q with
      | EmptyString =>
          if isAbsolute then "/" else if trailingSeparator then "./" else "."
      | String _ _ =>
          let q' := if trailingSeparator then q +:+ "/" else q in
          if isAbsolute then "/" +:+ q' else q'
      end
  end.

(** [path.join(a, b)]: the non-empty arguments joined by a slash, then
    normalised. *)
Definition join (a b : string) : string :=
  match JS.truthy a, JS.truthy b with
  | false, false => "."
  | true, false => normalize a
  | false, true => normalize b
  | true, true => normalize (a +:+ "/" +:+ b)
  end.

Definition delimiter : string := ":".

Definition isAbsolute (p : string) : bool :=
  match p with String c _ => Ascii.eqb c "/" | EmptyString => false end.

(** [dirname] scans from the last code unit down to the second one;
    [revchars] are the code units still to visit, [i] the index of the
    first of them. *)
Fixpoint dirname_end (revchars : list ascii) (i : nat) (matchedSlash : bool)
  : option nat :=
  match revchars with
  | [] => None
  | c :: r =>
      if Ascii.eqb c "/" then
        if matchedSlash then dirname_end r (i - 1) true else Some i
      else dirname_end r (i - 1) false
  end.

Definition dirname (p : string) : string :=
  match p with
  | EmptyString => "."
  | String c0 rest =>
      let hasRoot := Ascii.eqb c0 "/" in
      match dirname_end (rev (list_ascii_of_string rest)) (String.length rest) true with
      | None => if hasRoot then "/" else "."
      | Some e => if hasRoot && (e =? 1)%nat then "//" else JS.take p e
      end
  end.

Definition is_fwd_slash (c : ascii) : bool := Ascii.eqb c "/".
Definition is_dot (c : ascii) : bool := Ascii.eqb c ".".

Fixpoint drop_while (f : ascii -> bool) (l : list ascii) : list ascii :=
  match l with
  | [] => []
  | c :: r => if f c then drop_while f r else l
  end.

Fixpoint take_while (f : ascii -> bool) (l : list ascii) : list ascii :=
  match l with
  | [] => []
  | c :: r => if f c then c :: take_while f r else []
  end.

(** [extname]: the last segment, trailing slashes apart, from its last dot
    on; empty when the segment has no dot, starts at that dot, or is [..]. *)
Definition extname (p : string) : string :=
  let base_rev :=
    take_while (fun c => negb (is_fwd_slash c))
      (drop_while is_fwd_slash (rev (list_ascii_of_string p))) in
  let ext_rev := take_while (fun c => negb (is_dot c)) base_rev in
  match drop_while (fun c => negb (is_dot c)) base_rev with
  | [] => ""
  | _dot :: left_rev =>
      match left_rev, ext_rev with
      | [], _ => ""
      | [c], [] => if is_dot c then "" else "."
      | _, _ => String "." (string_of_list_ascii (rev ext_rev))
      end
  end.

(** [path.resolve(a, b)] with the working directory [cwd]. *)
Definition resolve (cwd a b : string) : string :=
  let step (path : string) (acc : string * bool) : string * bool :=
    if snd acc then acc
    else if (String.length path =? 0)%nat then acc
    else (path +:+ "/" +:+ fst acc, isAbsolute path) in
  let '(resolvedPath, resolvedAbsolute) := step cwd (step a (step b ("", false))) in
  let resolvedPath := normalizeString resolvedPath (negb resolvedAbsolute) in
  if resolvedAbsolute then "/" +:+ resolvedPath
  else if JS.truthy resolvedPath then resolvedPath else ".".

End Posix.

(** ** The host: process, environment and inherited library methods

    Everything the adapter reads from its process or inherits from the
    debug-adapter base class, gathered so that the handlers below are
    functions of it. *)

Record Host := {
  (** [process.platform === "win32"] *)
  platform_win32 : bool;
  (** [process.env] *)
  process_env : gmap string string;
  (** Node's [path] module *)
  path_join : string -> string -> string;
  path_normalize : string -> string;
  path_delimiter : string;
  path_dirname : string -> string;
  path_extname : string -> string;
  path_isAbsolute : string -> bool;
  path_resolve : string -> string -> string;
  (** [DebugSession.convertClientPathToDebugger] and its inverse *)
  convertClientPathToDebugger : string -> string;
  convertDebuggerPathToClient : string -> string;
  (** [Math.floor(Math.random() * (high - low) + low)] *)
  random : Z -> Z -> Z;
  (** [fs.existsSync]; [fs.lstatSync(p).isDirectory()], [None] when it throws *)
  existsSync : string -> bool;
  lstatSync_isDirectory : string -> option bool;
  (** The pid of the child that [spawn] starts. *)
  spawn_pid : Z;
  (** Helpers of [../goPath], which is not among the sources; they consult
      the file system. [parseEnvFile] gives [None] when it throws. *)
  parseEnvFile : string -> option (gmap string string);
  getInferredGopath : string -> option string;
  getCurrentGoWorkspaceFromGOPATH : option string -> string -> string;
  getBinPathWithPreferredGopath : string -> string
}.

(** A POSIX host with the given environment, working directory [/] and an
    empty file system. *)
Definition posix_host (goroot gopath : option string) : Host := {|
  platform_win32 := false;
  process_env :=
    from_option (fun g => {[ "GOROOT" := g ]}) ∅ goroot
    ∪ from_option (fun g => {[ "GOPATH" := g ]}) ∅ gopath;
  path_join := Posix.join;
  path_normalize := Posix.normalize;
  path_delimiter := Posix.delimiter;
  path_dirname := Posix.dirname;
  path_extname := Posix.extname;
  path_isAbsolute := Posix.isAbsolute;
  path_resolve := Posix.resolve "/";
  convertClientPathToDebugger := fun p => p;
  convertDebuggerPathToClient := fun p => p;
  random := fun low _ => low;
  existsSync := fun _ => false;
  lstatSync_isDirectory := fun _ => None;
  spawn_pid := 4242;
  parseEnvFile := fun _ => None;
  getInferredGopath := fun _ => None;
  getCurrentGoWorkspaceFromGOPATH := fun _ _ => "";
  getBinPathWithPreferredGopath := fun tool => tool
|}.

(** [x || ""] for an environment variable. *)
Definition or_empty (x : option string) : string :=
  match x with Some s => s | None => "" end.

(** Truthiness of an optional string: [undefined] and the empty string are
    falsy. *)
Definition truthy_opt (x : option string) : bool :=
  match x with Some s => JS.truthy s | None => false end.

(** ** Values exchanged with the backend and the client *)

(** A JSON value, for RPC arguments and results whose shape depends on the
    API version. *)
Inductive Json :=
| JNull
| JBool (b : bool)
| JNum (n : Z)
| JStr (s : string)
| JArr (l : list Json)
| JObj (fields : list (string * Json)).

(** What a rejected promise or a callback's [err] carries: a string, or an
    object (an [Error]) with its [toString()]. *)
Inductive JsErr :=
| ErrString (s : string)
| ErrObject (toString : string).

Definition err_truthy (e : JsErr) : bool :=
  match e with ErrString s => JS.truthy s | ErrObject _ => true end.

Definition err_toString (e : JsErr) : string :=
  match e with ErrString s => s | ErrObject s => s end.

(** The outcome of one RPC: [callback(err, result)], or the promise of
    [callPromise] rejected or resolved. *)
Inductive RpcOutcome (A : Type) :=
| Rejected (err : JsErr)
| Resolved (result : A).
Arguments Rejected {A} err.
Arguments Resolved {A} result.

Inductive GoReflectKind :=
| Invalid | Bool | Int | Int8 | Int16 | Int32 | Int64
| Uint | Uint8 | Uint16 | Uint32 | Uint64 | Uintptr
| Float32 | Float64 | Complex64 | Complex128
| Array | Chan | Func | Interface | Map | Ptr | Slice
| String_ | Struct | UnsafePointer.

Module GoVariableFlags.
Definition VariableEscaped : Z := 1.
Definition VariableShadowed : Z := 2.
Definition VariableConstant : Z := 4.
Definition VariableArgument : Z := 8.
Definition VariableReturnArgument : Z := 16.
End GoVariableFlags.

Record LoadConfig := {
  followPointers : bool;
  maxVariableRecurse : Z;
  maxStringLen : Z;
  maxArrayValues : Z;
  maxStructFields : Z
}.

Record DebugBreakpoint := {
  bp_addr : Z;
  bp_file : string;
  bp_id : Z;
  bp_name : string;
  bp_line : Z;
  bp_loadArgs : option LoadConfig;
  bp_loadLocals : option LoadConfig;
  bp_cond : option string
}.

Record DebugFunction := { fn_name : string }.

Record DebugLocation := {
  loc_pc : Z;
  loc_file : string;
  loc_line : Z;
  loc_function : option DebugFunction
}.

Record DebugThread := {
  th_file : string;
  th_id : Z;
  th_line : Z;
  th_goroutineID : Z
}.

Record DebugGoroutine := {
  g_id : Z;
  g_currentLoc : DebugLocation;
  g_userCurrentLoc : DebugLocation;
  g_goStatementLoc : DebugLocation
}.

Record DebuggerState := {
  exited : bool;
  exitStatus : Z;
  currentThread : option DebugThread;
  currentGoroutine : option DebugGoroutine;
  Running : bool
}.

(** A variable as the backend sends it; [children] makes it a tree. *)
Inductive DebugVariable := mkDebugVariable {
  name : string;
  addr : Z;
  type_ : string;
  realType : string;
  kind : GoReflectKind;
  flags : Z;
  onlyAddr : bool;
  DeclLine : Z;
  value : string;
  len : Z;
  cap : Z;
  children : list DebugVariable;
  unreadable : string;
  fullyQualifiedName : string;
  base : Z
}.

(** ** The backend driver and the session *)

Inductive RequestKind := RequestLaunch | RequestAttach.

(** The fields of class [Delve]. [debugProcess] holds the pid of the spawned
    child, if any; [connection] is represented by the outcomes handed to the
    callbacks. *)
Record Delve := {
  program : string;
  remotePath : string;
  loadConfig : LoadConfig;
  noDebug : bool;
  isApiV1 : bool;
  stackTraceDepth : Z;
  isRemoteDebugging : bool;
  localDebugeePath : option string;
  debugProcess : option Z;
  request : RequestKind
}.

(** [Handles<T>] of the debug-adapter library: handles are issued from 1000
    upwards and [reset] forgets them all. *)
Record Handles (T : Type) := {
  nextHandle : Z;
  handleMap : gmap Z T
}.
Arguments nextHandle {T} _.
Arguments handleMap {T} _.

Definition START_HANDLE : Z := 1000.

Definition Handles_new {T} : Handles T :=
  {| nextHandle := START_HANDLE; handleMap := ∅ |}.

Definition Handles_reset {T} (_ : Handles T) : Handles T := Handles_new.

Definition Handles_create {T} (hs : Handles T) (v : T) : Handles T * Z :=
  ({| nextHandle := nextHandle hs + 1;
      handleMap := <[nextHandle hs := v]> (handleMap hs) |},
   nextHandle hs).

Definition Handles_get {T} (hs : Handles T) (handle : Z) : option T :=
  handleMap hs !! handle.

(** The fields of class [GoDebugSession]. *)
Record GoDebugSession := {
  variableHandles : Handles DebugVariable;
  breakpoints : gmap string (list DebugBreakpoint);
  skipStopEventOnce : bool;
  debugState : option DebuggerState;
  delve : option Delve;
  localPathSeparator : string;
  remotePathSeparator : string;
  stackFrameHandles : Handles (Z * Z);
  stopOnEntry : bool;
  showGlobalVariables : bool;
  continueEpoch : Z;
  continueRequestRunning : bool
}.

(** The session as its constructor leaves it. *)
Definition GoDebugSession_new : GoDebugSession := {|
  variableHandles := Handles_new;
  breakpoints := ∅;
  skipStopEventOnce := false;
  debugState := None;
  delve := None;
  localPathSeparator := "";
  remotePathSeparator := "";
  stackFrameHandles := Handles_new;
  stopOnEntry := false;
  showGlobalVariables := false;
  continueEpoch := 0;
  continueRequestRunning := false
|}.

(** ** Path mapper *)

Definition findPathSeparator (filePath : string) : string :=
  if JS.includes filePath "/" then "/" else "\".

Definition is_lower (c : ascii) : bool :=
  (97 <=? nat_of_ascii c)%nat && (nat_of_ascii c <=? 122)%nat.

Definition toUpperCase (c : ascii) : ascii :=
  if is_lower c then ascii_of_nat (nat_of_ascii c - 32) else c.

(** Modelled from the spec: [fixDriveCasingInWindows] of [../goPath], which is
    not among the sources. The spec says that normalisation on a Windows-style
    host canonicalises drive-letter casing: a leading drive letter is made
    upper case. *)
Definition fixDriveCasingInWindows (pathToFix : string) : string :=
  match pathToFix with
  | String c (String colon rest) =>
      if Ascii.eqb colon ":" then String (toUpperCase c) (String colon rest)
      else pathToFix
  | _ => pathToFix
  end.

Definition normalizePath (h : Host) (filePath : string) : string :=
  if platform_win32 h then
    let pathSeparator := findPathSeparator filePath in
    let filePath := path_normalize h filePath in
    let filePath := JS.replaceBackslashes filePath pathSeparator in
    fixDriveCasingInWindows filePath
  else filePath.

Definition toDebuggerPath (h : Host) (this : GoDebugSession) (filePath : string)
  : option string :=
  d ← delve this;
  if (String.length (remotePath d) =? 0)%nat then
    Some (convertClientPathToDebugger h filePath)
  else
    let filePath := JS.replaceSlashes filePath (remotePathSeparator this) in
    Some (JS.replace filePath
            (JS.replaceSlashes (program d) (remotePathSeparator this))
            (remotePath d)).

Definition toLocalPath (h : Host) (this : GoDebugSession) (pathToConvert : string)
  : option string :=
  d ← delve this;
  if (String.length (remotePath d) =? 0)%nat then
    Some (convertDebuggerPathToClient h pathToConvert)
  else
    let sep := remotePathSeparator this in
    let generic :=
      JS.join (JS.split (JS.replace pathToConvert (remotePath d) (program d)) sep)
              (localPathSeparator this) in
    if negb (JS.startsWith pathToConvert (remotePath d)) then
      let index := JS.indexOf pathToConvert (sep +:+ "src" +:+ sep) in
      let goroot := process_env h !! "GOROOT" in
      if truthy_opt goroot && (0 <? index)%Z then
        Some (path_join h (or_empty goroot)
                (JS.substr pathToConvert (Z.to_nat index)))
      else
        let indexGoModCache :=
          JS.indexOf pathToConvert (sep +:+ "pkg" +:+ sep +:+ "mod" +:+ sep) in
        let gopath := head (JS.split (or_empty (process_env h !! "GOPATH")) (path_delimiter h)) in
        if truthy_opt gopath && (0 <? indexGoModCache)%Z then
          Some (path_join h (or_empty gopath)
                  (JS.join (JS.split (JS.substr pathToConvert
                                        (Z.to_nat indexGoModCache)) sep)
                           (localPathSeparator this)))
        else Some generic
    else Some generic.


(** ** What a handler does to the outside world *)

Inductive Event :=
| InitializedEvent
| StoppedEvent (reason : string) (threadId : Z) (allThreadsStopped : bool)
| TerminatedEvent
| OutputEvent (output category : string).

Record Thread := { thread_id : Z; thread_name : string }.

Record Scope := {
  scope_name : string;
  scope_variablesReference : Z;
  scope_expensive : bool
}.

(** One entry of a setBreakpoints response; [line] is absent when the value
    written is [undefined]. *)
Record Breakpoint := { verified : bool; line : option Z }.

Inductive ResponseBody :=
| NoBody
| ThreadsBody (threads : list Thread)
| ScopesBody (scopes : list Scope)
| SetVariableBody (value : string)
| SetBreakpointsBody (breakpoints : list Breakpoint).

(** Calls to the logger are left out. [Call] is one [RPCServer.<command>]
    invocation through [Delve.call] or [Delve.callPromise]; [DumpStacktrace]
    marks the call of the asynchronous [dumpStacktrace] that [logDelveError]
    ends with. What that procedure does once it is started, its two RPCs and
    the frame handles it makes, is given further down by [dumpStacktrace]
    and [dumpStacktrace_callback]. *)
Inductive Effect :=
| SendResponse (body : ResponseBody)
| SendErrorResponse (code : Z) (format : string) (variables : list (string * string))
| SendEvent (e : Event)
| Call (command : string) (args : list Json)
| DumpStacktrace
| Spawn (file : string) (args : list string) (cwd : string)
| ConnectClient (port : Z) (host : string)
| EndConnection
| KillTree (pid : Z)
| RemoveFile (filePath : option string)
| ResolveClose.

Definition logDelveError (err : JsErr) : list Effect := [DumpStacktrace].

Definition json_of_LoadConfig (c : LoadConfig) : Json :=
  JObj [("followPointers", JBool (followPointers c));
        ("maxVariableRecurse", JNum (maxVariableRecurse c));
        ("maxStringLen", JNum (maxStringLen c));
        ("maxArrayValues", JNum (maxArrayValues c));
        ("maxStructFields", JNum (maxStructFields c))].

(** Number to string, base 10 and base 16, for integers. *)
Definition toString10 (n : Z) : string :=
  DecimalString.NilZero.string_of_int (Z.to_int n).

Definition toString16 (n : Z) : string :=
  HexadecimalString.NilZero.string_of_int (Z.to_hex_int n).

(** The double quote, as a one-character string. *)
Definition dquote : string := String (ascii_of_nat 34) EmptyString.

(** ** Variable renderer *)

Definition with_name (v : DebugVariable) (n : string) : DebugVariable :=
  mkDebugVariable n (addr v) (type_ v) (realType v) (kind v) (flags v)
    (onlyAddr v) (DeclLine v) (value v) (len v) (cap v) (children v)
    (unreadable v) (fullyQualifiedName v) (base v).

Definition with_fullyQualifiedName (v : DebugVariable) (fqn : string)
  : DebugVariable :=
  mkDebugVariable (name v) (addr v) (type_ v) (realType v) (kind v) (flags v)
    (onlyAddr v) (DeclLine v) (value v) (len v) (cap v) (children v)
    (unreadable v) fqn (base v).

Definition with_children (v : DebugVariable) (cs : list DebugVariable)
  : DebugVariable :=
  mkDebugVariable (name v) (addr v) (type_ v) (realType v) (kind v) (flags v)
    (onlyAddr v) (DeclLine v) (value v) (len v) (cap v) cs
    (unreadable v) (fullyQualifiedName v) (base v).

Definition addFullyQualifiedName (variables : list DebugVariable)
  : list DebugVariable :=
  map (fun local =>
         with_children
           (with_fullyQualifiedName local (name local))
           (map (fun child => with_fullyQualifiedName child (name local))
                (children local)))
      variables.

(** [child.fullyQualifiedName = fqn + "." + child.name] for each child. *)
Definition qualifyChildren (fqn : string) (cs : list DebugVariable)
  : list DebugVariable :=
  map (fun child => with_fullyQualifiedName child (fqn +:+ "." +:+ name child)) cs.

(** The result, the variable as the call leaves it, and the handle table.
    [None] is the TypeError of reading [v.children[0]] when there is no child.
    The handle table receives the variable as it is when the call returns. *)
Definition convertDebugVariableToProtocolVariable
    (hs : Handles DebugVariable) (v : DebugVariable)
  : option (Handles DebugVariable * DebugVariable * (string * Z)) :=
  match kind v with
  | UnsafePointer =>
      c0 ← head (children v);
      Some (hs, v, ("unsafe.Pointer(0x" +:+ toString16 (addr c0) +:+ ")", 0))
  | Ptr =>
      c0 ← head (children v);
      if addr c0 =? 0 then Some (hs, v, ("nil <" +:+ type_ v +:+ ">", 0))
      else if String.eqb (type_ c0) "void" then Some (hs, v, ("void", 0))
      else
        let c0' :=
          if (0 <? length (children c0))%nat then
            with_children
              (with_fullyQualifiedName c0 (fullyQualifiedName v))
              (qualifyChildren (fullyQualifiedName v) (children c0))
          else c0 in
        let v' := with_children v (c0' :: tail (children v)) in
        let '(hs', ref) := Handles_create hs v' in
        Some (hs', v', ("<" +:+ type_ v +:+ ">(0x" +:+ toString16 (addr c0) +:+ ")", ref))
  | Slice =>
      if base v =? 0 then Some (hs, v, ("nil <" +:+ type_ v +:+ ">", 0))
      else
        let '(hs', ref) := Handles_create hs v in
        Some (hs', v,
              ("<" +:+ type_ v +:+ "> (length: " +:+ toString10 (len v)
               +:+ ", cap: " +:+ toString10 (cap v) +:+ ")", ref))
  | Map =>
      if base v =? 0 then Some (hs, v, ("nil <" +:+ type_ v +:+ ">", 0))
      else
        let '(hs', ref) := Handles_create hs v in
        Some (hs', v,
              ("<" +:+ type_ v +:+ "> (length: " +:+ toString10 (len v) +:+ ")", ref))
  | Array =>
      let '(hs', ref) := Handles_create hs v in
      Some (hs', v, ("<" +:+ type_ v +:+ ">", ref))
  | String_ =>
      let byteLength := Z.of_nat (String.length (value v)) in
      let val :=
        if JS.truthy (value v) && (byteLength <? len v)
        then value v +:+ "...+" +:+ toString10 (len v - byteLength) +:+ " more"
        else value v in
      Some (hs, v,
            (if JS.truthy (unreadable v) then "<" +:+ unreadable v +:+ ">"
             else dquote +:+ val +:+ dquote, 0))
  | _ =>
      let v' :=
        if (0 <? length (children v))%nat
        then with_children v (qualifyChildren (fullyQualifiedName v) (children v))
        else v in
      let result := if JS.truthy (value v) then value v else "<" +:+ type_ v +:+ ">" in
      if (0 <? length (children v))%nat then
        let '(hs', ref) := Handles_create hs v' in
        Some (hs', v', (result, ref))
      else Some (hs, v', (result, 0))
  end.

(** *** Shadowed locals *)

Definition isShadowed (v : DebugVariable) : bool :=
  negb (Z.land (flags v) GoVariableFlags.VariableShadowed =? 0).

(** [shadowedVars], a [Map<string, number[]>]: keys in insertion order, each
    with the indices of its variables in increasing order. *)
Fixpoint shadowedVars_add (m : list (string * list nat)) (varName : string) (i : nat)
  : list (string * list nat) :=
  match m with
  | [] => [(varName, [i])]
  | (k, indices) :: m' =>
      if String.eqb k varName then (k, indices ++ [i]) :: m'
      else (k, indices) :: shadowedVars_add m' varName i
  end.

Fixpoint shadowedVars_from (i : nat) (vars : list DebugVariable)
    (m : list (string * list nat)) : list (string * list nat) :=
  match vars with
  | [] => m
  | v :: rest =>
      shadowedVars_from (S i) rest
        (if isShadowed v then shadowedVars_add m (name v) i else m)
  end.

Definition shadowedVars (vars : list DebugVariable) : list (string * list nat) :=
  shadowedVars_from 0 vars [].

Definition declLineAt (vars : list DebugVariable) (i : nat) : Z :=
  match vars !! i with Some v => DeclLine v | None => 0 end.

(** The comparator handed to [sort]: [vars[rhs].DeclLine - vars[lhs].DeclLine]. *)
Definition compareDeclLine (vars : list DebugVariable) (lhs rhs : nat) : Z :=
  declLineAt vars rhs - declLineAt vars lhs.

(** [Array.prototype.sort] with a comparator: a stable sort, so an element
    goes before the first one it is not greater than. *)
Fixpoint sort_insert (cmp : nat -> nat -> Z) (x : nat) (l : list nat) : list nat :=
  match l with
  | [] => [x]
  | y :: l' => if cmp x y <=? 0 then x :: y :: l' else y :: sort_insert cmp x l'
  end.

Definition Array_sort (cmp : nat -> nat -> Z) (l : list nat) : list nat :=
  foldr (sort_insert cmp) [] l.

(** [vars[svIndex].name = `(${vars[svIndex].name})`] *)
Definition parenthesize (svIndex : nat) (vars : list DebugVariable)
  : list DebugVariable :=
  alter (fun v => with_name v ("(" +:+ name v +:+ ")")) svIndex vars.

(** The loop over [scope]; the inner loop runs from -1 up to [scope], that is
    [scope + 1] times. *)
Fixpoint encloseGroup_from (scope : nat) (svIndices : list nat)
    (vars : list DebugVariable) : list DebugVariable :=
  match svIndices with
  | [] => vars
  | svIndex :: rest =>
      encloseGroup_from (S scope) rest (Nat.iter (S scope) (parenthesize svIndex) vars)
  end.

Definition annotateShadowed (vars : list DebugVariable) : list DebugVariable :=
  fold_left
    (fun vs '(_, svIndices) =>
       encloseGroup_from 0 (Array_sort (compareDeclLine vs) svIndices) vs)
    (shadowedVars vars) vars.

(** *** The scopes request

    The handler nests three callbacks; each RPC outcome is an entry of
    [ScopesOutcomes] (the lists already unwrapped from their API v2
    envelope), and so is the package name that [getPackageInfo] resolves to
    when the state has a current thread with a file.
    The result is [None] when the handler throws; a callback that is handed a
    falsy error and no result throws when it reads the result. *)

Record ScopesOutcomes := {
  out_ListLocalVars : RpcOutcome (list DebugVariable);
  out_ListFunctionArgs : RpcOutcome (list DebugVariable);
  out_getPackageInfo : option string;
  out_ListPackageVars : RpcOutcome (list DebugVariable)
}.

Definition scopeVariable (n : string) (vars : list DebugVariable) : DebugVariable :=
  mkDebugVariable n 0 "" "" Invalid 0 false 0 "" 0 0 vars "" "" 0.

Definition json_of_scope (goroutineId frameId : Z) : Json :=
  JObj [("goroutineID", JNum goroutineId); ("frame", JNum frameId)].

Definition listVarsArgs (d : Delve) (goroutineId frameId : Z) : list Json :=
  if isApiV1 d then [json_of_scope goroutineId frameId]
  else [JObj [("scope", json_of_scope goroutineId frameId);
              ("cfg", json_of_LoadConfig (loadConfig d))]].

Definition set_variableHandles (this : GoDebugSession) (hs : Handles DebugVariable)
  : GoDebugSession :=
  {| variableHandles := hs;
     breakpoints := breakpoints this;
     skipStopEventOnce := skipStopEventOnce this;
     debugState := debugState this;
     delve := delve this;
     localPathSeparator := localPathSeparator this;
     remotePathSeparator := remotePathSeparator this;
     stackFrameHandles := stackFrameHandles this;
     stopOnEntry := stopOnEntry this;
     showGlobalVariables := showGlobalVariables this;
     continueEpoch := continueEpoch this;
     continueRequestRunning := continueRequestRunning this |}.

(** The list that becomes the children of the [Local] scope: the arguments,
    then the locals, with the shadowed ones enclosed in parentheses. *)
Definition localScopeVariables (locals functionArgs : list DebugVariable)
  : list DebugVariable :=
  let locals := addFullyQualifiedName locals in
  let vars := addFullyQualifiedName functionArgs in
  let vars := vars ++ locals in
  annotateShadowed vars.

Definition initdone : string :=
  "initdone" +:+ String (ascii_of_nat 194) (String (ascii_of_nat 183) EmptyString).

(** The loop over the globals: the package prefix is cut from every name, and
    the index of the first [initdone] entry is remembered. *)
Fixpoint stripGlobals_from (i : nat) (packageName : string) (initdoneIndex : option nat)
    (globals : list DebugVariable) : list DebugVariable * option nat :=
  match globals with
  | [] => ([], initdoneIndex)
  | g :: rest =>
      let g' := with_name g (JS.substr (name g) (String.length packageName + 1)) in
      let initdoneIndex' :=
        match initdoneIndex with
        | None => if String.eqb (name g') initdone then Some i else None
        | Some _ => initdoneIndex
        end in
      let '(rest', idx) := stripGlobals_from (S i) packageName initdoneIndex' rest in
      (g' :: rest', idx)
  end.

Definition globalScopeVariables (packageName : string) (globals : list DebugVariable)
  : list DebugVariable :=
  match stripGlobals_from 0 packageName None globals with
  | (globals', Some initdoneIndex) => delete initdoneIndex globals'
  | (globals', None) => globals'
  end.

Definition scopesRequest (this : GoDebugSession) (args_frameId : Z)
    (o : ScopesOutcomes) : option (GoDebugSession * list Effect) :=
  '(goroutineId, frameId) ← Handles_get (stackFrameHandles this) args_frameId;
  d ← delve this;
  let call1 := Call "ListLocalVars" (listVarsArgs d goroutineId frameId) in
  match out_ListLocalVars o with
  | Rejected err =>
      if err_truthy err then
        Some (this, [call1] ++ logDelveError err ++
                    [SendErrorResponse 2005
                       ("Unable to list locals: " +:+ dquote +:+ "{e}" +:+ dquote)
                       [("e", err_toString err)]])
      else None
  | Resolved locals =>
      let call2 := Call "ListFunctionArgs" (listVarsArgs d goroutineId frameId) in
      match out_ListFunctionArgs o with
      | Rejected listFunctionErr =>
          if err_truthy listFunctionErr then
            Some (this, [call1; call2] ++ logDelveError listFunctionErr ++
                        [SendErrorResponse 2006
                           ("Unable to list args: " +:+ dquote +:+ "{e}" +:+ dquote)
                           [("e", err_toString listFunctionErr)]])
          else None
      | Resolved functionArgs =>
          let vars := localScopeVariables locals functionArgs in
          let '(hs1, localRef) :=
            Handles_create (variableHandles this) (scopeVariable "Local" vars) in
          let this1 := set_variableHandles this hs1 in
          let localScope := {| scope_name := "Local";
                               scope_variablesReference := localRef;
                               scope_expensive := false |} in
          if negb (showGlobalVariables this) then
            Some (this1, [call1; call2; SendResponse (ScopesBody [localScope])])
          else
            st ← debugState this;
            let resolvedName :=
              match currentThread st with
              | Some thread =>
                  if JS.truthy (th_file thread) then out_getPackageInfo o else None
              | None => None
              end in
            if negb (truthy_opt resolvedName) then
              Some (this1, [call1; call2; SendResponse (ScopesBody [localScope])])
            else
              let packageName := or_empty resolvedName in
              let filter := "^" +:+ packageName +:+ "\." in
              let call3 :=
                Call "ListPackageVars"
                  (if isApiV1 d then [JStr filter]
                   else [JObj [("filter", JStr filter);
                               ("cfg", json_of_LoadConfig (loadConfig d))]]) in
              match out_ListPackageVars o with
              | Rejected listPkgVarsErr =>
                  if err_truthy listPkgVarsErr then
                    Some (this1, [call1; call2; call3] ++ logDelveError listPkgVarsErr ++
                                 [SendErrorResponse 2007
                                    ("Unable to list global vars: " +:+ dquote +:+ "{e}"
                                     +:+ dquote)
                                    [("e", err_toString listPkgVarsErr)]])
                  else None
              | Resolved globals =>
                  let globals := globalScopeVariables packageName globals in
                  let '(hs2, globalRef) :=
                    Handles_create hs1 (scopeVariable "Global" globals) in
                  let globalScope := {| scope_name := "Global";
                                        scope_variablesReference := globalRef;
                                        scope_expensive := false |} in
                  Some (set_variableHandles this1 hs2,
                        [call1; call2; call3;
                         SendResponse (ScopesBody [localScope; globalScope])])
              end
      end
  end.

(** ** Session controller *)

Definition set_debugState (this : GoDebugSession) (st : option DebuggerState)
  : GoDebugSession :=
  {| variableHandles := variableHandles this;
     breakpoints := breakpoints this;
     skipStopEventOnce := skipStopEventOnce this;
     debugState := st;
     delve := delve this;
     localPathSeparator := localPathSeparator this;
     remotePathSeparator := remotePathSeparator this;
     stackFrameHandles := stackFrameHandles this;
     stopOnEntry := stopOnEntry this;
     showGlobalVariables := showGlobalVariables this;
     continueEpoch := continueEpoch this;
     continueRequestRunning := continueRequestRunning this |}.

Definition set_skipStopEventOnce (this : GoDebugSession) (b : bool) : GoDebugSession :=
  {| variableHandles := variableHandles this;
     breakpoints := breakpoints this;
     skipStopEventOnce := b;
     debugState := debugState this;
     delve := delve this;
     localPathSeparator := localPathSeparator this;
     remotePathSeparator := remotePathSeparator this;
     stackFrameHandles := stackFrameHandles this;
     stopOnEntry := stopOnEntry this;
     showGlobalVariables := showGlobalVariables this;
     continueEpoch := continueEpoch this;
     continueRequestRunning := continueRequestRunning this |}.

Definition set_breakpoints (this : GoDebugSession)
    (m : gmap string (list DebugBreakpoint)) : GoDebugSession :=
  {| variableHandles := variableHandles this;
     breakpoints := m;
     skipStopEventOnce := skipStopEventOnce this;
     debugState := debugState this;
     delve := delve this;
     localPathSeparator := localPathSeparator this;
     remotePathSeparator := remotePathSeparator this;
     stackFrameHandles := stackFrameHandles this;
     stopOnEntry := stopOnEntry this;
     showGlobalVariables := showGlobalVariables this;
     continueEpoch := continueEpoch this;
     continueRequestRunning := continueRequestRunning this |}.

Definition set_continueEpoch (this : GoDebugSession) (e : Z) : GoDebugSession :=
  {| variableHandles := variableHandles this;
     breakpoints := breakpoints this;
     skipStopEventOnce := skipStopEventOnce this;
     debugState := debugState this;
     delve := delve this;
     localPathSeparator := localPathSeparator this;
     remotePathSeparator := remotePathSeparator this;
     stackFrameHandles := stackFrameHandles this;
     stopOnEntry := stopOnEntry this;
     showGlobalVariables := showGlobalVariables this;
     continueEpoch := e;
     continueRequestRunning := continueRequestRunning this |}.

Definition set_continueRequestRunning (this : GoDebugSession) (b : bool)
  : GoDebugSession :=
  {| variableHandles := variableHandles this;
     breakpoints := breakpoints this;
     skipStopEventOnce := skipStopEventOnce this;
     debugState := debugState this;
     delve := delve this;
     localPathSeparator := localPathSeparator this;
     remotePathSeparator := remotePathSeparator this;
     stackFrameHandles := stackFrameHandles this;
     stopOnEntry := stopOnEntry this;
     showGlobalVariables := showGlobalVariables this;
     continueEpoch := continueEpoch this;
     continueRequestRunning := b |}.

Definition set_currentGoroutine (st : DebuggerState) (g : DebugGoroutine)
  : DebuggerState :=
  {| exited := exited st; exitStatus := exitStatus st;
     currentThread := currentThread st; currentGoroutine := Some g;
     Running := Running st |}.

Definition cleanupHandles (this : GoDebugSession) : GoDebugSession :=
  {| variableHandles := Handles_reset (variableHandles this);
     breakpoints := breakpoints this;
     skipStopEventOnce := skipStopEventOnce this;
     debugState := debugState this;
     delve := delve this;
     localPathSeparator := localPathSeparator this;
     remotePathSeparator := remotePathSeparator this;
     stackFrameHandles := Handles_reset (stackFrameHandles this);
     stopOnEntry := stopOnEntry this;
     showGlobalVariables := showGlobalVariables this;
     continueEpoch := continueEpoch this;
     continueRequestRunning := continueRequestRunning this |}.

(** [handleReenterDebug], up to the point where it waits for the goroutine
    listing. *)
Definition handleReenterDebug (this : GoDebugSession)
  : option (GoDebugSession * list Effect) :=
  let this := cleanupHandles this in
  st ← debugState this;
  if exited st then Some (this, [SendEvent TerminatedEvent])
  else
    _ ← delve this;
    Some (this, [Call "ListGoroutines" [JObj [("count", JNum 1)]]]).

(** The callback of that listing. With API v2 the list is read out of the
    result's envelope, which throws when there is no result. *)
Definition handleReenterDebug_callback (reason : string)
    (outcome : RpcOutcome (list DebugGoroutine)) (this : GoDebugSession)
  : option (GoDebugSession * list Effect) :=
  d ← delve this;
  st ← debugState this;
  let logged :=
    match outcome with
    | Rejected err => if err_truthy err then logDelveError err else []
    | Resolved _ => []
    end in
  goroutines ←
    match outcome with
    | Resolved gs => Some (Some gs)
    | Rejected _ => if isApiV1 d then Some None else None
    end;
  st' ←
    match currentGoroutine st with
    | Some _ => Some st
    | None =>
        gs ← goroutines;
        match gs with
        | g :: _ => Some (set_currentGoroutine st g)
        | [] => Some st
        end
    end;
  let this := set_debugState this (Some st') in
  if skipStopEventOnce this then Some (set_skipStopEventOnce this false, logged)
  else
    g ← currentGoroutine st';
    Some (this, logged ++ [SendEvent (StoppedEvent reason (g_id g) true)]).

(** [this.continueEpoch++] on a double: exact up to 2^53, where adding one
    gives the same number again. The counter starts at 0 and changes nowhere
    else, so it never leaves that range. *)
Definition js_increment (n : Z) : Z := if n <? 2 ^ 53 then n + 1 else n.

(** [continue]: the session after the synchronous part, the epoch captured
    by the closure, and the RPC that is issued. *)
Definition continue (this : GoDebugSession)
  : option (GoDebugSession * Z * list Effect) :=
  let this := set_continueEpoch this (js_increment (continueEpoch this)) in
  let closureEpoch := continueEpoch this in
  let this := set_continueRequestRunning this true in
  _ ← delve this;
  Some (this, closureEpoch, [Call "Command" [JObj [("name", JStr "continue")]]]).

(** The completion callback of the RPC of [continue], given the state that
    the backend answered with (read out of its API v2 envelope, which takes a
    look at [this.delve]). *)
Definition continue_callback (closureEpoch : Z) (state : DebuggerState)
    (this : GoDebugSession) : option (GoDebugSession * list Effect) :=
  let this :=
    if closureEpoch =? continueEpoch this
    then set_continueRequestRunning this false
    else this in
  _ ← delve this;
  let this := set_debugState this (Some state) in
  handleReenterDebug this.

(** The error callback, installed unless [continue] was called while setting
    breakpoints; it ends by throwing [err] again. *)
Definition continue_errorCallback (err : JsErr) (this : GoDebugSession)
  : option (GoDebugSession * list Effect) :=
  '(this', effs) ← handleReenterDebug this;
  Some (this', (if err_truthy err then logDelveError err else []) ++ effs).

Definition Dummy : Thread := {| thread_id := 1; thread_name := "Dummy" |}.

(** [threadsRequest], up to the point where it waits for the backend. *)
Definition threadsRequest (this : GoDebugSession) : option (list Effect) :=
  if continueRequestRunning this then Some [SendResponse (ThreadsBody [Dummy])]
  else
    _ ← delve this;
    Some [Call "ListGoroutines" []].

Definition threadOfGoroutine (goroutine : DebugGoroutine) : Thread :=
  {| thread_id := g_id goroutine;
     thread_name :=
       match loc_function (g_userCurrentLoc goroutine) with
       | Some f => fn_name f
       | None => loc_file (g_userCurrentLoc goroutine) +:+ "@"
                 +:+ toString10 (loc_line (g_userCurrentLoc goroutine))
       end |}.

(** The callback of [ListGoroutines] in [threadsRequest]. *)
Definition threadsRequest_callback (this : GoDebugSession)
    (outcome : RpcOutcome (list DebugGoroutine)) : option (list Effect) :=
  if match debugState this with Some st => exited st | None => false end then
    Some [SendResponse (ThreadsBody [])]
  else
    match outcome with
    | Rejected err =>
        if err_truthy err then
          Some (logDelveError err ++
                [SendErrorResponse 2003
                   ("Unable to display threads: " +:+ dquote +:+ "{e}" +:+ dquote)
                   [("e", err_toString err)]])
        else None
    | Resolved goroutines =>
        let threads := map threadOfGoroutine goroutines in
        let threads := if (length threads =? 0)%nat then [Dummy] else threads in
        Some [SendResponse (ThreadsBody threads)]
    end.

(** [setVariableRequest], up to the point where it waits for the backend. *)
Definition setVariableRequest (this : GoDebugSession) (args_name args_value : string)
  : option (list Effect) :=
  st ← debugState this;
  g ← currentGoroutine st;
  d ← delve this;
  Some [Call (if isApiV1 d then "SetSymbol" else "Set")
          [JObj [("Scope", JObj [("goroutineID", JNum (g_id g))]);
                 ("Symbol", JStr args_name);
                 ("Value", JStr args_value)]]].

(** Its callback; [err] is what the backend answered, [None] for no error. *)
Definition setVariableRequest_callback (args_value : string) (err : option JsErr)
  : list Effect :=
  match err with
  | Some e =>
      if err_truthy e then
        logDelveError e ++
        [SendErrorResponse 2010 ("Failed to set variable: " +:+ err_toString e) []]
      else [SendResponse (SetVariableBody args_value)]
  | None => [SendResponse (SetVariableBody args_value)]
  end.

(** ** Breakpoint manager *)

Record SourceBreakpoint := {
  sb_line : Z;
  sb_condition : option string
}.

(** [DebugProtocol.SetBreakpointsArguments]; [lines] is the deprecated,
    optional list of the protocol. *)
Record SetBreakpointsArguments := {
  args_source_path : string;
  args_breakpoints : list SourceBreakpoint;
  args_lines : option (list Z)
}.

(** What the backend answers during one reconciliation: to clearing the
    breakpoint with a given id, to creating the breakpoint requested at a
    given position, and to the n-th listing of its breakpoints. *)
Record BreakpointBackend := {
  on_ClearBreakpoint : Z -> RpcOutcome unit;
  on_CreateBreakpoint : nat -> DebugBreakpoint -> RpcOutcome DebugBreakpoint;
  on_ListBreakpoints : nat -> RpcOutcome (list DebugBreakpoint)
}.

Definition json_of_option {A} (f : A -> Json) (x : option A) : Json :=
  match x with Some a => f a | None => JNull end.

Definition json_of_breakpointIn (b : DebugBreakpoint) : Json :=
  JObj [("file", JStr (bp_file b));
        ("line", JNum (bp_line b));
        ("loadArgs", json_of_option json_of_LoadConfig (bp_loadArgs b));
        ("loadLocals", json_of_option json_of_LoadConfig (bp_loadLocals b));
        ("cond", json_of_option JStr (bp_cond b))].

Definition breakpointIn (d : Delve) (remoteFile : string) (breakpoint : SourceBreakpoint)
  : DebugBreakpoint :=
  {| bp_addr := 0; bp_file := remoteFile; bp_id := 0; bp_name := "";
     bp_line := sb_line breakpoint;
     bp_loadArgs := Some (loadConfig d);
     bp_loadLocals := Some (loadConfig d);
     bp_cond := sb_condition breakpoint |}.

Definition resolved {A} (o : RpcOutcome A) : bool :=
  match o with Resolved _ => true | Rejected _ => false end.

(** [existingBreakpoints.find(...)] of the rejection handler: the first
    breakpoint of a listing at the line and in the file of the one asked
    for. *)
Definition matchedBreakpoint (existing : list DebugBreakpoint) (bpIn : DebugBreakpoint)
  : option DebugBreakpoint :=
  find (fun existingBreakpoint =>
          (bp_line existingBreakpoint =? bp_line bpIn)
          && String.eqb (bp_file existingBreakpoint) (bp_file bpIn))
       existing.

(** An answer of the backend that reaches the adapter while the breakpoints
    of one request are created: to the [CreateBreakpoint] of the breakpoint
    at position [i], or to the [ListBreakpoints] that the rejection handler
    of that breakpoint waits for. The order of the answers is not the
    adapter's to choose. *)
Inductive Arrival :=
| CreateAnswered (i : nat)
| ListAnswered (i : nat).

(** Where the promise of one requested breakpoint stands once its
    [CreateBreakpoint] is answered: its rejection handler waits for the
    listing it asked for, the [n]-th of the request, or the promise is
    resolved. *)
Inductive Handler :=
| AwaitsListing (n : nat)
| ResolvedWith (bp : option DebugBreakpoint).

(** What the rejection handlers of one request share and leave behind: the
    closure variable [existingBreakpoints], how many listings were asked for
    so far, and the promises by position. *)
Record Creating := {
  existingBreakpoints : option (list DebugBreakpoint);
  listings : nat;
  handlers : gmap nat Handler
}.

Definition settle (st : Creating) (i : nat) (bp : option DebugBreakpoint) : Creating :=
  {| existingBreakpoints := existingBreakpoints st;
     listings := listings st;
     handlers := <[i := ResolvedWith bp]> (handlers st) |}.

(** One answer is handled. A rejection handler that finds
    [existingBreakpoints] unset asks for a listing of its own and waits; when
    its listing is answered it assigns the variable and goes on, and when its
    listing is rejected it returns [null]. An answer that nothing waits for
    is passed over. *)
Definition arrive (d : Delve) (o : BreakpointBackend) (remoteFile : string)
    (requested : list SourceBreakpoint) (st : Creating) (a : Arrival) : Creating :=
  match a with
  | CreateAnswered i =>
      match requested !! i, handlers st !! i with
      | Some breakpoint, None =>
          let bpIn := breakpointIn d remoteFile breakpoint in
          match on_CreateBreakpoint o i bpIn with
          | Resolved created => settle st i (Some created)
          | Rejected err =>
              if JS.startsWith (err_toString err) "Breakpoint exists at" then
                match existingBreakpoints st with
                | Some existing => settle st i (matchedBreakpoint existing bpIn)
                | None =>
                    {| existingBreakpoints := None;
                       listings := S (listings st);
                       handlers := <[i := AwaitsListing (listings st)]> (handlers st) |}
                end
              else settle st i None
          end
      | _, _ => st
      end
  | ListAnswered i =>
      match requested !! i, handlers st !! i with
      | Some breakpoint, Some (AwaitsListing n) =>
          match on_ListBreakpoints o n with
          | Resolved existing =>
              {| existingBreakpoints := Some existing;
                 listings := listings st;
                 handlers :=
                   <[i := ResolvedWith
                            (matchedBreakpoint existing
                               (breakpointIn d remoteFile breakpoint))]>
                     (handlers st) |}
          | Rejected _ => settle st i None
          end
      | _, _ => st
      end
  end.

Definition createCall (d : Delve) (remoteFile : string) (breakpoint : SourceBreakpoint)
  : Effect :=
  let bpIn := breakpointIn d remoteFile breakpoint in
  Call "CreateBreakpoint"
    [if isApiV1 d then json_of_breakpointIn bpIn
     else JObj [("Breakpoint", json_of_breakpointIn bpIn)]].

Definition listCall (d : Delve) : Effect :=
  Call "ListBreakpoints" (if isApiV1 d then [] else [JObj []]).

Definition promised (st : Creating) (i : nat) : option (option DebugBreakpoint) :=
  match handlers st !! i with
  | Some (ResolvedWith bp) => Some bp
  | _ => None
  end.

(** The creation of the requested breakpoints. Every [CreateBreakpoint] is
    issued before any answer is handled; the answers then arrive in the
    order of [arrivals]. The result is what [Promise.all] resolves to, [None]
    while a promise is pending, then the creation calls and the listing
    calls. *)
Definition createBreakpoints (d : Delve) (o : BreakpointBackend) (remoteFile : string)
    (requested : list SourceBreakpoint) (arrivals : list Arrival)
  : option (list (option DebugBreakpoint)) * list Effect * list Effect :=
  let st :=
    foldl (arrive d o remoteFile requested)
          {| existingBreakpoints := None; listings := 0; handlers := ∅ |}
          arrivals in
  (mapM (promised st) (seq 0 (length requested)),
   map (createCall d remoteFile) requested,
   replicate (listings st) (listCall d)).

(** The entries of the response; [None] when reading [args.lines[i]] throws
    because the request has no [lines]. *)
Fixpoint responseBreakpoints (lines : option (list Z)) (i : nat)
    (convertedBreakpoints : list (option DebugBreakpoint)) : option (list Breakpoint) :=
  match convertedBreakpoints with
  | [] => Some []
  | bp :: rest =>
      entry ←
        match bp with
        | Some b => Some {| verified := true; line := Some (bp_line b) |}
        | None =>
            ls ← lines;
            Some {| verified := false; line := ls !! i |}
        end;
      entries ← responseBreakpoints lines (S i) rest;
      Some (entry :: entries)
  end.

Definition setBreakpointsError (e : string) : Effect :=
  SendErrorResponse 2002
    ("Failed to set breakpoint: " +:+ dquote +:+ "{e}" +:+ dquote)
    [("e", e)].

(** The text of the TypeError of reading an index of [undefined]; the
    engine's wording is not modelled. *)
Definition typeError : string := "TypeError".

(** The error of the first [ClearBreakpoint] that the backend rejects. *)
Definition firstRejectedClear (o : BreakpointBackend) (existing : list DebugBreakpoint)
  : option JsErr :=
  list_find (fun ob => negb (resolved ob))
            (map (fun existingBP => on_ClearBreakpoint o (bp_id existingBP)) existing)
  ≫= fun '(_, ob) => match ob with Rejected err => Some err | Resolved _ => None end.

(** [setBreakPoints]: clear the breakpoints recorded for the file, create
    the requested ones, answer. A rejected clear, or an exception while the
    answer is built, reaches the last handler of the chain, which answers
    with the error 2002. The flag tells whether the returned promise is
    settled: it is not while an answer of the backend is outstanding, and
    nothing is answered then. *)
Definition setBreakPoints (h : Host) (this : GoDebugSession)
    (args : SetBreakpointsArguments) (o : BreakpointBackend) (arrivals : list Arrival)
  : option (GoDebugSession * list Effect * bool) :=
  let file := normalizePath h (args_source_path args) in
  let this :=
    match breakpoints this !! file with
    | Some _ => this
    | None => set_breakpoints this (<[file := []]> (breakpoints this))
    end in
  remoteFile ← toDebuggerPath h this file;
  d ← delve this;
  let existing := default [] (breakpoints this !! file) in
  let clears :=
    map (fun existingBP =>
           Call "ClearBreakpoint"
             [if isApiV1 d then JNum (bp_id existingBP)
              else JObj [("Id", JNum (bp_id existingBP))]])
        existing in
  match firstRejectedClear o existing with
  | Some err => Some (this, clears ++ [setBreakpointsError (err_toString err)], true)
  | None =>
      let '(newBreakpoints, creates, listed) :=
        createBreakpoints d o remoteFile (args_breakpoints args) arrivals in
      match newBreakpoints with
      | None => Some (this, clears ++ creates ++ listed, false)
      | Some convertedBreakpoints =>
          match responseBreakpoints (args_lines args) 0 convertedBreakpoints with
          | None =>
              Some (this, clears ++ creates ++ listed ++ [setBreakpointsError typeError],
                    true)
          | Some entries =>
              Some (set_breakpoints this
                      (<[file := omap id convertedBreakpoints]> (breakpoints this)),
                    clears ++ creates ++ listed
                    ++ [SendResponse (SetBreakpointsBody entries)],
                    true)
          end
      end
  end.

(** [setBreakPointsRequest] up to the point where the breakpoints are set or
    the target is halted: the state is read; the flag tells that the halt
    was sent, with [skipStopEventOnce] taken from [continueRequestRunning]. *)
Definition setBreakPointsRequest_start (this : GoDebugSession)
    (out_State : RpcOutcome DebuggerState) : option (GoDebugSession * list Effect * bool) :=
  _ ← delve this;
  let getState := Call "State" [JObj [("NonBlocking", JBool true)]] in
  let '(this, effs1) :=
    match out_State with
    | Resolved st => (set_debugState this (Some st), [getState])
    | Rejected err => (this, getState :: logDelveError err)
    end in
  st ← debugState this;
  if negb (Running st) && negb (continueRequestRunning this) then
    Some (this, effs1, false)
  else
    Some (set_skipStopEventOnce this (continueRequestRunning this),
          effs1 ++ [Call "Command" [JObj [("name", JStr "halt")]]],
          true).

(** The rejection handler of the halt. *)
Definition setBreakPointsRequest_haltFailed (this : GoDebugSession) (err : JsErr)
  : GoDebugSession * list Effect :=
  (set_skipStopEventOnce this false,
   logDelveError err ++
   [SendErrorResponse 2008
      ("Failed to halt delve before attempting to set breakpoint: "
       +:+ dquote +:+ "{e}" +:+ dquote)
      [("e", err_toString err)]]).

(** [this.continue(true)], run once the promise of [setBreakPoints] is
    settled. The epoch that the call captures is the session's
    [continueEpoch] after it. *)
Definition setBreakPointsRequest_resume (this : GoDebugSession)
  : option (GoDebugSession * list Effect) :=
  '(this, _, effs) ← continue this;
  Some (this, effs).

(** [setBreakPointsRequest] when nothing else is handled in between: the
    state is read; when the target runs, it is halted, the breakpoints are
    set and, once they are, it is resumed. *)
Definition setBreakPointsRequest (h : Host) (this : GoDebugSession)
    (args : SetBreakpointsArguments)
    (out_State : RpcOutcome DebuggerState) (out_halt : RpcOutcome unit)
    (o : BreakpointBackend) (arrivals : list Arrival)
  : option (GoDebugSession * list Effect) :=
  '(this, effs1, halted) ← setBreakPointsRequest_start this out_State;
  if halted : bool then
    match out_halt with
    | Resolved _ =>
        '(this, effs2, settled) ← setBreakPoints h this args o arrivals;
        if settled : bool then
          '(this, effs3) ← setBreakPointsRequest_resume this;
          Some (this, effs1 ++ effs2 ++ effs3)
        else Some (this, effs1 ++ effs2)
    | Rejected err =>
        let '(this, effs2) := setBreakPointsRequest_haltFailed this err in
        Some (this, effs1 ++ effs2)
    end
  else
    '(this, effs2, _) ← setBreakPoints h this args o arrivals;
    Some (this, effs1 ++ effs2).

(** ** Disconnect orchestrator *)

(** What happens while [close] runs: whether the one-second watchdog fires
    before the halt returns, and what the backend answers to the halt and to
    the detach. *)
Record CloseOutcomes := {
  haltTimedOut : bool;
  out_Command_halt : RpcOutcome unit;
  out_Detach : RpcOutcome unit
}.

Definition isLocalDebugging (d : Delve) : bool :=
  match request d with
  | RequestLaunch => bool_decide (is_Some (debugProcess d))
  | RequestAttach => false
  end.

Definition forceCleanup (d : Delve) : option (list Effect) :=
  pid ← debugProcess d;
  Some [KillTree pid; RemoveFile (localDebugeePath d)].

Definition haltErrMsg (out_halt : RpcOutcome unit) : option string :=
  match out_halt with
  | Rejected err => Some (if err_truthy err then err_toString err else "")
  | Resolved _ => None
  end.

Definition targetHasExited (msg : option string) : bool :=
  truthy_opt msg && JS.endsWith (or_empty msg) "has exited with status 0".

Definition shouldDetach (msg : option string) : bool :=
  negb (truthy_opt msg) || targetHasExited msg.

Definition detachCall (d : Delve) : Effect :=
  Call "Detach"
    [if isApiV1 d then JBool true else JObj [("Kill", JBool (isLocalDebugging d))]].

Definition haltCall : Effect := Call "Command" [JObj [("name", JStr "halt")]].

(** [Delve.close]. [ResolveClose] marks the resolution of the promise that
    [close] returns; a remote session ends the connection and leaves the
    promise unresolved. *)
Definition close (d : Delve) (o : CloseOutcomes) : option (list Effect) :=
  if noDebug d then Some [ResolveClose]
  else if isRemoteDebugging d then Some [EndConnection]
  else
    watchdog ←
      (if isLocalDebugging d && haltTimedOut o then
         cleanup ← forceCleanup d;
         Some (cleanup ++ [ResolveClose])
       else Some []);
    let msg := haltErrMsg (out_Command_halt o) in
    let shouldForceClean := negb (shouldDetach msg) && isLocalDebugging d in
    let '(detach, shouldForceClean) :=
      if shouldDetach msg then
        match out_Detach o with
        | Resolved _ => ([detachCall d], shouldForceClean)
        | Rejected _ => ([detachCall d], isLocalDebugging d)
        end
      else ([], shouldForceClean) in
    cleanup ← (if shouldForceClean then forceCleanup d else Some []);
    Some ([haltCall] ++ watchdog ++ detach ++ cleanup ++ [ResolveClose]).

(** ** Backend launcher *)

Inductive EnvFile :=
| EnvFileAbsent
| EnvFileOne (file : string)
| EnvFileList (files : list string).

(** The arguments of a launch or attach request, as one record: an entry
    that the request does not carry is [None]. [req_request] tells the two
    kinds apart; [req_program], [req_args], [req_env], [req_envFile],
    [req_buildFlags], [req_init], [req_output], [req_noDebug] and
    [req_packagePathToGoModPathMap] belong to launch, [req_processId] to
    attach. *)
Record RequestArguments := {
  req_request : RequestKind;
  req_program : option string;
  req_processId : option Z;
  req_stopOnEntry : option bool;
  req_args : option (list string);
  req_showLog : option bool;
  req_logOutput : option string;
  req_cwd : option string;
  req_env : option (gmap string string);
  req_mode : option string;
  req_remotePath : option string;
  req_port : option Z;
  req_host : option string;
  req_buildFlags : option string;
  req_init : option string;
  req_trace : option string;
  req_envFile : EnvFile;
  req_backend : option string;
  req_output : option string;
  req_noDebug : bool;
  req_dlvLoadConfig : option LoadConfig;
  req_dlvToolPath : string;
  req_apiVersion : option Z;
  req_stackTraceDepth : option Z;
  req_showGlobalVariables : option bool;
  req_packagePathToGoModPathMap : gmap string string
}.

(** The arguments after [initLaunchAttachRequest] has filled in the port, the
    host and the remote path. *)
Definition with_endpoint (args : RequestArguments) (port : Z) (host remote : string)
  : RequestArguments :=
  {| req_request := req_request args; req_program := req_program args;
     req_processId := req_processId args; req_stopOnEntry := req_stopOnEntry args;
     req_args := req_args args; req_showLog := req_showLog args;
     req_logOutput := req_logOutput args; req_cwd := req_cwd args;
     req_env := req_env args; req_mode := req_mode args;
     req_remotePath := Some remote; req_port := Some port; req_host := Some host;
     req_buildFlags := req_buildFlags args; req_init := req_init args;
     req_trace := req_trace args; req_envFile := req_envFile args;
     req_backend := req_backend args; req_output := req_output args;
     req_noDebug := req_noDebug args; req_dlvLoadConfig := req_dlvLoadConfig args;
     req_dlvToolPath := req_dlvToolPath args; req_apiVersion := req_apiVersion args;
     req_stackTraceDepth := req_stackTraceDepth args;
     req_showGlobalVariables := req_showGlobalVariables args;
     req_packagePathToGoModPathMap := req_packagePathToGoModPathMap args |}.

Definition mode_is (args : RequestArguments) (m : string) : bool :=
  match req_mode args with Some m' => String.eqb m' m | None => false end.

(** Truthiness of an optional number: [undefined] and 0 are falsy. *)
Definition truthy_num (x : option Z) : bool :=
  match x with Some n => negb (n =? 0) | None => false end.

Definition defaultLoadConfig : LoadConfig :=
  {| followPointers := true; maxVariableRecurse := 1; maxStringLen := 64;
     maxArrayValues := 64; maxStructFields := -1 |}.

(** The promise [Delve.connection] when the constructor returns. *)
Inductive Connection :=
| ConnectionRejected (err : JsErr)
| ConnectionResolved
| ConnectionPending.

(** What the constructor leaves behind: the object, its connection promise
    and what it did. The environment handed to the child is not recorded. *)
Record Launched := {
  launched_delve : Delve;
  launched_connection : Connection;
  launched_effects : list Effect
}.

Definition mkDelve (launchArgs : RequestArguments) (program : option string)
    (nodebug remote : bool) (localDebugee : option string) (process : option Z)
  : Delve :=
  {| program := or_empty program;
     remotePath := or_empty (req_remotePath launchArgs);
     loadConfig := default defaultLoadConfig (req_dlvLoadConfig launchArgs);
     noDebug := nodebug;
     isApiV1 := match req_apiVersion launchArgs with Some v => v =? 1 | None => false end;
     stackTraceDepth := default 50 (req_stackTraceDepth launchArgs);
     isRemoteDebugging := remote;
     localDebugeePath := localDebugee;
     debugProcess := process;
     request := req_request launchArgs |}.

Definition cannotFindDelve (repo : string) : string :=
  "Cannot find Delve debugger. Install from https://github.com/" +:+ repo
  +:+ " & ensure it is in your Go tools path, " +:+ dquote +:+ "GOPATH/bin"
  +:+ dquote +:+ " or " +:+ dquote +:+ "PATH" +:+ dquote +:+ ".".

Definition opt_flag (prefix : string) (x : option string) : list string :=
  match x with
  | Some v => if JS.truthy v then [prefix +:+ v] else []
  | None => []
  end.

Definition getLocalDebugeePath (h : Host) (program : string) (output : option string)
  : string :=
  let configOutput := if truthy_opt output then or_empty output else "debug" in
  if path_isAbsolute h configOutput then configOutput
  else path_resolve h program configOutput.

(** The environment files of a launch, parsed in order; [None] when one of
    them cannot be parsed. *)
Definition parseEnvFiles (h : Host) (f : EnvFile) : option (list (gmap string string)) :=
  match f with
  | EnvFileAbsent => Some []
  | EnvFileOne file => e ← parseEnvFile h file; Some [e]
  | EnvFileList files => mapM (parseEnvFile h) files
  end.

(** [Object.assign({}, process.env, ...fileEnvs, launchArgsEnv)]: a later
    source wins. *)
Definition mergeEnv (h : Host) (fileEnvs : list (gmap string string))
    (launchArgsEnv : gmap string string) : gmap string string :=
  launchArgsEnv ∪ foldl (fun acc e => e ∪ acc) (process_env h) fileEnvs.

(** The launch branch of the executor in the constructor of [Delve]; the
    arguments arrive with port and host filled in. *)
Definition Delve_launch (h : Host) (launchArgs : RequestArguments) (program : string)
  : Launched :=
  let mk := mkDelve launchArgs (Some (normalizePath h program)) in
  let rejected (msg : string) :=
    {| launched_delve := mk false false None None;
       launched_connection := ConnectionRejected (ErrString msg);
       launched_effects := [] |} in
  if negb (JS.truthy program) then
    rejected "The program attribute is missing in the debug configuration in launch.json"
  else
    match lstatSync_isDirectory h program with
    | None =>
        rejected "The program attribute must point to valid directory, .go file or executable."
    | Some isDirectory =>
        if isDirectory && mode_is launchArgs "exec" then
          rejected "The program attribute must be an executable in exec mode"
        else if negb isDirectory && negb (mode_is launchArgs "exec")
                && negb (String.eqb (path_extname h program) ".go") then
          rejected "The program attribute must be a directory or .go file in debug mode"
        else
          let isProgramDirectory := isDirectory in
          let dlvCwd := if isProgramDirectory then program else path_dirname h program in
          match parseEnvFiles h (req_envFile launchArgs) with
          | None =>
              {| launched_delve := mk false false None None;
                 launched_connection := ConnectionRejected (ErrObject "Error");
                 launched_effects := [] |}
          | Some fileEnvs =>
              let env := mergeEnv h fileEnvs (default ∅ (req_env launchArgs)) in
              let dirname := if isProgramDirectory then program else path_dirname h program in
              let env :=
                if negb (truthy_opt (env !! "GOPATH"))
                   && (mode_is launchArgs "debug" || mode_is launchArgs "test") then
                  match getInferredGopath h dirname with
                  | Some g => if JS.truthy g then <["GOPATH" := g]> env else env
                  | None => env
                  end
                else env in
              if req_noDebug launchArgs && mode_is launchArgs "debug" then
                let runArgs :=
                  ["run"] ++ opt_flag "" (req_buildFlags launchArgs)
                  ++ [if isProgramDirectory then "." else program]
                  ++ default [] (req_args launchArgs) in
                {| launched_delve := mk true false None (Some (spawn_pid h));
                   launched_connection := ConnectionResolved;
                   launched_effects :=
                     [Spawn (getBinPathWithPreferredGopath h "go") runArgs dirname] |}
              else if negb (existsSync h (req_dlvToolPath launchArgs)) then
                rejected (cannotFindDelve "derekparker/delve")
              else
                let currentGOWorkspace :=
                  getCurrentGoWorkspaceFromGOPATH h (env !! "GOPATH") dirname in
                let target :=
                  if mode_is launchArgs "exec"
                     || (mode_is launchArgs "debug" && negb isProgramDirectory)
                  then [program]
                  else if JS.truthy currentGOWorkspace
                          && negb (truthy_opt
                                     (req_packagePathToGoModPathMap launchArgs !! dirname))
                  then [JS.substr dirname (String.length currentGOWorkspace + 1)]
                  else [] in
                let dlvArgs :=
                  [if truthy_opt (req_mode launchArgs) then or_empty (req_mode launchArgs)
                   else "debug"]
                  ++ target
                  ++ ["--headless=true";
                      "--listen=" +:+ or_empty (req_host launchArgs) +:+ ":"
                      +:+ toString10 (default 0 (req_port launchArgs))]
                  ++ (if match req_apiVersion launchArgs with
                         | Some v => v =? 1 | None => false end
                      then [] else ["--api-version=2"])
                  ++ (if default false (req_showLog launchArgs) then ["--log=true"] else [])
                  ++ opt_flag "--log-output=" (req_logOutput launchArgs)
                  ++ opt_flag "--wd=" (req_cwd launchArgs)
                  ++ opt_flag "--build-flags=" (req_buildFlags launchArgs)
                  ++ opt_flag "--init=" (req_init launchArgs)
                  ++ opt_flag "--backend=" (req_backend launchArgs)
                  ++ (if mode_is launchArgs "debug" || mode_is launchArgs "test"
                      then opt_flag "--output=" (req_output launchArgs) else [])
                  ++ match req_args launchArgs with
                     | Some (a :: l) => "--" :: a :: l
                     | _ => []
                     end in
                {| launched_delve :=
                     mk false false
                        (Some (getLocalDebugeePath h (normalizePath h program)
                                 (req_output launchArgs)))
                        (Some (spawn_pid h));
                   launched_connection := ConnectionPending;
                   launched_effects := [Spawn (req_dlvToolPath launchArgs) dlvArgs dlvCwd] |}
          end
    end.

(** The attach branch. *)
Definition Delve_attach (h : Host) (launchArgs : RequestArguments) (program : string)
  : Launched :=
  let mk := mkDelve launchArgs (Some (normalizePath h program)) in
  let rejected (msg : string) :=
    {| launched_delve := mk false false None None;
       launched_connection := ConnectionRejected (ErrString msg);
       launched_effects := [] |} in
  let dlvCwd := path_dirname h program in
  if negb (truthy_num (req_processId launchArgs)) then rejected "Missing process ID"
  else if negb (existsSync h (req_dlvToolPath launchArgs)) then
    rejected (cannotFindDelve "go-delve/delve")
  else
    let dlvArgs :=
      ["attach"; toString10 (default 0 (req_processId launchArgs));
       "--headless=true";
       "--listen=" +:+ or_empty (req_host launchArgs) +:+ ":"
       +:+ toString10 (default 0 (req_port launchArgs))]
      ++ (if match req_apiVersion launchArgs with Some v => v =? 1 | None => false end
          then [] else ["--api-version=2"])
      ++ (if default false (req_showLog launchArgs) then ["--log=true"] else [])
      ++ opt_flag "--log-output=" (req_logOutput launchArgs)
      ++ opt_flag "--wd=" (req_cwd launchArgs)
      ++ opt_flag "--backend=" (req_backend launchArgs) in
    {| launched_delve := mk false false None (Some (spawn_pid h));
       launched_connection := ConnectionPending;
       launched_effects := [Spawn (req_dlvToolPath launchArgs) dlvArgs dlvCwd] |}.

(** [new Delve(launchArgs, program)]. [None] is an exception out of the
    constructor: on a Windows host [normalizePath] cannot read a program that
    is [undefined]. Elsewhere an [undefined] program makes [path.dirname]
    throw inside the executor, which rejects the connection. *)
Definition Delve_new (h : Host) (launchArgs : RequestArguments) (program : option string)
  : option Launched :=
  match program with
  | None =>
      if platform_win32 h then None
      else Some {| launched_delve := mkDelve launchArgs None false false None None;
                   launched_connection := ConnectionRejected (ErrObject typeError);
                   launched_effects := [] |}
  | Some prog =>
      if mode_is launchArgs "remote" then
        Some {| launched_delve :=
                  mkDelve launchArgs (Some (normalizePath h prog)) false true None None;
                launched_connection := ConnectionPending;
                launched_effects :=
                  [ConnectClient (default 0 (req_port launchArgs))
                                 (or_empty (req_host launchArgs))] |}
      else
        match req_request launchArgs with
        | RequestLaunch => Some (Delve_launch h launchArgs prog)
        | RequestAttach => Some (Delve_attach h launchArgs prog)
        end
  end.

(** The child's first output on stdout makes the launcher connect to it; a
    launcher without a child waiting for its backend has nothing to hear. *)
Definition Delve_onFirstStdout (launchArgs : RequestArguments) (l : Launched)
  : list Effect :=
  match debugProcess (launched_delve l), launched_connection l with
  | Some _, ConnectionPending =>
      [ConnectClient (default 0 (req_port launchArgs)) (or_empty (req_host launchArgs))]
  | _, _ => []
  end.

Definition set_launchOptions (this : GoDebugSession) (globals stop : bool)
  : GoDebugSession :=
  {| variableHandles := variableHandles this;
     breakpoints := breakpoints this;
     skipStopEventOnce := skipStopEventOnce this;
     debugState := debugState this;
     delve := delve this;
     localPathSeparator := localPathSeparator this;
     remotePathSeparator := remotePathSeparator this;
     stackFrameHandles := stackFrameHandles this;
     stopOnEntry := stop;
     showGlobalVariables := globals;
     continueEpoch := continueEpoch this;
     continueRequestRunning := continueRequestRunning this |}.

Definition set_pathSeparators (this : GoDebugSession) (lsep rsep : string)
  : GoDebugSession :=
  {| variableHandles := variableHandles this;
     breakpoints := breakpoints this;
     skipStopEventOnce := skipStopEventOnce this;
     debugState := debugState this;
     delve := delve this;
     localPathSeparator := lsep;
     remotePathSeparator := rsep;
     stackFrameHandles := stackFrameHandles this;
     stopOnEntry := stopOnEntry this;
     showGlobalVariables := showGlobalVariables this;
     continueEpoch := continueEpoch this;
     continueRequestRunning := continueRequestRunning this |}.

Definition set_delve (this : GoDebugSession) (d : option Delve) : GoDebugSession :=
  {| variableHandles := variableHandles this;
     breakpoints := breakpoints this;
     skipStopEventOnce := skipStopEventOnce this;
     debugState := debugState this;
     delve := d;
     localPathSeparator := localPathSeparator this;
     remotePathSeparator := remotePathSeparator this;
     stackFrameHandles := stackFrameHandles this;
     stopOnEntry := stopOnEntry this;
     showGlobalVariables := showGlobalVariables this;
     continueEpoch := continueEpoch this;
     continueRequestRunning := continueRequestRunning this |}.

(** The loop that counts the trailing path segments that the local and the
    remote root share, up to a [src] segment; both lists are reversed. *)
Fixpoint sharedSegments (llist rlist : list string) : nat :=
  match llist, rlist with
  | l :: llist', r :: rlist' =>
      if negb (String.eqb l r) || String.eqb l "src" then O
      else S (sharedSegments llist' rlist')
  | _, _ => O
  end.

(** [list.slice(0, -i).join(sep) + sep] *)
Definition dropSegments (segments : list string) (i : nat) (sep : string) : string :=
  JS.join (take (length segments - i) segments) sep +:+ sep.

(** The roots and separators that [initLaunchAttachRequest] settles on when
    a remote path is given. *)
Definition settleRoots (this : GoDebugSession) (localPath remotePath : string)
  : GoDebugSession * string * string :=
  let lsep := findPathSeparator localPath in
  let rsep := findPathSeparator remotePath in
  let this := set_pathSeparators this lsep rsep in
  let llist := JS.splitSlashes localPath in
  let rlist := JS.splitSlashes remotePath in
  let i := sharedSegments (rev llist) (rev rlist) in
  if (0 <? i)%nat then
    (this, dropSegments llist i lsep, dropSegments rlist i rsep)
  else if (1 <? String.length remotePath)%nat
          && (JS.endsWith remotePath "\" || JS.endsWith remotePath "/") then
    (this, localPath, JS.take remotePath (String.length remotePath - 1))
  else (this, localPath, remotePath).

(** The two handlers given to [this.delve.connection.then]. *)
Definition onConnection (d : Delve) (c : Connection) : list Effect :=
  match c with
  | ConnectionRejected err =>
      [SendErrorResponse 3000
         ("Failed to continue: " +:+ dquote +:+ "{e}" +:+ dquote)
         [("e", err_toString err)]]
  | ConnectionResolved =>
      (if negb (noDebug d) then [Call "GetVersion" []; SendEvent InitializedEvent]
       else [])
      ++ [SendResponse NoBody]
  | ConnectionPending => []
  end.

(** [initLaunchAttachRequest]: what the handler did, and the session it
    leaves, [None] when it throws. *)
Definition initLaunchAttachRequest (h : Host) (this : GoDebugSession)
    (args : RequestArguments) : list Effect * option GoDebugSession :=
  let this :=
    set_launchOptions this
      (default (showGlobalVariables this) (req_showGlobalVariables args))
      (if default false (req_stopOnEntry args) then true else stopOnEntry this) in
  let port :=
    if truthy_num (req_port args) then default 0 (req_port args)
    else random h 2000 50000 in
  let host :=
    if truthy_opt (req_host args) then or_empty (req_host args) else "127.0.0.1" in
  let localPath :=
    match req_request args with
    | RequestAttach => req_cwd args
    | RequestLaunch => req_program args
    end in
  let remotePath :=
    if truthy_opt (req_remotePath args) then or_empty (req_remotePath args) else "" in
  let settled :=
    if (0 <? String.length remotePath)%nat then
      lp ← localPath;
      let '(this, lp', rp') := settleRoots this lp remotePath in
      Some (this, Some lp', rp')
    else Some (this, localPath, remotePath) in
  match settled with
  | None => ([], None)
  | Some (this, localPath, remotePath) =>
      match Delve_new h (with_endpoint args port host remotePath) localPath with
      | None => ([], None)
      | Some l =>
          (launched_effects l
           ++ onConnection (launched_delve l) (launched_connection l),
           Some (set_delve this (Some (launched_delve l))))
      end
  end.

Definition launchRequest (h : Host) (this : GoDebugSession) (args : RequestArguments)
  : list Effect * option GoDebugSession :=
  if negb (truthy_opt (req_program args)) then
    ([SendErrorResponse 3000
        "Failed to continue: The program attribute is missing in the debug configuration in launch.json"
        []],
     Some this)
  else initLaunchAttachRequest h this args.

Definition attachRequest (h : Host) (this : GoDebugSession) (args : RequestArguments)
  : list Effect * option GoDebugSession :=
  let refused :=
    if mode_is args "local" && negb (truthy_num (req_processId args)) then
      [SendErrorResponse 3000
         "Failed to continue: the processId attribute is missing in the debug configuration in launch.json"
         []]
    else if mode_is args "remote" && negb (truthy_num (req_port args)) then
      [SendErrorResponse 3000
         "Failed to continue: the port attribute is missing in the debug configuration in launch.json"
         []]
    else [] in
  let '(effects, this') := initLaunchAttachRequest h this args in
  (refused ++ effects, this').

(** ** Further requests

    The handlers below answer with bodies of their own. An [Action] is one of
    the effects above, one of these replies, or the shutdown of the session
    that the inherited [disconnectRequest] ends with. *)

Record Source := { source_name : string; source_path : string }.

Record StackFrame := {
  frame_id : Z;
  frame_name : string;
  frame_source : option Source;
  frame_line : Z;
  frame_column : Z
}.

Inductive Reply :=
| StackTraceReply (stackFrames : list StackFrame) (totalFrames : Z)
| EvaluateReply (result : string) (variablesReference : Z).

Inductive Action :=
| Did (e : Effect)
| Replied (body : Reply)
| Shutdown.

(** *** Stack trace *)

Definition set_stackFrameHandles (this : GoDebugSession) (hs : Handles (Z * Z))
  : GoDebugSession :=
  {| variableHandles := variableHandles this;
     breakpoints := breakpoints this;
     skipStopEventOnce := skipStopEventOnce this;
     debugState := debugState this;
     delve := delve this;
     localPathSeparator := localPathSeparator this;
     remotePathSeparator := remotePathSeparator this;
     stackFrameHandles := hs;
     stopOnEntry := stopOnEntry this;
     showGlobalVariables := showGlobalVariables this;
     continueEpoch := continueEpoch this;
     continueRequestRunning := continueRequestRunning this |}.

Definition json_of_stackTraceIn (d : Delve) (goroutineId : Z) : Json :=
  JObj ([("id", JNum goroutineId); ("depth", JNum (stackTraceDepth d))]
        ++ (if isApiV1 d then []
            else [("full", JBool false); ("cfg", json_of_LoadConfig (loadConfig d))])).

(** [stackTraceRequest], up to the point where it waits for the backend. *)
Definition stackTraceRequest (this : GoDebugSession) (args_threadId : Z)
  : option (list Effect) :=
  d ← delve this;
  Some [Call (if isApiV1 d then "StacktraceGoroutine" else "Stacktrace")
          [json_of_stackTraceIn d args_threadId]].

(** One [new StackFrame(...)]; [path_basename] is [path.basename] of the host. *)
Definition stackFrameOf (h : Host) (path_basename : string -> string)
    (this : GoDebugSession) (uniqueStackFrameId : Z) (location : DebugLocation)
  : option StackFrame :=
  source ←
    (if String.eqb (loc_file location) "<autogenerated>" then Some None
     else
       localPath ← toLocalPath h this (loc_file location);
       Some (Some {| source_name := path_basename (loc_file location);
                     source_path := localPath |}));
  Some {| frame_id := uniqueStackFrameId;
          frame_name :=
            match loc_function location with
            | Some f => fn_name f
            | None => "<unknown>"
            end;
          frame_source := source;
          frame_line := loc_line location;
          frame_column := 0 |}.

(** [locations.map((location, frameId) => ...)]: a handle is made for every
    location, in order. *)
Fixpoint stackFrames_from (h : Host) (path_basename : string -> string)
    (this : GoDebugSession) (goroutineId : Z) (frameId : nat) (hs : Handles (Z * Z))
    (locations : list DebugLocation) : option (Handles (Z * Z) * list StackFrame) :=
  match locations with
  | [] => Some (hs, [])
  | location :: rest =>
      let '(hs', uniqueStackFrameId) :=
        Handles_create hs (goroutineId, Z.of_nat frameId) in
      frame ← stackFrameOf h path_basename this uniqueStackFrameId location;
      '(hs'', frames) ←
        stackFrames_from h path_basename this goroutineId (S frameId) hs' rest;
      Some (hs'', frame :: frames)
  end.

(** [stackFrames.slice(startFrame)] and [stackFrames.slice(0, levels)], each
    applied when its argument is greater than 0. *)
Definition pageFrames (args_startFrame args_levels : option Z)
    (stackFrames : list StackFrame) : list StackFrame :=
  let stackFrames :=
    match args_startFrame with
    | Some startFrame =>
        if 0 <? startFrame then drop (Z.to_nat startFrame) stackFrames else stackFrames
    | None => stackFrames
    end in
  match args_levels with
  | Some levels => if 0 <? levels then take (Z.to_nat levels) stackFrames else stackFrames
  | None => stackFrames
  end.

(** The callback of the stack trace RPC. *)
Definition stackTraceRequest_callback (h : Host) (path_basename : string -> string)
    (this : GoDebugSession) (args_threadId : Z) (args_startFrame args_levels : option Z)
    (outcome : RpcOutcome (list DebugLocation)) : option (GoDebugSession * list Action) :=
  match outcome with
  | Rejected err =>
      if err_truthy err then
        Some (this,
              map Did (logDelveError err ++
                       [SendErrorResponse 2004
                          ("Unable to produce stack trace: " +:+ dquote +:+ "{e}" +:+ dquote)
                          [("e", err_toString err)]]))
      else None
  | Resolved locations =>
      _ ← delve this;
      '(hs, stackFrames) ←
        stackFrames_from h path_basename this args_threadId 0
          (stackFrameHandles this) locations;
      Some (set_stackFrameHandles this hs,
            [Replied (StackTraceReply (pageFrames args_startFrame args_levels stackFrames)
                                      (Z.of_nat (length locations)))])
  end.

(** *** Evaluate *)

(** [evaluateRequestImpl]: the RPC that is issued. Without a frame id the
    expression is evaluated in the topmost frame of the current goroutine. *)
Definition evaluateRequestImpl (this : GoDebugSession) (args_expression : string)
    (args_frameId : option Z) : option Effect :=
  '(goroutineId, frameId) ←
    (if truthy_num args_frameId
     then Handles_get (stackFrameHandles this) (default 0 args_frameId)
     else Some (-1, 0));
  d ← delve this;
  let scope := json_of_scope goroutineId frameId in
  Some (Call (if isApiV1 d then "EvalSymbol" else "Eval")
          [if isApiV1 d then JObj [("symbol", JStr args_expression); ("scope", scope)]
           else JObj [("Expr", JStr args_expression); ("Scope", scope);
                      ("Cfg", json_of_LoadConfig (loadConfig d))]]).

(** [evaluateRequest], up to the point where it waits for the backend. *)
Definition evaluateRequest (this : GoDebugSession) (args_expression : string)
    (args_frameId : option Z) : option (list Effect) :=
  call ← evaluateRequestImpl this args_expression args_frameId;
  Some [call].

(** The two continuations of [evaluateRequest]. *)
Definition evaluateRequest_callback (this : GoDebugSession)
    (outcome : RpcOutcome DebugVariable) : option (GoDebugSession * list Action) :=
  match outcome with
  | Resolved variable =>
      _ ← delve this;
      let variable := with_fullyQualifiedName variable (name variable) in
      '(hs, _, (result, variablesReference)) ←
        convertDebugVariableToProtocolVariable (variableHandles this) variable;
      Some (set_variableHandles this hs, [Replied (EvaluateReply result variablesReference)])
  | Rejected err =>
      Some (this,
            [Did (SendErrorResponse 2009
                    ("Unable to eval expression: " +:+ dquote +:+ "{e}" +:+ dquote)
                    [("e", err_toString err)])])
  end.

(** *** Running the target *)

(** [Delve.getDebugState]: the RPC it issues. *)
Definition getDebugState : Effect := Call "State" [JObj [("NonBlocking", JBool true)]].

Definition continueRequest (this : GoDebugSession)
  : option (GoDebugSession * list Effect) :=
  '(this, _, effs) ← continue this;
  Some (this, effs ++ [SendResponse NoBody]).

(** [configurationDoneRequest]. When the state cannot be read the handler's
    promise is rejected after the RPC, and nothing else happens. *)
Definition configurationDoneRequest (this : GoDebugSession)
    (out_State : RpcOutcome DebuggerState) : option (GoDebugSession * list Effect) :=
  if stopOnEntry this then
    Some (this, [SendEvent (StoppedEvent "entry" 1 false); SendResponse NoBody])
  else
    _ ← delve this;
    match out_State with
    | Rejected _ => Some (this, [getDebugState])
    | Resolved st =>
        let this := set_debugState this (Some st) in
        if negb (Running st) then
          '(this, effs) ← continueRequest this;
          Some (this, getDebugState :: effs)
        else Some (this, [getDebugState])
    end.

(** [handleReenterDebug(reason)] together with the callback of its goroutine
    listing. *)
Definition reenterDebug (reason : string) (listing : RpcOutcome (list DebugGoroutine))
    (this : GoDebugSession) : option (GoDebugSession * list Effect) :=
  '(this, effs) ← handleReenterDebug this;
  st ← debugState this;
  if exited st then Some (this, effs)
  else
    '(this, effs') ← handleReenterDebug_callback reason listing this;
    Some (this, effs ++ effs').

(** The part that [nextRequest], [stepInRequest] and [stepOutRequest] share:
    the command is sent and the request is answered at once. *)
Definition stepRequest (command : string) (this : GoDebugSession)
  : option (list Effect) :=
  _ ← delve this;
  Some [Call "Command" [JObj [("name", JStr command)]]; SendResponse NoBody].

Definition nextRequest : GoDebugSession -> option (list Effect) := stepRequest "next".
Definition stepInRequest : GoDebugSession -> option (list Effect) := stepRequest "step".
Definition stepOutRequest : GoDebugSession -> option (list Effect) := stepRequest "stepOut".

(** Their callback, the same in the three handlers, with the goroutine
    listing that follows. Without a result the callback throws: with API v2
    when it reads the state out of the envelope, with API v1 when
    [handleReenterDebug] reads the state that is now [null]. *)
Definition stepRequest_callback (outcome : RpcOutcome DebuggerState)
    (listing : RpcOutcome (list DebugGoroutine)) (this : GoDebugSession)
  : option (GoDebugSession * list Effect) :=
  _ ← delve this;
  match outcome with
  | Rejected _ => None
  | Resolved state => reenterDebug "step" listing (set_debugState this (Some state))
  end.

Definition pauseRequest (this : GoDebugSession) : option (list Effect) :=
  _ ← delve this;
  Some [Call "Command" [JObj [("name", JStr "halt")]]; SendResponse NoBody].

Definition pauseRequest_callback (outcome : RpcOutcome DebuggerState)
    (listing : RpcOutcome (list DebugGoroutine)) (this : GoDebugSession)
  : option (GoDebugSession * list Effect) :=
  match outcome with
  | Rejected err =>
      if err_truthy err then
        Some (this,
              logDelveError err ++
              [SendErrorResponse 2010
                 ("Unable to halt execution: " +:+ dquote +:+ "{e}" +:+ dquote)
                 [("e", err_toString err)]])
      else None
  | Resolved state =>
      _ ← delve this;
      reenterDebug "pause" listing (set_debugState this (Some state))
  end.

(** The completion of [continue] with the goroutine listing that follows. *)
Definition continue_completed (closureEpoch : Z) (state : DebuggerState)
    (listing : RpcOutcome (list DebugGoroutine)) (this : GoDebugSession)
  : option (GoDebugSession * list Effect) :=
  let this :=
    if closureEpoch =? continueEpoch this
    then set_continueRequestRunning this false
    else this in
  _ ← delve this;
  reenterDebug "breakpoint" listing (set_debugState this (Some state)).

(** *** The stack trace that follows an error

    [logDelveError] ends by calling [dumpStacktrace], which the effect
    [DumpStacktrace] marks. What the procedure does from there on is given
    here: it reads the state, asks for the stack of one goroutine and, in
    the callback, makes a frame handle for every location, as a stack trace
    request does. *)

(** The goroutine asked about: the current goroutine of the state, else that
    of the current thread; 0 when the state cannot be read or names
    neither. *)
Definition dumpStacktrace_goroutineId (out_State : RpcOutcome DebuggerState) : Z :=
  match out_State with
  | Rejected _ => 0
  | Resolved st =>
      match currentGoroutine st with
      | Some g => g_id g
      | None =>
          match currentThread st with
          | Some thread => th_goroutineID thread
          | None => 0
          end
      end
  end.

(** [dumpStacktrace]: the two RPCs it issues, given the answer to the first. *)
Definition dumpStacktrace (this : GoDebugSession) (out_State : RpcOutcome DebuggerState)
  : option (list Effect) :=
  d ← delve this;
  Some [getDebugState;
        Call (if isApiV1 d then "StacktraceGoroutine" else "Stacktrace")
          [json_of_stackTraceIn d (dumpStacktrace_goroutineId out_State)]].

(** The callback of its stack trace RPC. The flag tells whether the callback
    returns: while it writes the frames to the log it reads the path of each
    frame's source and throws at a frame that has none, after the handles
    are made. *)
Definition dumpStacktrace_callback (h : Host) (path_basename : string -> string)
    (this : GoDebugSession) (goroutineId : Z) (outcome : RpcOutcome (list DebugLocation))
  : option (GoDebugSession * bool) :=
  match outcome with
  | Rejected err => if err_truthy err then Some (this, true) else None
  | Resolved locations =>
      _ ← delve this;
      '(hs, stackFrames) ←
        stackFrames_from h path_basename this goroutineId 0
          (stackFrameHandles this) locations;
      Some (set_stackFrameHandles this hs,
            forallb (fun stackFrame => bool_decide (is_Some (frame_source stackFrame)))
                    stackFrames)
  end.

(** *** Setting breakpoints while the target runs

    Once [setBreakPointsRequest] has sent the halt, four things are still to
    happen, each when its answer arrives: the breakpoints are reconciled,
    the target is resumed, the [continue] that was outstanding completes, as
    the halt makes it, and the goroutine listing that this completion asks
    for is answered. The first two happen in this order, and so do the last
    two; how the two pairs fall together is not the adapter's to choose. *)
Inductive Step :=
| Reconciled
| Resumed
| ContinueCompleted
| GoroutinesListed.

(** The session after the halt, with what the steps leave for one another:
    whether the promise of [setBreakPoints] is settled, whether a goroutine
    listing is outstanding, and what was done so far. *)
Record Halted := {
  session : GoDebugSession;
  breakpointsSettled : bool;
  listingAsked : bool;
  trace : list Effect
}.

(** One step. [closureEpoch] is the epoch of the outstanding [continue],
    [state] the state it completes with, [out_listing] the answer to the
    goroutine listing. The resuming [continue] waits for the promise of
    [setBreakPoints]; the listing is asked for unless the target has
    exited. *)
Definition step (h : Host) (args : SetBreakpointsArguments) (o : BreakpointBackend)
    (arrivals : list Arrival) (closureEpoch : Z) (state : DebuggerState)
    (out_listing : RpcOutcome (list DebugGoroutine)) (st : Halted) (s : Step)
  : option Halted :=
  match s with
  | Reconciled =>
      '(this, effs, isSettled) ← setBreakPoints h (session st) args o arrivals;
      Some {| session := this; breakpointsSettled := isSettled;
              listingAsked := listingAsked st; trace := trace st ++ effs |}
  | Resumed =>
      if breakpointsSettled st then
        '(this, effs) ← setBreakPointsRequest_resume (session st);
        Some {| session := this; breakpointsSettled := true;
                listingAsked := listingAsked st; trace := trace st ++ effs |}
      else Some st
  | ContinueCompleted =>
      '(this, effs) ← continue_callback closureEpoch state (session st);
      Some {| session := this; breakpointsSettled := breakpointsSettled st;
              listingAsked := negb (exited state); trace := trace st ++ effs |}
  | GoroutinesListed =>
      if listingAsked st then
        '(this, effs) ← handleReenterDebug_callback "breakpoint" out_listing (session st);
        Some {| session := this; breakpointsSettled := breakpointsSettled st;
                listingAsked := false; trace := trace st ++ effs |}
      else Some st
  end.

Fixpoint run (h : Host) (args : SetBreakpointsArguments) (o : BreakpointBackend)
    (arrivals : list Arrival) (closureEpoch : Z) (state : DebuggerState)
    (out_listing : RpcOutcome (list DebugGoroutine)) (st : Halted) (steps : list Step)
  : option Halted :=
  match steps with
  | [] => Some st
  | s :: rest =>
      st' ← step h args o arrivals closureEpoch state out_listing st s;
      run h args o arrivals closureEpoch state out_listing st' rest
  end.

Definition halted (this : GoDebugSession) : Halted :=
  {| session := this; breakpointsSettled := false; listingAsked := false; trace := [] |}.

(** *** Disconnect *)

(** The continuation of the promise of [close]: the inherited handler
    answers the request and shuts the session down, once, when the promise is
    first resolved. *)
Fixpoint answerClose (closing : list Effect) : list Action :=
  match closing with
  | [] => []
  | ResolveClose :: rest =>
      Did ResolveClose :: Did (SendResponse NoBody) :: Shutdown :: map Did rest
  | e :: rest => Did e :: answerClose rest
  end.

(** [disconnectRequest]. In a remote session the state is read first and a
    stopped target is resumed; when the state cannot be read the handler's
    promise is rejected and [close] is not reached. *)
Definition disconnectRequest (this : GoDebugSession)
    (out_State : RpcOutcome DebuggerState) (o : CloseOutcomes)
  : option (GoDebugSession * list Action) :=
  d ← delve this;
  if isRemoteDebugging d then
    match out_State with
    | Rejected _ => Some (this, [Did getDebugState])
    | Resolved st =>
        let this := set_debugState this (Some st) in
        '(this, effs) ←
          (if negb (Running st) then
             '(this, _, effs) ← continue this;
             Some (this, effs)
           else Some (this, []));
        closing ← close d o;
        Some (this, map Did (getDebugState :: effs) ++ answerClose closing)
    end
  else
    closing ← close d o;
    Some (this, answerClose closing).

(** ** Go to definition

    The declaration provider that shares the file with the debug adapter.
    The editor's document and the helpers of [./util] are arguments. *)

Definition missingToolMsg : string := "Missing tool: ".

(** What [definitionLocation_godef], [definitionLocation_gogetdoc] and
    [definitionLocation_guru] reject with when their tool is not installed. *)
Definition missingTool (tool : string) : JsErr := ErrString (missingToolMsg +:+ tool).

(** [parseMissingError(err)]; [None] is an [err] that is [null] or
    [undefined]. *)
Definition parseMissingError (err : option JsErr) : bool * option string :=
  match err with
  | Some (ErrString s) =>
      if JS.truthy s && JS.startsWith s missingToolMsg
      then (true, Some (JS.substr s (String.length missingToolMsg)))
      else (false, None)
  | _ => (false, None)
  end.

(** How the rejection handler of [provideDefinition] ends: with [null],
    after prompting for a tool or not, or with the error again. *)
Inductive DefinitionFailure :=
| ResolvedNull (promptForMissingTool : option string)
| RejectedAgain (err : JsErr).

Definition provideDefinition_onRejected (err : option JsErr) : DefinitionFailure :=
  let miss := parseMissingError err in
  if miss.1 then ResolvedNull miss.2
  else
    match err with
    | Some e => if err_truthy e then RejectedAgain e else ResolvedNull None
    | None => ResolvedNull None
    end.

(** [vscode.Position] and [vscode.Range]. *)
Record Position := { pos_line : Z; pos_character : Z }.
Record Range := { range_start : Position; range_end : Position }.

Definition Position_isEqual (p other : Position) : bool :=
  (pos_line p =? pos_line other) && (pos_character p =? pos_character other).

Definition Position_isAfter (p other : Position) : bool :=
  (pos_line other <? pos_line p)
  || ((pos_line p =? pos_line other) && (pos_character other <? pos_character p)).

(** [position.translate(lineDelta, characterDelta)]; a position cannot have a
    negative line or character, the constructor throws. *)
Definition Position_translate (p : Position) (lineDelta characterDelta : Z)
  : option Position :=
  if (pos_line p + lineDelta <? 0) || (pos_character p + characterDelta <? 0) then None
  else Some {| pos_line := pos_line p + lineDelta;
               pos_character := pos_character p + characterDelta |}.

(** What [adjustWordPosition] asks of the document. *)
Record TextDocument := {
  getWordRangeAtPosition : Position -> option Range;
  lineAt_text : Z -> string;
  getText : Range -> string
}.

Definition is_digit (c : ascii) : bool :=
  (48 <=? nat_of_ascii c)%nat && (nat_of_ascii c <=? 57)%nat.

(** A character that [.] does not match. *)
Definition is_lineTerminator (c : ascii) : bool :=
  (nat_of_ascii c =? 10)%nat || (nat_of_ascii c =? 13)%nat.

(** [\d+$] *)
Fixpoint digitsToEnd (s : string) : bool :=
  match s with
  | EmptyString => false
  | String c EmptyString => is_digit c
  | String c s' => is_digit c && digitsToEnd s'
  end.

(** [\d*.?\d+$] *)
Fixpoint numberTail (s : string) : bool :=
  digitsToEnd s
  || match s with
     | EmptyString => false
     | String c s' =>
         (negb (is_lineTerminator c) && digitsToEnd s') || (is_digit c && numberTail s')
     end.

(** [word.match(/^\d+.?\d+$/)] *)
Definition matchesNumber (word : string) : bool :=
  match word with
  | EmptyString => false
  | String c s => is_digit c && numberTail s
  end.

(** [goKeywords.indexOf(word) > 0] *)
Fixpoint indexOfWord (i : Z) (words : list string) (word : string) : Z :=
  match words with
  | [] => -1
  | w :: rest => if String.eqb w word then i else indexOfWord (i + 1) rest word
  end.

(** [adjustWordPosition]: [None] is [[false, null, null]]; the outer [None]
    is an exception. [isPositionInString] and [goKeywords] come from
    [./util]. *)
Definition adjustWordPosition (document : TextDocument)
    (isPositionInString : Position -> bool) (goKeywords : list string)
    (position : Position) : option (option (string * Position)) :=
  let wordRange := getWordRangeAtPosition document position in
  let lineText := lineAt_text document (pos_line position) in
  match wordRange with
  | None => Some None
  | Some range =>
      let word := getText document range in
      if JS.startsWith lineText "//"
         || isPositionInString position
         || matchesNumber word
         || (0 <? indexOfWord 0 goKeywords word)
      then Some None
      else if Position_isEqual position (range_end range)
              && Position_isAfter position (range_start range)
      then
        position' ← Position_translate position 0 (-1);
        Some (Some (word, position'))
      else Some (Some (word, position))
  end.

(** * Specification vocabulary

    Predicates and functions used only to state the properties below. *)

(** A path separator, as [findPathSeparator] yields them. *)
Definition is_separator (sep : string) : Prop := sep = "/" \/ sep = "\".

(** [s] has no dollar sign, the character that introduces a replacement
    pattern. *)
Fixpoint no_dollar (s : string) : bool :=
  match s with
  | EmptyString => true
  | String c s' => negb (Ascii.eqb c "$") && no_dollar s'
  end.

(** Every slash or backslash of [s] is the separator [sep]. *)
Fixpoint separated_by (sep : string) (s : string) : bool :=
  match s with
  | EmptyString => true
  | String c s' =>
      (negb (JS.is_slash c) || String.eqb (String c EmptyString) sep)
      && separated_by sep s'
  end.

(** [mapSlashes c s]: [s] with every slash and backslash turned into [c]. *)
Fixpoint mapSlashes (c : ascii) (s : string) : string :=
  match s with
  | EmptyString => EmptyString
  | String x s' => String (if JS.is_slash x then c else x) (mapSlashes c s')
  end.

(** [substChar r l s]: [s] with every [r] turned into the string [l]. *)
Fixpoint substChar (r : ascii) (l : string) (s : string) : string :=
  match s with
  | EmptyString => EmptyString
  | String x s' => (if Ascii.eqb x r then l else String x "") +:+ substChar r l s'
  end.

(** Two paths that differ at most in the case of their drive letter. *)
Definition same_up_to_drive_case (p q : string) : Prop :=
  fixDriveCasingInWindows p = fixDriveCasingInWindows q.

(** [pat] occurs in [s] at position [i]. *)
Definition occurs_at (pat s : string) (i : nat) : Prop :=
  String.prefix pat (JS.substr s i) = true.

(** [s] is [pre], then [pat], then [rest], and [pat] does not occur in [s]
    before that. *)
Definition first_occurrence (pat s pre rest : string) : Prop :=
  s = pre +:+ pat +:+ rest /\
  forall j, (j < String.length pre)%nat -> ~ occurs_at pat s j.




(** The kinds that [convertDebugVariableToProtocolVariable] renders by its
    last, default case. *)
Definition rendersByDefault (k : GoReflectKind) : bool :=
  match k with
  | UnsafePointer | Ptr | Slice | Map | Array | String_ => false
  | _ => true
  end.

(** The kinds whose rendering leaves the variable as it is. *)
Definition rendersUntouched (k : GoReflectKind) : bool :=
  match k with
  | UnsafePointer | Slice | Map | Array | String_ => true
  | _ => false
  end.




(** An effect that starts a backend: a child process or a connection. *)
Definition startsBackend (e : Effect) : bool :=
  match e with
  | Spawn _ _ _ | ConnectClient _ _ => true
  | _ => false
  end.

(** An error response with code 3000. *)
Definition isError3000 (e : Effect) : bool :=
  match e with
  | SendErrorResponse code _ _ => code =? 3000
  | _ => false
  end.

Definition isDetach (e : Effect) : bool :=
  match e with
  | Call command _ => String.eqb command "Detach"
  | _ => false
  end.

Definition isForcedCleanup (e : Effect) : bool :=
  match e with
  | KillTree _ | RemoveFile _ => true
  | _ => false
  end.

(** Whether every call of a request is answered under a schedule: for each
    of its [n] breakpoints the [CreateBreakpoint] is answered and, later, the
    listing that its rejection handler may have asked for. *)
Definition isListAnswered (i : nat) (a : Arrival) : bool :=
  match a with
  | ListAnswered k => (k =? i)%nat
  | CreateAnswered _ => false
  end.

Fixpoint answered (i : nat) (arrivals : list Arrival) : bool :=
  match arrivals with
  | [] => false
  | CreateAnswered k :: rest =>
      if (k =? i)%nat then existsb (isListAnswered i) rest else answered i rest
  | ListAnswered _ :: rest => answered i rest
  end.

Definition complete (n : nat) (arrivals : list Arrival) : bool :=
  forallb (fun i => answered i arrivals) (seq 0 n).

(** The schedule in which every answer arrives before the next call is
    answered. *)
Definition inRequestOrder (n : nat) : list Arrival :=
  flat_map (fun i => [CreateAnswered i; ListAnswered i]) (seq 0 n).

(** Whether the [n]-th listing of the backend holds a breakpoint at the line
    and in the file of [bpIn]. *)
Definition listedAt (o : BreakpointBackend) (n : nat) (bpIn : DebugBreakpoint) : bool :=
  match on_ListBreakpoints o n with
  | Resolved existing =>
      existsb (fun existingBreakpoint =>
                 (bp_line existingBreakpoint =? bp_line bpIn)
                 && String.eqb (bp_file existingBreakpoint) (bp_file bpIn))
              existing
  | Rejected _ => false
  end.

Definition isListing (e : Effect) : bool :=
  match e with
  | Call command _ => String.eqb command "ListBreakpoints"
  | _ => false
  end.

(** The number of listings that a handler asked for. *)
Definition listingsIn (effects : list Effect) : nat :=
  length (List.filter isListing effects).

(** What the [n]-th listing gives the rejection handler of [bpIn]. *)
Definition adoptedAt (o : BreakpointBackend) (n : nat) (bpIn : DebugBreakpoint)
  : option DebugBreakpoint :=
  match on_ListBreakpoints o n with
  | Resolved existing => matchedBreakpoint existing bpIn
  | Rejected _ => None
  end.

(** What the promise of the breakpoint at position [i] resolves to when
    [asked] listings were asked for. *)
Definition resolvesTo (d : Delve) (o : BreakpointBackend) (remoteFile : string)
    (asked i : nat) (b : SourceBreakpoint) (r : option DebugBreakpoint) : Prop :=
  let bpIn := breakpointIn d remoteFile b in
  match on_CreateBreakpoint o i bpIn with
  | Resolved created => r = Some created
  | Rejected err =>
      if JS.startsWith (err_toString err) "Breakpoint exists at"
      then exists n, (n < asked)%nat /\ r = adoptedAt o n bpIn
      else r = None
  end.

(** What holds of the promises while the answers arrive. *)
Definition creating_ok (d : Delve) (o : BreakpointBackend) (remoteFile : string)
    (requested : list SourceBreakpoint) (st : Creating) : Prop :=
  (forall existing,
      existingBreakpoints st = Some existing ->
      exists n, (n < listings st)%nat /\ on_ListBreakpoints o n = Resolved existing)
  /\ forall i hd,
       handlers st !! i = Some hd ->
       exists b,
         requested !! i = Some b
         /\ match hd with
            | AwaitsListing n =>
                (n < listings st)%nat
                /\ exists err,
                     on_CreateBreakpoint o i (breakpointIn d remoteFile b) = Rejected err
                     /\ JS.startsWith (err_toString err) "Breakpoint exists at" = true
            | ResolvedWith r => resolvesTo d o remoteFile (listings st) i b r
            end.

(** The number of frames that a stack trace request skips, and the number it
    shows out of those available. *)
Definition skippedFrames (args_startFrame : option Z) : nat :=
  match args_startFrame with
  | Some startFrame => if 0 <? startFrame then Z.to_nat startFrame else O
  | None => O
  end.

Definition shownFrames (args_levels : option Z) (available : nat) : nat :=
  match args_levels with
  | Some levels => if 0 <? levels then Nat.min (Z.to_nat levels) available else available
  | None => available
  end.

(** A session in which no handle issued earlier means anything any more. *)
Definition forgetsHandles (this : GoDebugSession) : Prop :=
  (forall variablesReference,
     Handles_get (variableHandles this) variablesReference = None)
  /\ forall frameId, Handles_get (stackFrameHandles this) frameId = None.

(** The command that resumes the target. *)
Definition continueCall : Effect := Call "Command" [JObj [("name", JStr "continue")]].

Definition isStoppedEvent (e : Effect) : bool :=
  match e with SendEvent (StoppedEvent _ _ _) => true | _ => false end.

Definition isResponse (e : Effect) : bool :=
  match e with SendResponse _ => true | _ => false end.

(** The flag that tells dlv where to listen. *)
Definition listenFlag (launchArgs : RequestArguments) : string :=
  "--listen=" +:+ or_empty (req_host launchArgs) +:+ ":"
  +:+ toString10 (default 0 (req_port launchArgs)).

(** The connection to the endpoint of the arguments. *)
Definition connectCall (launchArgs : RequestArguments) : Effect :=
  ConnectClient (default 0 (req_port launchArgs)) (or_empty (req_host launchArgs)).

(** The four ways in which the constructor of [Delve] can end. *)
Inductive LaunchShape (h : Host) (launchArgs : RequestArguments) (l : Launched) : Prop :=
| ShapeRejected err :
    launched_connection l = ConnectionRejected err ->
    launched_effects l = [] ->
    debugProcess (launched_delve l) = None ->
    noDebug (launched_delve l) = false ->
    Delve_onFirstStdout launchArgs l = [] ->
    LaunchShape h launchArgs l
| ShapeRun runArgs cwd :
    launched_connection l = ConnectionResolved ->
    launched_effects l
    = [Spawn (getBinPathWithPreferredGopath h "go") ("run" :: runArgs) cwd] ->
    noDebug (launched_delve l) = true ->
    isRemoteDebugging (launched_delve l) = false ->
    Delve_onFirstStdout launchArgs l = [] ->
    LaunchShape h launchArgs l
| ShapeRemote :
    launched_connection l = ConnectionPending ->
    launched_effects l = [connectCall launchArgs] ->
    debugProcess (launched_delve l) = None ->
    noDebug (launched_delve l) = false ->
    isRemoteDebugging (launched_delve l) = true ->
    Delve_onFirstStdout launchArgs l = [] ->
    LaunchShape h launchArgs l
| ShapeSpawned dlvArgs cwd :
    launched_connection l = ConnectionPending ->
    launched_effects l = [Spawn (req_dlvToolPath launchArgs) dlvArgs cwd] ->
    In "--headless=true" dlvArgs ->
    In (listenFlag launchArgs) dlvArgs ->
    is_Some (debugProcess (launched_delve l)) ->
    noDebug (launched_delve l) = false ->
    isRemoteDebugging (launched_delve l) = false ->
    Delve_onFirstStdout launchArgs l = [connectCall launchArgs] ->
    LaunchShape h launchArgs l.

(** A string without slash or backslash. *)
Fixpoint slashFree (s : string) : bool :=
  match s with
  | EmptyString => true
  | String c s' => negb (JS.is_slash c) && slashFree s'
  end.

(** The local path that a launch or attach request configures, and the
    number of trailing segments it shares with a remote path. *)
Definition localPathOf (args : RequestArguments) : option string :=
  match req_request args with
  | RequestAttach => req_cwd args
  | RequestLaunch => req_program args
  end.

Definition sharedTail (localPath remotePath : string) : nat :=
  sharedSegments (rev (JS.splitSlashes localPath)) (rev (JS.splitSlashes remotePath)).

(** The RPC that clears one breakpoint. *)
Definition clearCall (d : Delve) (existingBP : DebugBreakpoint) : Effect :=
  Call "ClearBreakpoint"
    [if isApiV1 d then JNum (bp_id existingBP)
     else JObj [("Id", JNum (bp_id existingBP))]].


(** The ways two sequences of steps fall together, each keeping its order. *)
Inductive Interleaved {A : Type} : list A -> list A -> list A -> Prop :=
| Interleaved_nil : Interleaved [] [] []
| Interleaved_left (x : A) (l r s : list A) :
    Interleaved l r s -> Interleaved (x :: l) r (x :: s)
| Interleaved_right (y : A) (l r s : list A) :
    Interleaved l r s -> Interleaved l (y :: r) (y :: s).

(** A position that is not before [p] and not after [q]. *)
Definition Position_le (p q : Position) : Prop :=
  pos_line p < pos_line q
  \/ (pos_line p = pos_line q /\ pos_character p <= pos_character q).

Definition Position_lt (p q : Position) : Prop :=
  pos_line p < pos_line q
  \/ (pos_line p = pos_line q /\ pos_character p < pos_character q).

(** * Sample data

    Sessions, requests and backends for the examples below. *)

(** A session attached to a remote backend, with the given roots and
    separators. *)
Definition remoteSession (prog rem lsep rsep : string) : GoDebugSession := {|
  variableHandles := Handles_new;
  breakpoints := ∅;
  skipStopEventOnce := false;
  debugState := None;
  delve := Some {| program := prog; remotePath := rem;
                   loadConfig := {| followPointers := true; maxVariableRecurse := 1;
                                    maxStringLen := 64; maxArrayValues := 64;
                                    maxStructFields := -1 |};
                   noDebug := false; isApiV1 := false; stackTraceDepth := 50;
                   isRemoteDebugging := true; localDebugeePath := None;
                   debugProcess := None; request := RequestAttach |};
  localPathSeparator := lsep;
  remotePathSeparator := rsep;
  stackFrameHandles := Handles_new;
  stopOnEntry := false;
  showGlobalVariables := false;
  continueEpoch := 0;
  continueRequestRunning := false
|}.

Definition exitedState : DebuggerState :=
  {| exited := true; exitStatus := 0; currentThread := None;
     currentGoroutine := None; Running := false |}.

Definition noLocation : DebugLocation :=
  {| loc_pc := 0; loc_file := "/w/main.go"; loc_line := 7; loc_function := None |}.

Definition mainGoroutine : DebugGoroutine :=
  {| g_id := 1; g_currentLoc := noLocation; g_userCurrentLoc := noLocation;
     g_goStatementLoc := noLocation |}.

Definition stoppedState : DebuggerState :=
  {| exited := false; exitStatus := 0; currentThread := None;
     currentGoroutine := Some mainGoroutine; Running := false |}.

Definition launchedDelve : Delve :=
  {| program := "/w/main.go"; remotePath := "";
     loadConfig := defaultLoadConfig; noDebug := false; isApiV1 := false;
     stackTraceDepth := 50; isRemoteDebugging := false;
     localDebugeePath := Some "/w/debug"; debugProcess := Some 4242;
     request := RequestLaunch |}.

Definition launchedSession : GoDebugSession :=
  set_delve GoDebugSession_new (Some launchedDelve).

(** A session under API v1 that attached to a local process. *)
Definition attachedDelve : Delve :=
  {| program := "/w"; remotePath := "";
     loadConfig := defaultLoadConfig; noDebug := false; isApiV1 := true;
     stackTraceDepth := 50; isRemoteDebugging := false;
     localDebugeePath := None; debugProcess := Some 4242;
     request := RequestAttach |}.

Definition attachedSession : GoDebugSession :=
  set_delve GoDebugSession_new (Some attachedDelve).

Definition exitedHalt : CloseOutcomes :=
  {| haltTimedOut := false;
     out_Command_halt := Rejected (ErrObject "Error: Process 4242 has exited with status 0");
     out_Detach := Resolved tt |}.

Definition launchWithoutProgram : RequestArguments :=
  {| req_request := RequestLaunch; req_program := None; req_processId := None;
     req_stopOnEntry := None; req_args := None; req_showLog := None;
     req_logOutput := None; req_cwd := None; req_env := None;
     req_mode := Some "debug"; req_remotePath := None; req_port := Some 38000;
     req_host := None; req_buildFlags := None; req_init := None; req_trace := None;
     req_envFile := EnvFileAbsent; req_backend := None; req_output := None;
     req_noDebug := false; req_dlvLoadConfig := None;
     req_dlvToolPath := "/home/u/go/bin/dlv"; req_apiVersion := Some 2;
     req_stackTraceDepth := None; req_showGlobalVariables := None;
     req_packagePathToGoModPathMap := ∅ |}.

Definition attachWithoutProcessId : RequestArguments :=
  {| req_request := RequestAttach; req_program := None; req_processId := None;
     req_stopOnEntry := None; req_args := None; req_showLog := None;
     req_logOutput := None; req_cwd := Some "/home/u/proj"; req_env := None;
     req_mode := Some "local"; req_remotePath := None; req_port := Some 38000;
     req_host := None; req_buildFlags := None; req_init := None; req_trace := None;
     req_envFile := EnvFileAbsent; req_backend := None; req_output := None;
     req_noDebug := false; req_dlvLoadConfig := None;
     req_dlvToolPath := "/home/u/go/bin/dlv"; req_apiVersion := Some 2;
     req_stackTraceDepth := None; req_showGlobalVariables := None;
     req_packagePathToGoModPathMap := ∅ |}.

Definition mainGo : string := "/w/main.go".

Definition backendBreakpoint (id line : Z) : DebugBreakpoint :=
  {| bp_addr := 4198400 + line; bp_file := mainGo; bp_id := id; bp_name := "";
     bp_line := line; bp_loadArgs := None; bp_loadLocals := None; bp_cond := None |}.

(** A request for lines 7, 9 and 12 of one file. *)
Definition threeBreakpoints : SetBreakpointsArguments :=
  {| args_source_path := mainGo;
     args_breakpoints := [{| sb_line := 7; sb_condition := None |};
                          {| sb_line := 9; sb_condition := None |};
                          {| sb_line := 12; sb_condition := None |}];
     args_lines := Some [7; 9; 12] |}.

(** A backend that creates the first breakpoint one line further down, has
    the second one already, and finds no statement for the third. *)
Definition pickyBackend : BreakpointBackend :=
  {| on_ClearBreakpoint := fun _ => Resolved tt;
     on_CreateBreakpoint := fun i bpIn =>
       match i with
       | O => Resolved (backendBreakpoint 1 8)
       | S O => Rejected (ErrObject "Breakpoint exists at /w/main.go:9 at 401009")
       | _ => Rejected (ErrObject "could not find statement at /w/main.go:12")
       end;
     on_ListBreakpoints := fun _ => Resolved [backendBreakpoint 3 4; backendBreakpoint 2 9] |}.

(** A session that has one breakpoint recorded for the file, and a backend
    that fails to clear it. *)
Definition sessionWithBreakpoint : GoDebugSession :=
  set_breakpoints launchedSession {[ mainGo := [backendBreakpoint 5 7] ]}.

Definition failingClearBackend : BreakpointBackend :=
  {| on_ClearBreakpoint := fun _ => Rejected (ErrObject "Error: connection lost");
     on_CreateBreakpoint := fun _ bpIn => Resolved bpIn;
     on_ListBreakpoints := fun _ => Resolved [] |}.

(** A request for lines 9 and 12, and a backend that has both breakpoints
    already and answers the first listing only. *)
Definition twoExisting : SetBreakpointsArguments :=
  {| args_source_path := mainGo;
     args_breakpoints := [{| sb_line := 9; sb_condition := None |};
                          {| sb_line := 12; sb_condition := None |}];
     args_lines := Some [9; 12] |}.

Definition forgetfulBackend : BreakpointBackend :=
  {| on_ClearBreakpoint := fun _ => Resolved tt;
     on_CreateBreakpoint := fun _ bpIn =>
       Rejected (ErrObject "Breakpoint exists at /w/main.go");
     on_ListBreakpoints := fun n =>
       match n with
       | O => Resolved [backendBreakpoint 2 9; backendBreakpoint 3 12]
       | S _ => Rejected (ErrObject "Error: connection lost")
       end |}.

Definition variable (n : string) (k : GoReflectKind) (fl line : Z)
    (cs : list DebugVariable) : DebugVariable :=
  mkDebugVariable n 49152 "main.T" "main.T" k fl false line "" 0 0 cs "" "" 49152.

(** A struct [s] with one field [f], as the backend lists it. *)
Definition structWithField : DebugVariable :=
  variable "s" Struct 0 10 [variable "f" Int 0 0 []].

(** Two locations of a stack, the second without a function. *)
Definition twoLocations : list DebugLocation :=
  [{| loc_pc := 4198500; loc_file := "/w/main.go"; loc_line := 12;
      loc_function := Some {| fn_name := "main.work" |} |};
   {| loc_pc := 4198400; loc_file := "/w/main.go"; loc_line := 7;
      loc_function := None |}].

Definition runningState : DebuggerState :=
  {| exited := false; exitStatus := 0; currentThread := None;
     currentGoroutine := None; Running := true |}.

(** A launched session with a continue outstanding. *)
Definition runningSession : GoDebugSession :=
  set_continueRequestRunning
    (set_continueEpoch (set_debugState launchedSession (Some runningState)) 1) true.

(** A POSIX workstation with the program [/w/main.go] and dlv installed. *)
Definition workstation : Host := {|
  platform_win32 := false;
  process_env := {[ "GOPATH" := "/home/u/go" ]};
  path_join := Posix.join;
  path_normalize := Posix.normalize;
  path_delimiter := Posix.delimiter;
  path_dirname := Posix.dirname;
  path_extname := Posix.extname;
  path_isAbsolute := Posix.isAbsolute;
  path_resolve := Posix.resolve "/";
  convertClientPathToDebugger := fun p => p;
  convertDebuggerPathToClient := fun p => p;
  random := fun low _ => low + 20000;
  existsSync := fun p => String.eqb p "/home/u/go/bin/dlv";
  lstatSync_isDirectory := fun p =>
    if String.eqb p "/w" then Some true
    else if String.eqb p "/w/main.go" then Some false
    else None;
  spawn_pid := 4242;
  parseEnvFile := fun _ => None;
  getInferredGopath := fun _ => None;
  getCurrentGoWorkspaceFromGOPATH := fun _ _ => "";
  getBinPathWithPreferredGopath := fun tool => "/usr/local/go/bin/" +:+ tool
|}.

(** A launch of [/w/main.go], with or without debugging. *)
Definition launchMainGo (nodebug : bool) : RequestArguments :=
  {| req_request := RequestLaunch; req_program := Some "/w/main.go";
     req_processId := None; req_stopOnEntry := None; req_args := Some ["-v"];
     req_showLog := None; req_logOutput := None; req_cwd := None; req_env := None;
     req_mode := Some "debug"; req_remotePath := None; req_port := Some 38000;
     req_host := Some "127.0.0.1"; req_buildFlags := None; req_init := None;
     req_trace := None; req_envFile := EnvFileAbsent; req_backend := None;
     req_output := None; req_noDebug := nodebug; req_dlvLoadConfig := None;
     req_dlvToolPath := "/home/u/go/bin/dlv"; req_apiVersion := Some 2;
     req_stackTraceDepth := None; req_showGlobalVariables := None;
     req_packagePathToGoModPathMap := ∅ |}.

(** An attach to a remote backend whose sources are under [/go/src/proj]. *)
Definition attachRemote : RequestArguments :=
  {| req_request := RequestAttach; req_program := None; req_processId := None;
     req_stopOnEntry := None; req_args := None; req_showLog := None;
     req_logOutput := None; req_cwd := Some "/home/u/proj"; req_env := None;
     req_mode := Some "remote"; req_remotePath := Some "/go/src/proj";
     req_port := Some 2345; req_host := Some "10.0.0.5"; req_buildFlags := None;
     req_init := None; req_trace := None; req_envFile := EnvFileAbsent;
     req_backend := None; req_output := None; req_noDebug := false;
     req_dlvLoadConfig := None; req_dlvToolPath := "/home/u/go/bin/dlv";
     req_apiVersion := Some 2; req_stackTraceDepth := None;
     req_showGlobalVariables := None; req_packagePathToGoModPathMap := ∅ |}.

(** A session stopped in a frame that the client knows as frame 1000, and a
    backend that lists one local and no argument. *)
Definition stoppedInFrame : GoDebugSession :=
  set_stackFrameHandles (set_debugState launchedSession (Some stoppedState))
    (Handles_create Handles_new (1, 0)).1.

Definition oneLocal : ScopesOutcomes :=
  {| out_ListLocalVars := Resolved [variable "x" Int 0 3 []];
     out_ListFunctionArgs := Resolved [];
     out_getPackageInfo := None;
     out_ListPackageVars := Resolved [] |}.

(** A document of one line that holds one word. *)
Definition oneWordDocument (word : string) : TextDocument :=
  {| getWordRangeAtPosition := fun p =>
       if (pos_line p =? 0) && (0 <=? pos_character p)
          && (pos_character p <=? Z.of_nat (String.length word))
       then Some {| range_start := {| pos_line := 0; pos_character := 0 |};
                    range_end := {| pos_line := 0;
                                    pos_character := Z.of_nat (String.length word) |} |}
       else None;
     lineAt_text := fun _ => word;
     getText := fun _ => word |}.

(** * Properties *)

(** ** Strings *)

Section Strings.

Implicit Types s p : string.

Lemma sapp_nil_l s : "" +:+ s = s.
Proof. reflexivity. Qed.

Lemma sapp_cons c s1 s2 : String c s1 +:+ s2 = String c (s1 +:+ s2).
Proof. reflexivity. Qed.

Lemma sapp_nil_r s : s +:+ "" = s.
Proof. induction s as [|c s IH]; [done|]. by rewrite sapp_cons, IH. Qed.

Lemma sapp_assoc s1 s2 s3 : (s1 +:+ s2) +:+ s3 = s1 +:+ (s2 +:+ s3).
Proof. induction s1 as [|c s1 IH]; [done|]. by rewrite !sapp_cons, IH. Qed.

Lemma slength_app s1 s2 :
  String.length (s1 +:+ s2) = (String.length s1 + String.length s2)%nat.
Proof. induction s1 as [|c s1 IH]; [done|]. rewrite sapp_cons. simpl. by rewrite IH. Qed.

Lemma prefix_nil s : String.prefix "" s = true.
Proof. by destruct s. Qed.

Lemma prefix_app p s : String.prefix p (p +:+ s) = true.
Proof.
  induction p as [|c p IH]; [apply prefix_nil|].
  rewrite sapp_cons. simpl. by destruct (ascii_dec c c).
Qed.

Lemma prefix_inv p s : String.prefix p s = true -> exists t, s = p +:+ t.
Proof.
  revert s. induction p as [|c p IH]; intros s H; [by exists s|].
  destruct s as [|c' s]; [done|]. simpl in H.
  destruct (ascii_dec c c') as [->|]; [|done].
  destruct (IH _ H) as [t ->]. by exists t.
Qed.

Lemma find_unfold s pat :
  JS.find s pat =
  if String.prefix pat s then Some O
  else match s with
       | EmptyString => None
       | String _ s' => option_map S (JS.find s' pat)
       end.
Proof. by destruct s. Qed.

Lemma find_prefix p s : JS.find (p +:+ s) p = Some O.
Proof. by rewrite find_unfold, prefix_app. Qed.

Lemma take_0 s : JS.take s 0 = "".
Proof. by destruct s. Qed.

Lemma substr_0 s : JS.substr s 0 = s.
Proof. by destruct s. Qed.

Lemma substr_app p s : JS.substr (p +:+ s) (String.length p) = s.
Proof.
  induction p as [|c p IH]; [apply substr_0|]. by rewrite sapp_cons.
Qed.

Lemma take_app p s : JS.take (p +:+ s) (String.length p) = p.
Proof.
  induction p as [|c p IH]; [apply take_0|].
  rewrite sapp_cons. simpl. by rewrite IH.
Qed.

Lemma expand_no_dollar (r m b a : string) : no_dollar r = true -> JS.expand r m b a = r.
Proof.
  induction r as [|c r IH]; [done|]. simpl. intros [Hc Hr]%andb_true_iff.
  destruct (Ascii.eqb c "$"); [done|]. by rewrite IH.
Qed.

(** Replacing a prefix: the first occurrence of a prefix is the prefix. *)
Lemma replace_prefix (p s r : string) :
  no_dollar r = true -> JS.replace (p +:+ s) p r = r +:+ s.
Proof.
  intros Hr. unfold JS.replace. rewrite find_prefix. simpl.
  by rewrite take_0, substr_app, expand_no_dollar.
Qed.

(** A one-character replacement stands for itself. *)
Lemma expand_char c m b a : JS.expand (String c "") m b a = String c "".
Proof. simpl. by destruct (Ascii.eqb c "$"). Qed.

Lemma replaceSlashes_char c s : JS.replaceSlashes s (String c "") = mapSlashes c s.
Proof.
  unfold JS.replaceSlashes.
  enough (forall b, JS.replaceEach_from JS.is_slash b s (String c "") = mapSlashes c s)
    by done.
  induction s as [|x s IH]; intros b; [done|].
  cbn [JS.replaceEach_from mapSlashes].
  rewrite IH. destruct (JS.is_slash x); [by rewrite expand_char|done].
Qed.

Lemma mapSlashes_app c s1 s2 :
  mapSlashes c (s1 +:+ s2) = mapSlashes c s1 +:+ mapSlashes c s2.
Proof. induction s1 as [|x s1 IH]; [done|]. rewrite sapp_cons. simpl. by rewrite IH. Qed.

Lemma split_from_cons sep k cur s : exists x l, JS.split_from sep k cur s = x :: l.
Proof.
  revert k cur. induction s as [|c s IH]; intros k cur; [by eexists _, _|].
  cbn [JS.split_from]. destruct k; [|apply IH].
  destruct (String.prefix sep (String c s)); [eauto|apply IH].
Qed.

Lemma concat_cons sep x y l :
  String.concat sep (x :: y :: l) = x +:+ sep +:+ String.concat sep (y :: l).
Proof. reflexivity. Qed.

(** Splitting at a character and joining with a string substitutes the
    string for the character. *)
Lemma join_split_char (r : ascii) (l s : string) :
  JS.join (JS.split s (String r "")) l = substChar r l s.
Proof.
  unfold JS.join, JS.split.
  enough (forall cur,
             String.concat l (JS.split_from (String r "") 0 cur s)
             = cur +:+ substChar r l s) as H by apply H.
  induction s as [|c s IH]; intros cur; [simpl; by rewrite sapp_nil_r|].
  cbn [JS.split_from String.prefix substChar String.length Nat.sub].
  destruct (ascii_dec r c) as [->|Hne].
  - rewrite prefix_nil, Ascii.eqb_refl.
    destruct (split_from_cons (String c "") 0 "" s) as (x & l' & Hx).
    specialize (IH ""). rewrite Hx in *. by rewrite concat_cons, IH.
  - rewrite IH, sapp_assoc.
    by destruct (Ascii.eqb_spec c r) as [->|_].
Qed.

Lemma substChar_app (r : ascii) (l s1 s2 : string) :
  substChar r l (s1 +:+ s2) = substChar r l s1 +:+ substChar r l s2.
Proof.
  induction s1 as [|x s1 IH]; [done|]. rewrite sapp_cons. simpl.
  by rewrite IH, sapp_assoc.
Qed.

End Strings.

(** ** Path mapper *)

Lemma findPathSeparator_is_separator (filePath : string) :
  is_separator (findPathSeparator filePath).
Proof. unfold findPathSeparator, is_separator. destruct (JS.includes _ _); auto. Qed.

Lemma separator_char (sep : string) :
  is_separator sep -> exists c, sep = String c "" /\ JS.is_slash c = true.
Proof. intros [-> | ->]; eexists; split; reflexivity. Qed.

Lemma separated_by_app (sep s1 s2 : string) :
  separated_by sep (s1 +:+ s2) = separated_by sep s1 && separated_by sep s2.
Proof.
  induction s1 as [|c s1 IH]; [done|]. rewrite sapp_cons. simpl.
  by rewrite IH, andb_assoc.
Qed.

(** Writing the local separator for the remote one changes nothing in a
    string whose slashes are all local separators already. *)
Lemma substChar_separated (r : ascii) (l s : string) :
  JS.is_slash r = true -> separated_by l s = true -> substChar r l s = s.
Proof.
  intros Hr. induction s as [|x s IH]; [done|]. cbn [separated_by substChar].
  intros [Hx Hs]%andb_true_iff. rewrite (IH Hs).
  destruct (Ascii.eqb_spec x r) as [->|Hne]; [|done].
  rewrite Hr in Hx. cbn [negb orb] in Hx. by apply String.eqb_eq in Hx as <-.
Qed.

(** Going to the remote separator and back gives the string again. *)
Lemma substChar_mapSlashes (r : ascii) (l s : string) :
  JS.is_slash r = true -> separated_by l s = true ->
  substChar r l (mapSlashes r s) = s.
Proof.
  intros Hr. induction s as [|x s IH]; [done|].
  cbn [separated_by substChar mapSlashes].
  intros [Hx Hs]%andb_true_iff. rewrite (IH Hs).
  destruct (JS.is_slash x) eqn:Hsl.
  - rewrite Ascii.eqb_refl. cbn [negb orb] in Hx. by apply String.eqb_eq in Hx as <-.
  - destruct (Ascii.eqb_spec x r) as [->|Hne]; [congruence|done].
Qed.

Lemma length_eqb_0 (s : string) : s <> "" -> (String.length s =? 0)%nat = false.
Proof. by destruct s. Qed.

(** What [toDebuggerPath] gives for a path under the program root. *)
Lemma toDebuggerPath_under_root (h : Host) (this : GoDebugSession) (d : Delve)
    (c : ascii) (rest : string) :
  delve this = Some d ->
  remotePath d <> "" ->
  remotePathSeparator this = String c "" ->
  no_dollar (remotePath d) = true ->
  toDebuggerPath h this (program d +:+ rest)
  = Some (remotePath d +:+ mapSlashes c rest).
Proof.
  intros Hd Hrem Hsep Hdollar. unfold toDebuggerPath. rewrite Hd.
  cbn [mbind option_bind].
  rewrite (length_eqb_0 _ Hrem), Hsep, !replaceSlashes_char, mapSlashes_app.
  by rewrite replace_prefix.
Qed.

(** What [toLocalPath] gives for a path under the remote root. *)
Lemma toLocalPath_under_root (h : Host) (this : GoDebugSession) (d : Delve)
    (c : ascii) (rest : string) :
  delve this = Some d ->
  remotePath d <> "" ->
  remotePathSeparator this = String c "" ->
  no_dollar (program d) = true ->
  toLocalPath h this (remotePath d +:+ rest)
  = Some (substChar c (localPathSeparator this) (program d +:+ rest)).
Proof.
  intros Hd Hrem Hsep Hdollar. unfold toLocalPath. rewrite Hd.
  cbn [mbind option_bind].
  rewrite (length_eqb_0 _ Hrem), Hsep. unfold JS.startsWith.
  rewrite prefix_app. cbn [negb].
  by rewrite replace_prefix, join_split_char.
Qed.

(** C4 (as amended). For a local path under the program root, with a remote
    root configured: when neither root contains a dollar sign and every slash
    or backslash of the path is the local separator, converting the path with
    [toDebuggerPath] and the result back with [toLocalPath] yields the path
    itself, character for character. *)
Theorem path_round_trip (h : Host) (this : GoDebugSession) (d : Delve) (P : string) :
  delve this = Some d ->
  remotePath d <> "" ->
  is_separator (remotePathSeparator this) ->
  no_dollar (program d) = true ->
  no_dollar (remotePath d) = true ->
  JS.startsWith P (program d) = true ->
  separated_by (localPathSeparator this) P = true ->
  toDebuggerPath h this P ≫= toLocalPath h this = Some P.
Proof.
  intros Hd Hrem Hsep Hprog Hremd Hunder Hslashes.
  destruct (separator_char _ Hsep) as (c & Hc & Hslash).
  destruct (prefix_inv _ _ Hunder) as [rest ->].
  rewrite separated_by_app in Hslashes.
  apply andb_true_iff in Hslashes as [Hs1 Hs2].
  rewrite (toDebuggerPath_under_root h this d c rest) by done. simpl.
  rewrite (toLocalPath_under_root h this d c) by done.
  rewrite substChar_app, substChar_separated, substChar_mapSlashes; done.
Qed.

(** The round trip of the remote-attach scenario of the specification. *)
Lemma path_round_trip_witness :
  toDebuggerPath (posix_host None None)
    (remoteSession "/home/u/proj" "/srv/build" "/" "/") "/home/u/proj/pkg/foo.go"
  ≫= toLocalPath (posix_host None None)
       (remoteSession "/home/u/proj" "/srv/build" "/" "/")
  = Some "/home/u/proj/pkg/foo.go".
Proof.
  apply (path_round_trip _ _
           {| program := "/home/u/proj"; remotePath := "/srv/build";
              loadConfig := defaultLoadConfig; noDebug := false; isApiV1 := false;
              stackTraceDepth := 50; isRemoteDebugging := true;
              localDebugeePath := None; debugProcess := None;
              request := RequestAttach |}).
  - reflexivity.
  - discriminate.
  - left. reflexivity.
  - reflexivity.
  - reflexivity.
  - reflexivity.
  - reflexivity.
Defined.

(** A Windows workspace against a POSIX backend: the separators differ. *)
Example path_round_trip_windows :
  toDebuggerPath (posix_host None None)
    (remoteSession "C:\proj" "/srv/build" "\" "/") "C:\proj\pkg\foo.go"
  = Some "/srv/build/pkg/foo.go"
  /\ toLocalPath (posix_host None None)
       (remoteSession "C:\proj" "/srv/build" "\" "/") "/srv/build/pkg/foo.go"
     = Some "C:\proj\pkg\foo.go".
Proof. split; reflexivity. Qed.

(** C4 (counterexample). On a POSIX host a file name may contain a backslash.
    [toDebuggerPath] turns it into the remote separator and [toLocalPath]
    cannot tell it from a separator any more: the path that comes back is
    another one, also up to the case of a drive letter. *)
Lemma path_round_trip_counterexample :
  let h := posix_host None None in
  let this := remoteSession "/w" "/r" "/" "/" in
  let P := "/w/a\b.go" in
  JS.startsWith P "/w" = true
  /\ toDebuggerPath h this P = Some "/r/a/b.go"
  /\ (toDebuggerPath h this P ≫= toLocalPath h this) = Some "/w/a/b.go"
  /\ ~ same_up_to_drive_case "/w/a/b.go" P.
Proof.
  repeat split; try reflexivity. unfold same_up_to_drive_case. discriminate.
Qed.

(** [find] returns the position of the first occurrence. *)
Lemma find_first_occurrence (pat s pre rest : string) :
  first_occurrence pat s pre rest -> JS.find s pat = Some (String.length pre).
Proof.
  intros [-> Hfirst]. induction pre as [|c pre IH]; [exact (find_prefix pat rest)|].
  rewrite find_unfold.
  destruct (String.prefix pat (String c pre +:+ pat +:+ rest)) eqn:Hp.
  { destruct (Hfirst O); [simpl; lia|]. unfold occurs_at. by rewrite substr_0. }
  rewrite sapp_cons, IH; [done|].
  intros j Hj. apply (Hfirst (S j)). simpl. lia.
Qed.

Lemma indexOf_first_occurrence (pat s pre rest : string) :
  first_occurrence pat s pre rest ->
  JS.indexOf s pat = Z.of_nat (String.length pre)
  /\ JS.substr s (String.length pre) = pat +:+ rest.
Proof.
  intros H. unfold JS.indexOf. rewrite (find_first_occurrence _ _ _ _ H).
  destruct H as [-> _]. by rewrite substr_app.
Qed.

Lemma length_pos (s : string) : s <> "" -> (0 <? Z.of_nat (String.length s)) = true.
Proof. destruct s; [done|]. intros _. apply Z.ltb_lt. simpl String.length. lia. Qed.

Lemma ltb_0_false (goroot : option string) (index : Z) :
  truthy_opt goroot = false \/ index <= 0 ->
  truthy_opt goroot && (0 <? index) = false.
Proof.
  intros [-> | H]; [done|]. apply andb_false_iff. right. lia.
Qed.

(** C5 (as amended). For a remote path that does not start with the remote
    root, [toLocalPath] applies these rules in order. (1) If GOROOT is set
    and not empty and the first occurrence of [<sep>src<sep>] is at a
    position greater than 0, the result is GOROOT joined with the suffix that
    starts at that occurrence. (2) Otherwise, if the first element of GOPATH
    is not empty and the first occurrence of [<sep>pkg<sep>mod<sep>] is at a
    position greater than 0, the result is that element joined with the
    suffix that starts at that occurrence, its remote separators written as
    local ones. (3) Otherwise the generic rule applies: the remote root, where
    it occurs, is replaced by the program root and the separators are
    rewritten. *)
Theorem toLocalPath_fallback (h : Host) (this : GoDebugSession) (d : Delve)
    (p : string) :
  delve this = Some d ->
  remotePath d <> "" ->
  JS.startsWith p (remotePath d) = false ->
  let sep := remotePathSeparator this in
  let srcMarker := sep +:+ "src" +:+ sep in
  let modMarker := sep +:+ "pkg" +:+ sep +:+ "mod" +:+ sep in
  let goroot := process_env h !! "GOROOT" in
  let gopath :=
    head (JS.split (or_empty (process_env h !! "GOPATH")) (path_delimiter h)) in
  (forall pre rest,
      truthy_opt goroot = true ->
      first_occurrence srcMarker p pre rest -> pre <> "" ->
      toLocalPath h this p
      = Some (path_join h (or_empty goroot) (srcMarker +:+ rest)))
  /\ (forall pre rest,
        truthy_opt goroot = false \/ JS.indexOf p srcMarker <= 0 ->
        truthy_opt gopath = true ->
        first_occurrence modMarker p pre rest -> pre <> "" ->
        toLocalPath h this p
        = Some (path_join h (or_empty gopath)
                  (JS.join (JS.split (modMarker +:+ rest) sep)
                           (localPathSeparator this))))
  /\ (truthy_opt goroot = false \/ JS.indexOf p srcMarker <= 0 ->
      truthy_opt gopath = false \/ JS.indexOf p modMarker <= 0 ->
      toLocalPath h this p
      = Some (JS.join (JS.split (JS.replace p (remotePath d) (program d)) sep)
                      (localPathSeparator this))).
Proof.
  intros Hd Hrem Hstart sep srcMarker modMarker goroot gopath.
  assert (Hunfold :
    toLocalPath h this p =
    if truthy_opt goroot && (0 <? JS.indexOf p srcMarker) then
      Some (path_join h (or_empty goroot)
              (JS.substr p (Z.to_nat (JS.indexOf p srcMarker))))
    else if truthy_opt gopath && (0 <? JS.indexOf p modMarker) then
      Some (path_join h (or_empty gopath)
              (JS.join (JS.split (JS.substr p (Z.to_nat (JS.indexOf p modMarker))) sep)
                       (localPathSeparator this)))
    else Some (JS.join (JS.split (JS.replace p (remotePath d) (program d)) sep)
                       (localPathSeparator this))).
  { unfold toLocalPath. rewrite Hd. cbn [mbind option_bind].
    by rewrite (length_eqb_0 _ Hrem), Hstart. }
  rewrite Hunfold. split; [|split].
  - intros pre rest Hgo Hocc Hpre.
    destruct (indexOf_first_occurrence _ _ _ _ Hocc) as [-> Hsub].
    by rewrite Hgo, (length_pos _ Hpre), Nat2Z.id, Hsub.
  - intros pre rest Hno Hgp Hocc Hpre.
    rewrite (ltb_0_false _ _ Hno).
    destruct (indexOf_first_occurrence _ _ _ _ Hocc) as [-> Hsub].
    by rewrite Hgp, (length_pos _ Hpre), Nat2Z.id, Hsub.
  - intros Hno1 Hno2. by rewrite (ltb_0_false _ _ Hno1), (ltb_0_false _ _ Hno2).
Qed.

(** The module-cache example of the specification, by the second rule. *)
Lemma toLocalPath_fallback_witness :
  toLocalPath (posix_host None (Some "/home/u/go"))
    (remoteSession "/home/u/proj" "/srv/build" "/" "/")
    "/root/go/pkg/mod/rsc.io/quote@v1.5.2/quote.go"
  = Some "/home/u/go/pkg/mod/rsc.io/quote@v1.5.2/quote.go".
Proof.
  destruct (toLocalPath_fallback (posix_host None (Some "/home/u/go"))
              (remoteSession "/home/u/proj" "/srv/build" "/" "/")
              {| program := "/home/u/proj"; remotePath := "/srv/build";
                 loadConfig := defaultLoadConfig; noDebug := false; isApiV1 := false;
                 stackTraceDepth := 50; isRemoteDebugging := true;
                 localDebugeePath := None; debugProcess := None;
                 request := RequestAttach |}
              "/root/go/pkg/mod/rsc.io/quote@v1.5.2/quote.go")
    as (_ & Hmod & _).
  - reflexivity.
  - discriminate.
  - reflexivity.
  - rewrite (Hmod "/root/go" "rsc.io/quote@v1.5.2/quote.go").
    + reflexivity.
    + left. reflexivity.
    + reflexivity.
    + split; [reflexivity|].
      intros j Hj. unfold occurs_at.
      do 8 (destruct j as [|j]; [discriminate|]). simpl in Hj. lia.
    + discriminate.
Defined.

(** The same path is mapped the same way whatever GOROOT is: it has no
    [/src/] in it. *)
Example toLocalPath_module_cache (goroot : option string) :
  toLocalPath (posix_host goroot (Some "/home/u/go"))
    (remoteSession "/home/u/proj" "/srv/build" "/" "/")
    "/root/go/pkg/mod/rsc.io/quote@v1.5.2/quote.go"
  = Some "/home/u/go/pkg/mod/rsc.io/quote@v1.5.2/quote.go".
Proof. destruct goroot as [[|c g]|]; reflexivity. Qed.

(** A standard-library path by the first rule; [path.join] normalises it. *)
Example toLocalPath_goroot :
  toLocalPath (posix_host (Some "/usr/local/go") None)
    (remoteSession "/home/u/proj" "/srv/build" "/" "/")
    "/usr/lib/go/src/fmt/../fmt/print.go"
  = Some "/usr/local/go/src/fmt/print.go".
Proof. reflexivity. Qed.

(** C5 (counterexample). The path [/src/fmt/print.go] contains [/src/] and
    GOROOT is set, yet the marker stands at position 0 and the first rule is
    passed over: the path comes back unchanged, not joined to GOROOT. *)
Lemma toLocalPath_fallback_counterexample :
  let h := posix_host (Some "/usr/local/go") None in
  let this := remoteSession "/home/u/proj" "/srv/build" "/" "/" in
  let p := "/src/fmt/print.go" in
  JS.startsWith p "/srv/build" = false
  /\ JS.includes p "/src/" = true
  /\ JS.indexOf p "/src/" = 0
  /\ process_env h !! "GOROOT" = Some "/usr/local/go"
  /\ path_join h "/usr/local/go" (JS.substr p 0) = "/usr/local/go/src/fmt/print.go"
  /\ toLocalPath h this p = Some "/src/fmt/print.go".
Proof. repeat split; reflexivity. Qed.

(** ** Threads and setVariable *)

(** C9. When the callback of [ListGoroutines] runs while the last observed
    debugger state has [exited] set, the threads request is answered with a
    successful response that holds no thread, whatever the backend answered:
    an error is ignored, and no error response is sent. *)
Theorem threads_after_exit (this : GoDebugSession) (st : DebuggerState)
    (outcome : RpcOutcome (list DebugGoroutine)) :
  debugState this = Some st ->
  exited st = true ->
  threadsRequest_callback this outcome = Some [SendResponse (ThreadsBody [])].
Proof. intros Hst Hexit. unfold threadsRequest_callback. by rewrite Hst, Hexit. Qed.

Lemma threads_after_exit_witness :
  threadsRequest_callback
    (set_debugState (remoteSession "/w" "/r" "/" "/") (Some exitedState))
    (Rejected (ErrObject "Error: Process 4242 has exited with status 0"))
  = Some [SendResponse (ThreadsBody [])].
Proof.
  apply (threads_after_exit _ exitedState); reflexivity.
Defined.

(** Without the exit, the same error is reported with code 2003. *)
Example threads_error_reported :
  threadsRequest_callback (remoteSession "/w" "/r" "/" "/")
    (Rejected (ErrObject "Error: connection lost"))
  = Some [DumpStacktrace;
          SendErrorResponse 2003
            ("Unable to display threads: " +:+ dquote +:+ "{e}" +:+ dquote)
            [("e", "Error: connection lost")]].
Proof. reflexivity. Qed.

(** C10. A setVariable request issues one RPC, the assignment, and when the
    backend reports no error the response carries the value string of the
    request itself: nothing is read back from the backend. *)
Theorem setVariable_echoes_value (this : GoDebugSession) (st : DebuggerState)
    (g : DebugGoroutine) (d : Delve) (args_name args_value : string) :
  debugState this = Some st ->
  currentGoroutine st = Some g ->
  delve this = Some d ->
  setVariableRequest this args_name args_value
  = Some [Call (if isApiV1 d then "SetSymbol" else "Set")
            [JObj [("Scope", JObj [("goroutineID", JNum (g_id g))]);
                   ("Symbol", JStr args_name);
                   ("Value", JStr args_value)]]]
  /\ setVariableRequest_callback args_value None
     = [SendResponse (SetVariableBody args_value)].
Proof.
  intros Hst Hg Hd. split; [|done].
  unfold setVariableRequest. rewrite Hst. cbn [mbind option_bind].
  rewrite Hg. cbn [mbind option_bind]. by rewrite Hd.
Qed.

Lemma setVariable_echoes_value_witness :
  setVariableRequest
    (set_debugState (remoteSession "/w" "/r" "/" "/") (Some stoppedState)) "x" "0x2a"
  = Some [Call "Set"
            [JObj [("Scope", JObj [("goroutineID", JNum 1)]);
                   ("Symbol", JStr "x");
                   ("Value", JStr "0x2a")]]]
  /\ setVariableRequest_callback "0x2a" None = [SendResponse (SetVariableBody "0x2a")].
Proof.
  apply (setVariable_echoes_value _ stoppedState mainGoroutine
           {| program := "/w"; remotePath := "/r";
              loadConfig := defaultLoadConfig; noDebug := false; isApiV1 := false;
              stackTraceDepth := 50; isRemoteDebugging := true;
              localDebugeePath := None; debugProcess := None;
              request := RequestAttach |});
    reflexivity.
Defined.

(** ** Continue epoch *)

Lemma continue_spec (this : GoDebugSession) (d : Delve) :
  delve this = Some d ->
  continue this
  = Some (set_continueRequestRunning
            (set_continueEpoch this (js_increment (continueEpoch this))) true,
          js_increment (continueEpoch this),
          [Call "Command" [JObj [("name", JStr "continue")]]]).
Proof. intros Hd. unfold continue. simpl. by rewrite Hd. Qed.

(** The completion callback returns, and what it does to the flag depends on
    the epoch alone. *)
Lemma continue_callback_flag (closureEpoch : Z) (state : DebuggerState)
    (this : GoDebugSession) (d : Delve) :
  delve this = Some d ->
  exists this' effects,
    continue_callback closureEpoch state this = Some (this', effects)
    /\ delve this' = Some d
    /\ continueEpoch this' = continueEpoch this
    /\ continueRequestRunning this'
       = if closureEpoch =? continueEpoch this then false
         else continueRequestRunning this.
Proof.
  intros Hd. unfold continue_callback, handleReenterDebug.
  destruct (closureEpoch =? continueEpoch this); simpl;
    destruct (exited state); simpl; rewrite ?Hd; simpl; eauto 10.
Qed.

(** C2. Two continues, the second issued while the first is outstanding: in
    whichever order the two completions arrive, the completion of the earlier
    continue leaves [continueRequestRunning] as it finds it, and the
    completion of the later one sets it to false. (The epoch is a double; the
    bound says that fewer than 2^53 - 1 continues came before.) *)
Theorem continue_epoch_latest_clears (this : GoDebugSession) (d : Delve)
    (state1 state2 : DebuggerState) :
  delve this = Some d ->
  continueEpoch this < 2 ^ 53 - 1 ->
  exists this1 epoch1 rpc1 this2 epoch2 rpc2,
    continue this = Some (this1, epoch1, rpc1)
    /\ continue this1 = Some (this2, epoch2, rpc2)
    /\ continueRequestRunning this2 = true
    /\ (exists a ea b eb,
          continue_callback epoch1 state1 this2 = Some (a, ea)
          /\ continueRequestRunning a = continueRequestRunning this2
          /\ continue_callback epoch2 state2 a = Some (b, eb)
          /\ continueRequestRunning b = false)
    /\ (exists a ea b eb,
          continue_callback epoch2 state2 this2 = Some (a, ea)
          /\ continueRequestRunning a = false
          /\ continue_callback epoch1 state1 a = Some (b, eb)
          /\ continueRequestRunning b = continueRequestRunning a).
Proof.
  intros Hd Hbound.
  set (epoch1 := js_increment (continueEpoch this)).
  set (this1 := set_continueRequestRunning (set_continueEpoch this epoch1) true).
  set (epoch2 := js_increment (continueEpoch this1)).
  set (this2 := set_continueRequestRunning (set_continueEpoch this1 epoch2) true).
  assert (Hd1 : delve this1 = Some d) by done.
  assert (Hd2 : delve this2 = Some d) by done.
  assert (He2 : continueEpoch this2 = epoch2) by done.
  assert (Hne : (epoch1 =? epoch2) = false).
  { apply Z.eqb_neq. subst epoch2. change (continueEpoch this1) with epoch1.
    subst epoch1. unfold js_increment. repeat case_match; lia. }
  eexists this1, epoch1, _, this2, epoch2, _.
  split; [exact (continue_spec this d Hd)|].
  split; [exact (continue_spec this1 d Hd1)|].
  split; [done|]. split.
  - destruct (continue_callback_flag epoch1 state1 this2 d Hd2)
      as (a & ea & Ha & Hda & Hea & Hfa).
    destruct (continue_callback_flag epoch2 state2 a d Hda)
      as (b & eb & Hb & _ & _ & Hfb).
    exists a, ea, b, eb. rewrite He2, Hne in Hfa. rewrite Hea, He2, Z.eqb_refl in Hfb.
    done.
  - destruct (continue_callback_flag epoch2 state2 this2 d Hd2)
      as (a & ea & Ha & Hda & Hea & Hfa).
    destruct (continue_callback_flag epoch1 state1 a d Hda)
      as (b & eb & Hb & _ & _ & Hfb).
    exists a, ea, b, eb. rewrite He2, Z.eqb_refl in Hfa. rewrite Hea, He2, Hne in Hfb.
    done.
Qed.

Lemma continue_epoch_latest_clears_witness :
  exists this1 epoch1 rpc1 this2 epoch2 rpc2,
    continue launchedSession = Some (this1, epoch1, rpc1)
    /\ continue this1 = Some (this2, epoch2, rpc2)
    /\ continueRequestRunning this2 = true
    /\ (exists a ea b eb,
          continue_callback epoch1 stoppedState this2 = Some (a, ea)
          /\ continueRequestRunning a = continueRequestRunning this2
          /\ continue_callback epoch2 exitedState a = Some (b, eb)
          /\ continueRequestRunning b = false)
    /\ (exists a ea b eb,
          continue_callback epoch2 exitedState this2 = Some (a, ea)
          /\ continueRequestRunning a = false
          /\ continue_callback epoch1 stoppedState a = Some (b, eb)
          /\ continueRequestRunning b = continueRequestRunning a).
Proof.
  apply (continue_epoch_latest_clears launchedSession launchedDelve).
  - reflexivity.
  - reflexivity.
Defined.

(** The epochs of a fresh session: 1 for the first continue, 2 for the
    second; the stale completion finds the flag set and leaves it set. *)
Example continue_epochs_fresh :
  (continue launchedSession ≫= fun '(this1, epoch1, _) =>
   continue this1 ≫= fun '(this2, epoch2, _) =>
   continue_callback epoch1 stoppedState this2 ≫= fun '(a, _) =>
   Some (epoch1, epoch2, continueRequestRunning a))
  = Some (1, 2, true).
Proof. reflexivity. Qed.

(** ** Disconnect *)



Lemma forceCleanup_local (d : Delve) :
  isLocalDebugging d = true ->
  exists pid, debugProcess d = Some pid
              /\ forceCleanup d = Some [KillTree pid; RemoveFile (localDebugeePath d)].
Proof.
  unfold isLocalDebugging, forceCleanup. destruct (request d); [|done].
  destruct (debugProcess d) as [pid|]; [eauto|]. by intros []%bool_decide_eq_true.
Qed.

(** The effects of [close] in terms of the decision to detach. *)
Lemma close_effects (d : Delve) (o : CloseOutcomes) :
  noDebug d = false ->
  isRemoteDebugging d = false ->
  exists watchdog cleanup,
    (if isLocalDebugging d
     then exists pid, debugProcess d = Some pid
                      /\ cleanup = [KillTree pid; RemoveFile (localDebugeePath d)]
                      /\ (watchdog = [] \/ watchdog = cleanup ++ [ResolveClose])
     else cleanup = [] /\ watchdog = [])
    /\ close d o
       = Some ([haltCall] ++ watchdog
               ++ (if shouldDetach (haltErrMsg (out_Command_halt o))
                   then detachCall d :: (if resolved (out_Detach o) then [] else cleanup)
                   else cleanup)
               ++ [ResolveClose]).
Proof.
  intros Hnd Hrem. unfold close. rewrite Hnd, Hrem.
  destruct (isLocalDebugging d) eqn:Hlocal.
  - destruct (forceCleanup_local d Hlocal) as (pid & Hpid & ->).
    exists (if haltTimedOut o
            then [KillTree pid; RemoveFile (localDebugeePath d)] ++ [ResolveClose]
            else []), [KillTree pid; RemoveFile (localDebugeePath d)].
    split.
    { exists pid. destruct (haltTimedOut o); auto. }
    destruct (haltTimedOut o), (shouldDetach _), (out_Detach o); reflexivity.
  - exists [], []. split; [done|].
    destruct (shouldDetach _), (out_Detach o); reflexivity.
Qed.




(** A session under API v1 that attached to a local process: the argument
    of Detach is a bare boolean. *)
Example close_v1_attach_local :
  close {| program := "/w"; remotePath := "";
           loadConfig := defaultLoadConfig; noDebug := false; isApiV1 := true;
           stackTraceDepth := 50; isRemoteDebugging := false;
           localDebugeePath := None; debugProcess := Some 4242;
           request := RequestAttach |}
        {| haltTimedOut := false; out_Command_halt := Resolved tt;
           out_Detach := Resolved tt |}
  = Some [Call "Command" [JObj [("name", JStr "halt")]];
          Call "Detach" [JBool true];
          ResolveClose].
Proof. reflexivity. Qed.

(** Another halt error in a local launch session: forced cleanup, no Detach. *)
Example close_halt_failed :
  close launchedDelve
        {| haltTimedOut := false;
           out_Command_halt := Rejected (ErrObject "Error: connection lost");
           out_Detach := Resolved tt |}
  = Some [Call "Command" [JObj [("name", JStr "halt")]];
          KillTree 4242; RemoveFile (Some "/w/debug");
          ResolveClose].
Proof. reflexivity. Qed.

(** ** Launch and attach guards *)

(** An attach request in local mode that names no process never gets as far
    as a child process: the constructor of [Delve] rejects the connection. *)
Lemma Delve_new_without_processId (h : Host) (launchArgs : RequestArguments)
    (program : option string) (l : Launched) :
  req_request launchArgs = RequestAttach ->
  req_mode launchArgs = Some "local" ->
  truthy_num (req_processId launchArgs) = false ->
  Delve_new h launchArgs program = Some l ->
  launched_effects l = []
  /\ debugProcess (launched_delve l) = None
  /\ exists err, launched_connection l = ConnectionRejected err.
Proof.
  intros Hreq Hmode Hpid. unfold Delve_new, mode_is. rewrite Hmode, Hreq.
  cbn [String.eqb Ascii.eqb Bool.eqb].
  destruct program as [prog|].
  - unfold Delve_attach. rewrite Hpid. cbn [negb]. intros [= <-]. simpl. eauto.
  - destruct (platform_win32 h); [done|]. intros [= <-]. simpl. eauto.
Qed.

Lemma initLaunchAttachRequest_without_processId (h : Host) (this : GoDebugSession)
    (args : RequestArguments) (effects : list Effect) (this' : option GoDebugSession) :
  req_request args = RequestAttach ->
  req_mode args = Some "local" ->
  truthy_num (req_processId args) = false ->
  initLaunchAttachRequest h this args = (effects, this') ->
  forallb isError3000 effects = true
  /\ forall s, this' = Some s -> exists d, delve s = Some d /\ debugProcess d = None.
Proof.
  intros Hreq Hmode Hpid. unfold initLaunchAttachRequest.
  match goal with
  | |- context [match ?x with Some _ => _ | None => _ end = _] =>
      destruct x as [[[this1 localPath] remote]|]
  end; [|intros [= <- <-]; by split].
  match goal with
  | |- context [Delve_new h ?a ?lp] =>
      destruct (Delve_new h a lp) as [l|] eqn:Hnew
  end; [|intros [= <- <-]; by split].
  apply Delve_new_without_processId in Hnew as (Heff & Hproc & err & Hconn);
    [|done..].
  intros [= <- <-]. rewrite Heff, Hconn. split; [done|].
  intros s [= <-]. eauto.
Qed.

(** C7. A launch request without a program is answered with an error
    response with code 3000 and nothing else happens: the session is left as
    it was. An attach request in local mode without a process id is answered
    with an error response with code 3000; whatever follows is an error
    response with code 3000 too, no child process is spawned and no
    connection to a backend is attempted, and the backend driver that the
    session may be left with owns no process. *)
Theorem missing_attribute_refused (h : Host) (this : GoDebugSession)
    (launchArgs attachArgs : RequestArguments) :
  (truthy_opt (req_program launchArgs) = false ->
   launchRequest h this launchArgs
   = ([SendErrorResponse 3000
         "Failed to continue: The program attribute is missing in the debug configuration in launch.json"
         []],
      Some this))
  /\ (req_request attachArgs = RequestAttach ->
      req_mode attachArgs = Some "local" ->
      truthy_num (req_processId attachArgs) = false ->
      exists effects this',
        attachRequest h this attachArgs
        = (SendErrorResponse 3000
             "Failed to continue: the processId attribute is missing in the debug configuration in launch.json"
             [] :: effects,
           this')
        /\ forallb isError3000 effects = true
        /\ forallb (fun e => negb (startsBackend e)) effects = true
        /\ forall s, this' = Some s ->
                     exists d, delve s = Some d /\ debugProcess d = None).
Proof.
  split.
  - intros Hprog. unfold launchRequest. by rewrite Hprog.
  - intros Hreq Hmode Hpid. unfold attachRequest, mode_is. rewrite Hmode, Hpid.
    cbn [String.eqb Ascii.eqb Bool.eqb negb andb].
    destruct (initLaunchAttachRequest h this attachArgs) as [effects this'] eqn:Hinit.
    destruct (initLaunchAttachRequest_without_processId _ _ _ _ _ Hreq Hmode Hpid Hinit)
      as [Herr Hdelve].
    exists effects, this'. split; [done|]. split; [done|]. split; [|done].
    clear -Herr. induction effects as [|e effects IH]; [done|].
    simpl in *. apply andb_true_iff in Herr as [He Hrest].
    rewrite (IH Hrest), andb_true_r. by destruct e.
Qed.

Lemma missing_attribute_refused_witness :
  launchRequest (posix_host None None) GoDebugSession_new launchWithoutProgram
  = ([SendErrorResponse 3000
        "Failed to continue: The program attribute is missing in the debug configuration in launch.json"
        []],
     Some GoDebugSession_new)
  /\ exists effects this',
       attachRequest (posix_host None None) GoDebugSession_new attachWithoutProcessId
       = (SendErrorResponse 3000
            "Failed to continue: the processId attribute is missing in the debug configuration in launch.json"
            [] :: effects,
          this')
       /\ forallb isError3000 effects = true
       /\ forallb (fun e => negb (startsBackend e)) effects = true
       /\ forall s, this' = Some s ->
                    exists d, delve s = Some d /\ debugProcess d = None.
Proof.
  destruct (missing_attribute_refused (posix_host None None) GoDebugSession_new
              launchWithoutProgram attachWithoutProcessId) as [Hlaunch Hattach].
  split.
  - apply Hlaunch. reflexivity.
  - apply Hattach; reflexivity.
Defined.

(** What the client sees in the attach case: the refusal of the handler,
    then the rejection of the connection. *)
Example attach_without_processId :
  fst (attachRequest (posix_host None None) GoDebugSession_new attachWithoutProcessId)
  = [SendErrorResponse 3000
       "Failed to continue: the processId attribute is missing in the debug configuration in launch.json"
       [];
     SendErrorResponse 3000
       ("Failed to continue: " +:+ dquote +:+ "{e}" +:+ dquote)
       [("e", "Missing process ID")]].
Proof. reflexivity. Qed.

(** ** Breakpoints *)

Section Creating.
Variables (d : Delve) (o : BreakpointBackend) (remoteFile : string).
Variable requested : list SourceBreakpoint.

Lemma resolvesTo_mono (asked asked' i : nat) (b : SourceBreakpoint)
    (r : option DebugBreakpoint) :
  (asked <= asked')%nat ->
  resolvesTo d o remoteFile asked i b r -> resolvesTo d o remoteFile asked' i b r.
Proof.
  intros Hle. unfold resolvesTo.
  destruct (on_CreateBreakpoint _ _ _) as [err|created]; [|done].
  destruct (JS.startsWith _ _); [|done].
  intros (n & Hn & Hr). exists n. split; [lia|done].
Qed.

Lemma arrive_ok (st : Creating) (a : Arrival) :
  creating_ok d o remoteFile requested st ->
  creating_ok d o remoteFile requested (arrive d o remoteFile requested st a).
Proof.
  intros [Hex Hhd].
  assert (Hsettle : forall i b r,
             requested !! i = Some b ->
             resolvesTo d o remoteFile (listings st) i b r ->
             creating_ok d o remoteFile requested (settle st i r)).
  { intros i b r Hb Hr. split; [exact Hex|]. intros k hd. cbn [settle handlers listings].
    destruct (decide (k = i)) as [->|Hne].
    - rewrite lookup_insert_eq. intros [= <-]. eauto.
    - rewrite lookup_insert_ne by done. apply Hhd. }
  destruct a as [i|i]; cbn [arrive].
  - destruct (requested !! i) as [b|] eqn:Hb; [|by split].
    destruct (handlers st !! i) eqn:Hi; [by split|].
    destruct (on_CreateBreakpoint o i (breakpointIn d remoteFile b)) as [err|created] eqn:Hc.
    + destruct (JS.startsWith _ _) eqn:Hstart.
      * destruct (existingBreakpoints st) as [existing|] eqn:Hexisting.
        -- apply (Hsettle i b); [done|]. unfold resolvesTo. rewrite Hc, Hstart.
           destruct (Hex existing eq_refl) as (n & Hn & Hl). exists n.
           split; [done|]. unfold adoptedAt. by rewrite Hl.
        -- split; [done|]. intros k hd. cbn [handlers listings].
           destruct (decide (k = i)) as [->|Hne].
           ++ rewrite lookup_insert_eq. intros [= <-]. exists b. split; [done|].
              split; [lia|]. eauto.
           ++ rewrite lookup_insert_ne by done. intros Hk.
              destruct (Hhd k hd Hk) as (b' & Hb' & Hspec). exists b'. split; [done|].
              destruct hd as [n|r].
              ** destruct Hspec as [Hn Herr]. split; [lia|done].
              ** eapply resolvesTo_mono; [|exact Hspec]. lia.
      * apply (Hsettle i b); [done|]. unfold resolvesTo. by rewrite Hc, Hstart.
    + apply (Hsettle i b); [done|]. unfold resolvesTo. by rewrite Hc.
  - destruct (requested !! i) as [b|] eqn:Hb; [|by split].
    destruct (handlers st !! i) as [[n|r]|] eqn:Hi; [|by split..].
    destruct (Hhd i _ Hi) as (b' & Hb' & Hn & err & Hc & Hstart).
    assert (b' = b) as -> by congruence.
    destruct (on_ListBreakpoints o n) as [lerr|existing] eqn:Hl.
    + apply (Hsettle i b); [done|]. unfold resolvesTo. rewrite Hc, Hstart.
      exists n. split; [done|]. unfold adoptedAt. by rewrite Hl.
    + split.
      * cbn [existingBreakpoints listings]. intros ? [= <-]. eauto.
      * intros k hd. cbn [handlers listings].
        destruct (decide (k = i)) as [->|Hne].
        -- rewrite lookup_insert_eq. intros [= <-]. exists b. split; [done|].
           unfold resolvesTo. rewrite Hc, Hstart. exists n. split; [done|].
           unfold adoptedAt. by rewrite Hl.
        -- rewrite lookup_insert_ne by done. apply Hhd.
Qed.

Lemma arrivals_ok (arrivals : list Arrival) (st : Creating) :
  creating_ok d o remoteFile requested st ->
  creating_ok d o remoteFile requested (foldl (arrive d o remoteFile requested) st arrivals).
Proof.
  revert st. induction arrivals as [|a arrivals IH]; intros st Hst; [done|].
  cbn [foldl]. by apply IH, arrive_ok.
Qed.

(** A promise that is resolved stays as it is. *)
Lemma arrive_resolved (st : Creating) (a : Arrival) (i : nat)
    (r : option DebugBreakpoint) :
  handlers st !! i = Some (ResolvedWith r) ->
  handlers (arrive d o remoteFile requested st a) !! i = Some (ResolvedWith r).
Proof.
  intros Hi. destruct a as [k|k]; cbn [arrive].
  - destruct (requested !! k) as [b|]; [|done].
    destruct (handlers st !! k) eqn:Hk; [done|].
    assert (i <> k) by congruence.
    destruct (on_CreateBreakpoint _ _ _); [destruct (JS.startsWith _ _);
      [destruct (existingBreakpoints st)|]|];
      cbn [settle handlers]; by rewrite lookup_insert_ne.
  - destruct (requested !! k) as [b|]; [|done].
    destruct (handlers st !! k) as [[n|r']|] eqn:Hk; [|done..].
    assert (i <> k) by congruence.
    destruct (on_ListBreakpoints _ _); cbn [settle handlers]; by rewrite lookup_insert_ne.
Qed.

Lemma arrivals_resolved (arrivals : list Arrival) (st : Creating) (i : nat)
    (r : option DebugBreakpoint) :
  handlers st !! i = Some (ResolvedWith r) ->
  handlers (foldl (arrive d o remoteFile requested) st arrivals) !! i
  = Some (ResolvedWith r).
Proof.
  revert st. induction arrivals as [|a arrivals IH]; intros st Hi; [done|].
  cbn [foldl]. by apply IH, arrive_resolved.
Qed.

(** A handler that waits is resolved by the answer to its listing, and by
    nothing else. *)
Lemma arrivals_awaited (arrivals : list Arrival) (st : Creating) (i : nat)
    (hd : Handler) (b : SourceBreakpoint) :
  requested !! i = Some b ->
  handlers st !! i = Some hd ->
  existsb (isListAnswered i) arrivals = true ->
  exists r, handlers (foldl (arrive d o remoteFile requested) st arrivals) !! i
            = Some (ResolvedWith r).
Proof.
  intros Hb. revert st hd. induction arrivals as [|a arrivals IH]; intros st hd Hi; [done|].
  destruct hd as [n|r]; [|intros _; eexists; by apply arrivals_resolved].
  cbn [existsb foldl]. intros Hex.
  destruct a as [k|k].
  - cbn [isListAnswered orb] in Hex.
    apply (IH _ (AwaitsListing n)); [|done]. cbn [arrive].
    destruct (requested !! k) as [b'|]; [|done].
    destruct (handlers st !! k) eqn:Hk; [done|].
    assert (i <> k) by congruence.
    destruct (on_CreateBreakpoint _ _ _); [destruct (JS.startsWith _ _);
      [destruct (existingBreakpoints st)|]|];
      cbn [settle handlers]; by rewrite lookup_insert_ne.
  - cbn [isListAnswered] in Hex. destruct (k =? i)%nat eqn:Hki.
    + apply Nat.eqb_eq in Hki as ->.
      cut (exists r, handlers (arrive d o remoteFile requested st (ListAnswered i)) !! i
                     = Some (ResolvedWith r)).
      { intros [r Hr]. exists r. by apply arrivals_resolved. }
      cbn [arrive]. rewrite Hb, Hi.
      destruct (on_ListBreakpoints _ _); cbn [settle handlers];
        rewrite lookup_insert_eq; eauto.
    + apply Nat.eqb_neq in Hki. cbn [orb] in Hex.
      apply (IH _ (AwaitsListing n)); [|done]. cbn [arrive].
      destruct (requested !! k) as [b'|]; [|done].
      destruct (handlers st !! k) as [[n'|r']|] eqn:Hk; [|done..].
      destruct (on_ListBreakpoints _ _); cbn [settle handlers];
        by rewrite lookup_insert_ne.
Qed.

Lemma arrivals_answered (arrivals : list Arrival) (st : Creating) (i : nat)
    (b : SourceBreakpoint) :
  requested !! i = Some b ->
  handlers st !! i = None ->
  answered i arrivals = true ->
  exists r, handlers (foldl (arrive d o remoteFile requested) st arrivals) !! i
            = Some (ResolvedWith r).
Proof.
  intros Hb. revert st. induction arrivals as [|a arrivals IH]; intros st Hi; [done|].
  cbn [answered foldl]. destruct a as [k|k].
  - destruct (k =? i)%nat eqn:Hki.
    + apply Nat.eqb_eq in Hki as ->. intros Hex.
      assert (exists hd, handlers (arrive d o remoteFile requested st (CreateAnswered i)) !! i
                         = Some hd) as [hd Hhd].
      { cbn [arrive]. rewrite Hb, Hi.
        destruct (on_CreateBreakpoint _ _ _); [destruct (JS.startsWith _ _);
          [destruct (existingBreakpoints st)|]|];
          cbn [settle handlers]; rewrite lookup_insert_eq; eauto. }
      by eapply arrivals_awaited.
    + apply Nat.eqb_neq in Hki. apply IH. cbn [arrive].
      destruct (requested !! k) as [b'|]; [|done].
      destruct (handlers st !! k) eqn:Hk; [done|].
      destruct (on_CreateBreakpoint _ _ _); [destruct (JS.startsWith _ _);
        [destruct (existingBreakpoints st)|]|];
        cbn [settle handlers]; by rewrite lookup_insert_ne.
  - apply IH. cbn [arrive].
    destruct (requested !! k) as [b'|]; [|done].
    destruct (handlers st !! k) as [[n'|r']|] eqn:Hk; [|done..].
    assert (i <> k) by congruence.
    destruct (on_ListBreakpoints _ _); cbn [settle handlers]; by rewrite lookup_insert_ne.
Qed.

(** What [Promise.all] resolves to: one result per requested breakpoint,
    each as its own creation and the listings asked for determine. *)
Lemma createBreakpoints_resolved (arrivals : list Arrival)
    (bps : list (option DebugBreakpoint)) (creates listed : list Effect) :
  createBreakpoints d o remoteFile requested arrivals = (Some bps, creates, listed) ->
  exists asked,
    creates = map (createCall d remoteFile) requested
    /\ listed = replicate asked (listCall d)
    /\ length bps = length requested
    /\ forall i b, requested !! i = Some b ->
         exists r, bps !! i = Some r /\ resolvesTo d o remoteFile asked i b r.
Proof.
  unfold createBreakpoints.
  set (st0 := {| existingBreakpoints := None; listings := 0; handlers := ∅ |}).
  set (st := foldl _ st0 arrivals).
  assert (Hok : creating_ok d o remoteFile requested st).
  { apply arrivals_ok. split; [done|]. intros i hd. cbn. by rewrite lookup_empty. }
  intros [= Hbps <- <-]. apply mapM_Some in Hbps.
  pose proof (Forall2_length _ _ _ Hbps) as Hlen. rewrite length_seq in Hlen.
  exists (listings st). split; [done|]. split; [done|]. split; [done|].
  intros i b Hb. pose proof (lookup_lt_Some _ _ _ Hb) as Hi.
  destruct (Forall2_lookup_l _ _ _ i i Hbps) as (r & Hr & Hp).
  { by rewrite lookup_seq_lt. }
  exists r. split; [done|]. unfold promised in Hp.
  destruct (handlers st !! i) as [[n|r']|] eqn:Hhd; [done| |done].
  injection Hp as ->. destruct Hok as [_ Hok].
  destruct (Hok i _ Hhd) as (b' & Hb' & Hspec).
  by assert (b' = b) as -> by congruence.
Qed.

(** When every call is answered, [Promise.all] resolves. *)
Lemma createBreakpoints_complete (arrivals : list Arrival) :
  complete (length requested) arrivals = true ->
  exists bps, (createBreakpoints d o remoteFile requested arrivals).1.1 = Some bps.
Proof.
  intros Hcomplete. unfold createBreakpoints. cbn [fst].
  set (st0 := {| existingBreakpoints := None; listings := 0; handlers := ∅ |}).
  set (st := foldl _ st0 arrivals).
  assert (is_Some (mapM (promised st) (seq 0 (length requested)))) as [bps Hbps];
    [|by exists bps].
  apply mapM_is_Some, Forall_forall. intros i [_ Hi]%elem_of_seq. cbn in Hi.
  destruct (lookup_lt_is_Some_2 requested i Hi) as [b Hb].
  destruct (arrivals_answered arrivals st0 i b Hb) as [r Hr].
  - cbn. by rewrite lookup_empty.
  - unfold complete in Hcomplete. rewrite forallb_forall in Hcomplete.
    apply Hcomplete, in_seq. lia.
  - fold st in Hr. cbn. unfold promised. by rewrite Hr.
Qed.

End Creating.

Lemma adoptedAt_listedAt (o : BreakpointBackend) (n : nat) (bpIn : DebugBreakpoint) :
  match adoptedAt o n bpIn with
  | Some adopted => bp_line adopted = bp_line bpIn /\ listedAt o n bpIn = true
  | None => listedAt o n bpIn = false
  end.
Proof.
  unfold adoptedAt, listedAt, matchedBreakpoint.
  destruct (on_ListBreakpoints o n) as [err|existing]; [done|].
  destruct (find _ existing) as [adopted|] eqn:Hfind.
  - apply find_some in Hfind as [Hin Hsame]. split.
    + apply andb_true_iff in Hsame as [Hline _]. by apply Z.eqb_eq in Hline.
    + apply existsb_exists. eauto.
  - apply not_true_is_false. intros (x & Hin & Hsame)%existsb_exists.
    apply (find_none _ _ Hfind) in Hin. congruence.
Qed.

Lemma listingsIn_calls (d : Delve) (remoteFile : string) (existing : list DebugBreakpoint)
    (requested : list SourceBreakpoint) (asked : nat) :
  listingsIn (map (clearCall d) existing ++ map (createCall d remoteFile) requested
              ++ replicate asked (listCall d)) = asked.
Proof.
  unfold listingsIn. rewrite !List.filter_app, !length_app.
  assert (Hclears : List.filter isListing (map (clearCall d) existing) = []).
  { induction existing as [|x l IH]; [done|]. exact IH. }
  assert (Hcreates : List.filter isListing (map (createCall d remoteFile) requested) = []).
  { induction requested as [|x l IH]; [done|]. exact IH. }
  assert (Hlisted : List.filter isListing (replicate asked (listCall d))
                    = replicate asked (listCall d)).
  { induction asked as [|k IH]; [done|]. cbn. by rewrite IH. }
  by rewrite Hclears, Hcreates, Hlisted, length_replicate.
Qed.

Lemma responseBreakpoints_lines (lines : list Z) (bps : list (option DebugBreakpoint))
    (i : nat) :
  responseBreakpoints (Some lines) i bps
  = Some (imap (fun k bp =>
                  match bp with
                  | Some b => {| verified := true; line := Some (bp_line b) |}
                  | None => {| verified := false; line := lines !! (i + k)%nat |}
                  end) bps).
Proof.
  revert i. induction bps as [|bp bps IH]; intros i; [done|].
  cbn [responseBreakpoints imap]. rewrite IH. cbn [mbind option_bind].
  rewrite Nat.add_0_r. destruct bp; simpl; do 2 f_equal;
    apply imap_ext; intros k x _; simpl; by rewrite Nat.add_succ_r.
Qed.

Lemma effects_app_last (a b c : list Effect) (e : Effect) :
  a ++ b ++ c ++ [e] = (a ++ b ++ c) ++ [e].
Proof. by rewrite <- !(assoc_L (++)). Qed.

Lemma toDebuggerPath_total (h : Host) (this : GoDebugSession) (d : Delve)
    (filePath : string) :
  delve this = Some d -> exists remoteFile, toDebuggerPath h this filePath = Some remoteFile.
Proof.
  intros Hd. unfold toDebuggerPath. rewrite Hd. cbn [mbind option_bind].
  destruct (_ =? _)%nat; eauto.
Qed.

(** [setBreakPoints] once the clearing has succeeded. *)
Lemma setBreakPoints_cleared (h : Host) (this : GoDebugSession) (d : Delve)
    (args : SetBreakpointsArguments) (o : BreakpointBackend) (arrivals : list Arrival) :
  delve this = Some d ->
  let file := normalizePath h (args_source_path args) in
  let existing := default [] (breakpoints this !! file) in
  firstRejectedClear o existing = None ->
  exists remoteFile this1,
    toDebuggerPath h this file = Some remoteFile
    /\ setBreakPoints h this args o arrivals
       = let '(newBreakpoints, creates, listed) :=
           createBreakpoints d o remoteFile (args_breakpoints args) arrivals in
         let calls := map (clearCall d) existing ++ creates ++ listed in
         match newBreakpoints with
         | None => Some (this1, calls, false)
         | Some bps =>
             match responseBreakpoints (args_lines args) 0 bps with
             | None => Some (this1, calls ++ [setBreakpointsError typeError], true)
             | Some entries =>
                 Some (set_breakpoints this (<[file := omap id bps]> (breakpoints this)),
                       calls ++ [SendResponse (SetBreakpointsBody entries)], true)
             end
         end.
Proof.
  intros Hd file existing Hclear.
  destruct (toDebuggerPath_total h this d file Hd) as [remoteFile Hremote].
  unfold setBreakPoints. fold file.
  set (this1 := match breakpoints this !! file with
                | Some _ => this
                | None => set_breakpoints this (<[file := []]> (breakpoints this))
                end).
  exists remoteFile, this1. split; [done|].
  assert (Hd1 : delve this1 = Some d).
  { subst this1. by destruct (breakpoints this !! file). }
  assert (Hremote1 : toDebuggerPath h this1 file = Some remoteFile).
  { rewrite <- Hremote. subst this1. destruct (breakpoints this !! file); reflexivity. }
  assert (Hexisting : default [] (breakpoints this1 !! file) = existing).
  { subst this1 existing. destruct (breakpoints this !! file) eqn:Hb; [by rewrite Hb|].
    cbn [breakpoints set_breakpoints]. by rewrite lookup_insert_eq. }
  rewrite Hremote1. cbn [mbind option_bind]. rewrite Hd1. cbn [mbind option_bind].
  rewrite Hexisting, Hclear.
  destruct (createBreakpoints d o remoteFile (args_breakpoints args) arrivals)
    as [[[bps|] creates] listed]; [|reflexivity].
  destruct (responseBreakpoints (args_lines args) 0 bps) as [entries|].
  - rewrite (effects_app_last _ _ _ _). do 2 f_equal. f_equal.
    subst this1. destruct (breakpoints this !! file); [done|].
    unfold set_breakpoints. cbn. by rewrite insert_insert_eq.
  - by rewrite (effects_app_last _ _ _ _).
Qed.

(** C3 (as amended). Take a setBreakpoints request whose clearing of the
    breakpoints recorded for the file succeeds and whose [lines] array lists
    the lines of its breakpoints. Once the backend has answered every call,
    the request is answered; and whenever it is answered, in whatever order
    the backend answered, the response has one entry per requested
    breakpoint, in request order: [verified: true] with the line that the
    backend reports for a breakpoint that was created; after an error that
    starts with [Breakpoint exists at], the requested line, with
    [verified: true] when a listing that the adapter asked for holds a
    breakpoint at the same file and line and [verified: false] when it does
    not; [verified: false] with the requested line after any other error. *)
Theorem setBreakPoints_response (h : Host) (this : GoDebugSession) (d : Delve)
    (args : SetBreakpointsArguments) (o : BreakpointBackend) (arrivals : list Arrival) :
  delve this = Some d ->
  let file := normalizePath h (args_source_path args) in
  firstRejectedClear o (default [] (breakpoints this !! file)) = None ->
  args_lines args = Some (map sb_line (args_breakpoints args)) ->
  (complete (length (args_breakpoints args)) arrivals = true ->
   exists this' effects,
     setBreakPoints h this args o arrivals = Some (this', effects, true))
  /\ forall this' effects,
       setBreakPoints h this args o arrivals = Some (this', effects, true) ->
       exists remoteFile calls entries,
         toDebuggerPath h this file = Some remoteFile
         /\ effects = calls ++ [SendResponse (SetBreakpointsBody entries)]
         /\ length entries = length (args_breakpoints args)
         /\ forall i b, args_breakpoints args !! i = Some b ->
              exists e, entries !! i = Some e
                /\ match on_CreateBreakpoint o i (breakpointIn d remoteFile b) with
                   | Resolved created =>
                       e = {| verified := true; line := Some (bp_line created) |}
                   | Rejected err =>
                       if JS.startsWith (err_toString err) "Breakpoint exists at"
                       then exists n,
                              (n < listingsIn calls)%nat
                              /\ e = {| verified :=
                                          listedAt o n (breakpointIn d remoteFile b);
                                        line := Some (sb_line b) |}
                       else e = {| verified := false; line := Some (sb_line b) |}
                   end.
Proof.
  intros Hd file Hclear Hlines.
  destruct (setBreakPoints_cleared h this d args o arrivals Hd Hclear)
    as (remoteFile & this1 & Hremote & ->).
  fold file. rewrite Hlines. split.
  - intros Hcomplete.
    destruct (createBreakpoints_complete d o remoteFile _ _ Hcomplete) as [bps Hbps].
    destruct (createBreakpoints d o remoteFile (args_breakpoints args) arrivals)
      as [[newBreakpoints creates] listed].
    cbn [fst] in Hbps. subst newBreakpoints. cbv zeta.
    rewrite responseBreakpoints_lines. eauto.
  - intros this' effects.
    destruct (createBreakpoints d o remoteFile (args_breakpoints args) arrivals)
      as [[[bps|] creates] listed] eqn:Hcreate; [|done].
    destruct (createBreakpoints_resolved d o remoteFile _ _ _ _ _ Hcreate)
      as (asked & -> & -> & Hlen & Hbps).
    cbv zeta. rewrite responseBreakpoints_lines. intros [= _ <-].
    exists remoteFile. eexists _, _. split; [done|]. split; [reflexivity|].
    split; [by rewrite length_imap|].
    intros i b Hb. destruct (Hbps i b Hb) as (r & Hr & Hspec).
    rewrite list_lookup_imap, Hr. cbn [fmap option_fmap option_map].
    eexists. split; [done|]. cbn [Nat.add]. unfold resolvesTo in Hspec.
    cbv zeta in Hspec.
    assert (Hline : map sb_line (args_breakpoints args) !! i = Some (sb_line b)).
    { by rewrite list_lookup_fmap, Hb. }
    destruct (on_CreateBreakpoint o i (breakpointIn d remoteFile b)) as [err|created].
    + destruct (JS.startsWith _ _).
      * destruct Hspec as (n & Hn & ->). exists n. rewrite listingsIn_calls.
        split; [done|].
        pose proof (adoptedAt_listedAt o n (breakpointIn d remoteFile b)) as Hlisted.
        destruct (adoptedAt o n _) as [adopted|].
        -- destruct Hlisted as [-> ->]. done.
        -- by rewrite Hlisted, Hline.
      * subst r. by rewrite Hline.
    + by subst r.
Qed.

Lemma setBreakPoints_response_witness :
  exists this' remoteFile calls entries,
    setBreakPoints (posix_host None None) launchedSession threeBreakpoints pickyBackend
      [CreateAnswered 2; CreateAnswered 1; CreateAnswered 0; ListAnswered 1]
    = Some (this', calls ++ [SendResponse (SetBreakpointsBody entries)], true)
    /\ toDebuggerPath (posix_host None None) launchedSession mainGo = Some remoteFile
    /\ length entries = 3%nat
    /\ forall i b, args_breakpoints threeBreakpoints !! i = Some b ->
         exists e, entries !! i = Some e
           /\ match on_CreateBreakpoint pickyBackend i
                      (breakpointIn launchedDelve remoteFile b) with
              | Resolved created =>
                  e = {| verified := true; line := Some (bp_line created) |}
              | Rejected err =>
                  if JS.startsWith (err_toString err) "Breakpoint exists at"
                  then exists n,
                         (n < listingsIn calls)%nat
                         /\ e = {| verified :=
                                     listedAt pickyBackend n
                                       (breakpointIn launchedDelve remoteFile b);
                                   line := Some (sb_line b) |}
                  else e = {| verified := false; line := Some (sb_line b) |}
              end.
Proof.
  destruct (setBreakPoints_response (posix_host None None) launchedSession launchedDelve
              threeBreakpoints pickyBackend
              [CreateAnswered 2; CreateAnswered 1; CreateAnswered 0; ListAnswered 1]
              eq_refl eq_refl eq_refl) as [_ Hanswer].
  destruct (setBreakPoints (posix_host None None) launchedSession threeBreakpoints
              pickyBackend
              [CreateAnswered 2; CreateAnswered 1; CreateAnswered 0; ListAnswered 1])
    as [[[this' effects] [|]]|] eqn:Hset.
  - destruct (Hanswer this' effects eq_refl)
      as (remoteFile & calls & entries & Hremote & -> & Hlen & Hentries).
    exists this', remoteFile, calls, entries. split; [reflexivity|].
    split; [exact Hremote|]. split; [exact Hlen|]. exact Hentries.
  - exfalso. vm_compute in Hset. discriminate Hset.
  - exfalso. vm_compute in Hset. discriminate Hset.
Defined.

(** The answer to that request when the calls are answered one by one. *)
Example setBreakPoints_three :
  (fun r => r.1.2) <$>
    setBreakPoints (posix_host None None) launchedSession threeBreakpoints
      pickyBackend (inRequestOrder 3)
  = Some
      [Call "CreateBreakpoint"
         [JObj [("Breakpoint",
                 json_of_breakpointIn
                   (breakpointIn launchedDelve mainGo {| sb_line := 7; sb_condition := None |}))]];
       Call "CreateBreakpoint"
         [JObj [("Breakpoint",
                 json_of_breakpointIn
                   (breakpointIn launchedDelve mainGo {| sb_line := 9; sb_condition := None |}))]];
       Call "CreateBreakpoint"
         [JObj [("Breakpoint",
                 json_of_breakpointIn
                   (breakpointIn launchedDelve mainGo {| sb_line := 12; sb_condition := None |}))]];
       Call "ListBreakpoints" [JObj []];
       SendResponse
         (SetBreakpointsBody
            [{| verified := true; line := Some 8 |};
             {| verified := true; line := Some 9 |};
             {| verified := false; line := Some 12 |}])].
Proof. vm_compute. reflexivity. Qed.

(** Two breakpoints that the backend has already. When the first listing is
    answered before the second creation is, the second handler reads the
    shared variable and one listing is asked for. *)
Example setBreakPoints_listing_shared :
  (fun r => (listingsIn r.1.2, last r.1.2)) <$>
    setBreakPoints (posix_host None None) launchedSession twoExisting forgetfulBackend
      [CreateAnswered 0; ListAnswered 0; CreateAnswered 1]
  = Some (1%nat,
          Some (SendResponse
                  (SetBreakpointsBody
                     [{| verified := true; line := Some 9 |};
                      {| verified := true; line := Some 12 |}]))).
Proof. vm_compute. reflexivity. Qed.

(** When both creations are answered first, each handler finds the variable
    unset and asks for a listing of its own; the second listing fails here,
    and the second breakpoint is reported unverified. *)
Example setBreakPoints_listing_twice :
  (fun r => (listingsIn r.1.2, last r.1.2)) <$>
    setBreakPoints (posix_host None None) launchedSession twoExisting forgetfulBackend
      [CreateAnswered 0; CreateAnswered 1; ListAnswered 0; ListAnswered 1]
  = Some (2%nat,
          Some (SendResponse
                  (SetBreakpointsBody
                     [{| verified := true; line := Some 9 |};
                      {| verified := false; line := Some 12 |}]))).
Proof. vm_compute. reflexivity. Qed.

(** While an answer is outstanding the request is not answered. *)
Example setBreakPoints_pending :
  (fun r => (existsb isResponse r.1.2, r.2)) <$>
    setBreakPoints (posix_host None None) launchedSession twoExisting forgetfulBackend
      [CreateAnswered 0; CreateAnswered 1; ListAnswered 0]
  = Some (false, false).
Proof. vm_compute. reflexivity. Qed.

(** C3 (counterexample). When the backend fails to clear a breakpoint that
    is recorded for the file, the request is answered with the error 2002:
    the response holds no entry for the three breakpoints requested, and
    none of them is sent to the backend. *)
Lemma setBreakPoints_response_counterexample :
  length (args_breakpoints threeBreakpoints) = 3%nat
  /\ (fun r => r.1.2) <$>
       setBreakPoints (posix_host None None) sessionWithBreakpoint
         threeBreakpoints failingClearBackend (inRequestOrder 3)
     = Some [Call "ClearBreakpoint" [JObj [("Id", JNum 5)]];
             SendErrorResponse 2002
               ("Failed to set breakpoint: " +:+ dquote +:+ "{e}" +:+ dquote)
               [("e", "Error: connection lost")]].
Proof. split; reflexivity. Qed.

(** The unverified entry takes its line from the [lines] array of the
    request, the deprecated twin of [breakpoints]: a request without that
    array is answered with the error 2002 as soon as one breakpoint cannot
    be created. *)
Example setBreakPoints_without_lines :
  (fun r => r.1.2) <$>
    setBreakPoints (posix_host None None) launchedSession
      {| args_source_path := mainGo;
         args_breakpoints := [{| sb_line := 12; sb_condition := None |}];
         args_lines := None |}
      {| on_ClearBreakpoint := fun _ => Resolved tt;
         on_CreateBreakpoint := fun _ _ =>
           Rejected (ErrObject "could not find statement at /w/main.go:12");
         on_ListBreakpoints := fun _ => Resolved [] |}
      [CreateAnswered 0]
  = Some [Call "CreateBreakpoint"
            [JObj [("Breakpoint",
                    json_of_breakpointIn
                      (breakpointIn launchedDelve mainGo
                         {| sb_line := 12; sb_condition := None |}))]];
          SendErrorResponse 2002
            ("Failed to set breakpoint: " +:+ dquote +:+ "{e}" +:+ dquote)
            [("e", typeError)]].
Proof. vm_compute. reflexivity. Qed.

(** ** Fully-qualified names *)

Lemma lookup_map {A B} (f : A -> B) (l : list A) (i : nat) :
  map f l !! i = f <$> l !! i.
Proof. revert i. induction l as [|x l IH]; intros [|i]; simpl; auto. Qed.

(** C8 (as amended). The listing ([addFullyQualifiedName]) gives every
    top-level local or argument its own name, as the backend reported it, for
    fully-qualified name, and gives each of its children that same name,
    with nothing appended. A child gets the parent's name, a dot and its own
    name only when the parent is rendered
    ([convertDebugVariableToProtocolVariable]) and is of a kind rendered by
    the default case, such as a struct. For a pointer whose target is neither
    nil nor void and has children, the target keeps the fully-qualified name
    of the pointer and the children of the target get that name, a dot and
    their own name. Variables of the other kinds (unsafe pointer, slice, map,
    array, string) are rendered without a change to any name. *)
Theorem fullyQualifiedName_propagation :
  (forall variables i v,
      variables !! i = Some v ->
      exists v',
        addFullyQualifiedName variables !! i = Some v'
        /\ name v' = name v
        /\ fullyQualifiedName v' = name v
        /\ children v' = map (fun c => with_fullyQualifiedName c (name v)) (children v))
  /\ (forall hs v,
        rendersByDefault (kind v) = true ->
        exists hs' v' r,
          convertDebugVariableToProtocolVariable hs v = Some (hs', v', r)
          /\ name v' = name v
          /\ fullyQualifiedName v' = fullyQualifiedName v
          /\ children v'
             = map (fun c => with_fullyQualifiedName c
                               (fullyQualifiedName v +:+ "." +:+ name c))
                   (children v))
  /\ (forall hs v target rest,
        kind v = Ptr ->
        children v = target :: rest ->
        addr target <> 0 ->
        type_ target <> "void" ->
        children target <> [] ->
        exists hs' v' r target',
          convertDebugVariableToProtocolVariable hs v = Some (hs', v', r)
          /\ fullyQualifiedName v' = fullyQualifiedName v
          /\ children v' = target' :: rest
          /\ name target' = name target
          /\ fullyQualifiedName target' = fullyQualifiedName v
          /\ children target'
             = map (fun c => with_fullyQualifiedName c
                               (fullyQualifiedName v +:+ "." +:+ name c))
                   (children target))
  /\ (forall hs v hs' v' r,
        rendersUntouched (kind v) = true ->
        convertDebugVariableToProtocolVariable hs v = Some (hs', v', r) ->
        v' = v).
Proof.
  split; [|split; [|split]].
  - intros variables i v Hv. unfold addFullyQualifiedName.
    rewrite lookup_map, Hv. eexists. split; [reflexivity|]. done.
  - intros hs v Hkind. unfold convertDebugVariableToProtocolVariable.
    destruct (kind v); try discriminate Hkind;
      destruct (children v) as [|c cs] eqn:Hc; cbn [length Nat.ltb Nat.leb];
      destruct v; simpl in *; subst; eauto 10.
  - intros hs v target rest Hkind Hchildren Haddr Htype Hsub.
    unfold convertDebugVariableToProtocolVariable. rewrite Hkind, Hchildren.
    cbn [head mbind option_bind].
    destruct (Z.eqb_spec (addr target) 0) as [|_]; [done|].
    destruct (String.eqb_spec (type_ target) "void") as [|_]; [done|].
    destruct (children target) as [|c cs] eqn:Hc; [done|].
    cbn [length Nat.ltb Nat.leb tail].
    unfold Handles_create. do 3 eexists.
    exists (with_children (with_fullyQualifiedName target (fullyQualifiedName v))
              (qualifyChildren (fullyQualifiedName v) (children target))).
    split; [reflexivity|]. destruct v. cbn. by rewrite Hc.
  - intros hs v hs' v' r Hkind. unfold convertDebugVariableToProtocolVariable.
    destruct (kind v); try discriminate Hkind; unfold Handles_create;
      intros Heq; repeat case_match; by simplify_option_eq.
Qed.

(** Listing, then rendering: only the second step gives the field the name
    [s.f]. *)
Lemma fullyQualifiedName_propagation_witness :
  (exists v',
      addFullyQualifiedName [structWithField] !! 0%nat = Some v'
      /\ name v' = "s"
      /\ fullyQualifiedName v' = "s"
      /\ map fullyQualifiedName (children v') = ["s"])
  /\ exists hs' v' r,
       convertDebugVariableToProtocolVariable Handles_new
         (with_fullyQualifiedName structWithField "s")
       = Some (hs', v', r)
       /\ map fullyQualifiedName (children v') = ["s.f"].
Proof.
  destruct fullyQualifiedName_propagation as (Hlist & Hrender & _).
  split.
  - destruct (Hlist [structWithField] 0%nat structWithField eq_refl)
      as (v' & Hv' & Hname & Hfqn & Hchildren).
    exists v'. rewrite Hchildren. by repeat split.
  - destruct (Hrender Handles_new (with_fullyQualifiedName structWithField "s") eq_refl)
      as (hs' & v' & r & Hconv & _ & _ & Hchildren).
    exists hs', v', r. rewrite Hchildren. by split.
Defined.

(** C8 (counterexample). After the listing of a struct [s] with a field [f]
    and of a shadowed local [x], the field has the fully-qualified name [s],
    not [s.f], and the local is named [(x)] while its fully-qualified name is
    [x]. *)
Lemma fullyQualifiedName_propagation_counterexample :
  exists s f x,
    localScopeVariables [structWithField; variable "x" Int 2 12 []] [] = [s; x]
    /\ children s = [f]
    /\ fullyQualifiedName s = "s"
    /\ name f = "f"
    /\ fullyQualifiedName f = "s"
    /\ fullyQualifiedName f <> fullyQualifiedName s +:+ "." +:+ name f
    /\ name x = "(x)"
    /\ fullyQualifiedName x = "x"
    /\ fullyQualifiedName x <> name x.
Proof. eexists _, _, _. split; [reflexivity|]. by repeat split. Qed.

(** ** Shadowed locals *)

Section Sorting.

Variable D : nat -> Z.

(** The comparator of the code for the line numbers [D], and the order it
    sorts by: the larger line first. *)
Let cmp (lhs rhs : nat) : Z := D rhs - D lhs.






End Sorting.



(** *** Enclosing in parentheses *)









(** *** The groups *)
















(** The locals of the shadowing scenario: [x] declared at lines 20, 15 and
    25. The innermost declaration, at line 25, gets one pair of
    parentheses. *)
Example shadowed_names_scenario :
  map name
    (localScopeVariables
       [variable "x" Int 2 20 []; variable "x" Int 2 15 []; variable "x" Int 2 25 []] [])
  = ["((x))"; "(((x)))"; "(x)"].
Proof. reflexivity. Qed.

(** Arguments come first; names that are not shadowed stay; each name has
    its own count. *)
Example shadowed_names_mixed :
  map name
    (localScopeVariables
       [variable "x" Int 2 20 []; variable "y" Int 0 21 []; variable "x" Int 2 15 [];
        variable "y" Int 2 3 []]
       [variable "x" Int 8 1 []; variable "y" Int 10 1 []])
  = ["x"; "((y))"; "(x)"; "y"; "((x))"; "(y)"].
Proof. reflexivity. Qed.

(** * Further properties

    Properties of the handlers that the specification does not single out. *)

(** ** Stack frames *)

Lemma toLocalPath_total (h : Host) (this : GoDebugSession) (d : Delve) (p : string) :
  delve this = Some d -> exists q, toLocalPath h this p = Some q.
Proof.
  intros Hd. unfold toLocalPath. rewrite Hd. cbn [mbind option_bind].
  repeat case_match; eauto.
Qed.

Lemma stackFrameOf_spec (h : Host) (path_basename : string -> string)
    (this : GoDebugSession) (d : Delve) (id : Z) (location : DebugLocation) :
  delve this = Some d ->
  exists f, stackFrameOf h path_basename this id location = Some f
            /\ frame_id f = id /\ frame_line f = loc_line location.
Proof.
  intros Hd. unfold stackFrameOf.
  destruct (String.eqb (loc_file location) "<autogenerated>").
  - eexists. split; [reflexivity|]. split; reflexivity.
  - destruct (toLocalPath_total h this d (loc_file location) Hd) as [q ->].
    eexists. split; [reflexivity|]. split; reflexivity.
Qed.

Lemma Handles_get_create_ne {T} (hs : Handles T) (v : T) (key : Z) :
  key <> nextHandle hs ->
  Handles_get (Handles_create hs v).1 key = Handles_get hs key.
Proof.
  intros Hne. unfold Handles_get, Handles_create. cbn.
  by rewrite lookup_insert_ne.
Qed.

Lemma Handles_get_create {T} (hs : Handles T) (v : T) :
  Handles_get (Handles_create hs v).1 (nextHandle hs) = Some v.
Proof.
  unfold Handles_get, Handles_create. cbn. by rewrite lookup_insert_eq.
Qed.

Lemma stackFrames_from_spec (h : Host) (path_basename : string -> string)
    (this : GoDebugSession) (d : Delve) (goroutineId : Z)
    (locations : list DebugLocation) :
  delve this = Some d ->
  forall (frameId : nat) (hs : Handles (Z * Z)),
  exists hs' frames,
    stackFrames_from h path_basename this goroutineId frameId hs locations
      = Some (hs', frames)
    /\ nextHandle hs' = nextHandle hs + Z.of_nat (length locations)
    /\ length frames = length locations
    /\ (forall key, key < nextHandle hs -> Handles_get hs' key = Handles_get hs key)
    /\ forall (k : nat) (f : StackFrame), frames !! k = Some f ->
         exists location, locations !! k = Some location
           /\ frame_line f = loc_line location
           /\ frame_id f = nextHandle hs + Z.of_nat k
           /\ Handles_get hs' (frame_id f) = Some (goroutineId, Z.of_nat (frameId + k)).
Proof.
  intros Hd. induction locations as [|location rest IH]; intros frameId hs.
  - exists hs, []. cbn. repeat split; try lia. intros k f Hk. by destruct k.
  - cbn [stackFrames_from]. unfold Handles_create at 1.
    set (hs1 := {| nextHandle := nextHandle hs + 1;
                   handleMap := <[nextHandle hs := (goroutineId, Z.of_nat frameId)]>
                                  (handleMap hs) |}).
    destruct (stackFrameOf_spec h path_basename this d (nextHandle hs) location Hd)
      as (f0 & -> & Hid0 & Hline0).
    cbn [mbind option_bind].
    destruct (IH (S frameId) hs1) as (hs' & frames & -> & Hnext & Hlen & Hold & Hnew).
    cbn [mbind option_bind].
    exists hs', (f0 :: frames). split; [reflexivity|].
    assert (Hget0 : Handles_get hs' (nextHandle hs)
                    = Some (goroutineId, Z.of_nat frameId)).
    { rewrite Hold by (subst hs1; cbn; lia).
      subst hs1. unfold Handles_get. cbn. by rewrite lookup_insert_eq. }
    split; [subst hs1; cbn in *; lia|].
    split; [cbn; lia|].
    split.
    { intros key Hkey. rewrite Hold by (subst hs1; cbn; lia).
      subst hs1. unfold Handles_get. cbn. rewrite lookup_insert_ne; [done|lia]. }
    intros k f Hk. destruct k as [|k].
    + cbn in Hk. injection Hk as <-. exists location. split; [reflexivity|].
      split; [done|]. split; [lia|].
      rewrite Hid0, Nat.add_0_r. exact Hget0.
    + cbn in Hk. destruct (Hnew k f Hk) as (loc & Hloc & Hline & Hid & Hget).
      exists loc. split; [exact Hloc|]. split; [done|].
      split; [subst hs1; cbn in Hid; lia|].
      replace (frameId + S k)%nat with (S frameId + k)%nat by lia. exact Hget.
Qed.

Lemma pageFrames_lookup (args_startFrame args_levels : option Z)
    (stackFrames : list StackFrame) (k : nat) (f : StackFrame) :
  pageFrames args_startFrame args_levels stackFrames !! k = Some f ->
  stackFrames !! (skippedFrames args_startFrame + k)%nat = Some f.
Proof.
  unfold pageFrames, skippedFrames. intros Hk.
  assert (Hdrop : (match args_startFrame with
                   | Some startFrame =>
                       if 0 <? startFrame then drop (Z.to_nat startFrame) stackFrames
                       else stackFrames
                   | None => stackFrames
                   end) !! k = Some f).
  { destruct args_levels as [levels|]; [|exact Hk].
    destruct (0 <? levels); [|exact Hk].
    apply lookup_take_Some in Hk. tauto. }
  destruct args_startFrame as [startFrame|]; [|exact Hdrop].
  destruct (0 <? startFrame); [|exact Hdrop].
  by rewrite lookup_drop in Hdrop.
Qed.

Lemma pageFrames_length (args_startFrame args_levels : option Z)
    (stackFrames : list StackFrame) :
  length (pageFrames args_startFrame args_levels stackFrames)
  = shownFrames args_levels (length stackFrames - skippedFrames args_startFrame).
Proof.
  unfold pageFrames, shownFrames, skippedFrames.
  destruct args_startFrame as [startFrame|], args_levels as [levels|];
    repeat case_match; rewrite ?length_take, ?length_drop; lia.
Qed.

Lemma stackTraceRequest_callback_frames (h : Host) (path_basename : string -> string)
    (this : GoDebugSession) (d : Delve) (threadId : Z)
    (startFrame levels : option Z) (locations : list DebugLocation) :
  delve this = Some d ->
  exists this' frames,
    stackTraceRequest_callback h path_basename this threadId startFrame levels
      (Resolved locations)
    = Some (this', [Replied (StackTraceReply frames (Z.of_nat (length locations)))])
    /\ delve this' = Some d
    /\ length frames
       = shownFrames levels (length locations - skippedFrames startFrame)
    /\ forall (k : nat) (f : StackFrame), frames !! k = Some f ->
         exists location,
           locations !! (skippedFrames startFrame + k)%nat = Some location
           /\ frame_line f = loc_line location
           /\ frame_id f
              = nextHandle (stackFrameHandles this)
                + Z.of_nat (skippedFrames startFrame + k)
           /\ Handles_get (stackFrameHandles this') (frame_id f)
              = Some (threadId, Z.of_nat (skippedFrames startFrame + k)).
Proof.
  intros Hd. unfold stackTraceRequest_callback. rewrite Hd. cbn [mbind option_bind].
  destruct (stackFrames_from_spec h path_basename this d threadId locations Hd
              O (stackFrameHandles this))
    as (hs' & all & -> & _ & Hlen & _ & Hall).
  cbn [mbind option_bind].
  eexists _, _. split; [reflexivity|].
  split; [exact Hd|].
  split; [by rewrite pageFrames_length, Hlen|].
  intros k f Hk. apply pageFrames_lookup in Hk.
  destruct (Hall _ _ Hk) as (location & Hloc & Hline & Hid & Hget).
  exists location. split; [exact Hloc|]. split; [exact Hline|].
  split; [exact Hid|]. exact Hget.
Qed.

(** X1 (stackTraceRequest): when the backend returns its locations, the reply
    reports all of them as [totalFrames] whatever the paging, shows
    [levels] frames at most from [startFrame] on, and the k-th frame shown is
    the location number [startFrame + k], with that location's line and an id
    that the session resolves to the thread and that number. *)
Theorem stackTrace_pages_locations (h : Host) (path_basename : string -> string)
    (this : GoDebugSession) (d : Delve) (threadId : Z)
    (startFrame levels : option Z) (locations : list DebugLocation) :
  delve this = Some d ->
  exists this' frames,
    stackTraceRequest_callback h path_basename this threadId startFrame levels
      (Resolved locations)
    = Some (this', [Replied (StackTraceReply frames (Z.of_nat (length locations)))])
    /\ length frames
       = shownFrames levels (length locations - skippedFrames startFrame)
    /\ forall (k : nat) (f : StackFrame), frames !! k = Some f ->
         exists location,
           locations !! (skippedFrames startFrame + k)%nat = Some location
           /\ frame_line f = loc_line location
           /\ Handles_get (stackFrameHandles this') (frame_id f)
              = Some (threadId, Z.of_nat (skippedFrames startFrame + k)).
Proof.
  intros Hd.
  destruct (stackTraceRequest_callback_frames h path_basename this d threadId
              startFrame levels locations Hd)
    as (this' & frames & Heq & _ & Hlen & Hframes).
  exists this', frames. split; [exact Heq|]. split; [exact Hlen|].
  intros k f Hk. destruct (Hframes k f Hk) as (location & Hloc & Hline & _ & Hget).
  exists location. by repeat split.
Qed.

Lemma stackTrace_pages_locations_witness :
  exists this' frames,
    stackTraceRequest_callback (posix_host None None) (fun p => p) launchedSession 1
      (Some 1) (Some 1) (Resolved twoLocations)
    = Some (this', [Replied (StackTraceReply frames 2)])
    /\ length frames = 1%nat
    /\ forall (k : nat) (f : StackFrame), frames !! k = Some f ->
         exists location,
           twoLocations !! (1 + k)%nat = Some location
           /\ frame_line f = loc_line location
           /\ Handles_get (stackFrameHandles this') (frame_id f)
              = Some (1, Z.of_nat (1 + k)).
Proof.
  exact (stackTrace_pages_locations (posix_host None None) (fun p => p) launchedSession
           launchedDelve 1 (Some 1) (Some 1) twoLocations eq_refl).
Defined.

(** X2 (stackTraceRequest, scopesRequest, evaluateRequestImpl): the id of a
    frame that a stack trace reply shows selects that frame afterwards. A
    scopes request for it lists the locals, and then the arguments, of the
    thread and frame number it stands for, and an evaluate request for it
    evaluates in that same scope. Frame ids count up from a positive number,
    as the handle table of the session has it from the start. *)
Theorem frame_id_selects_frame (h : Host) (path_basename : string -> string)
    (this this' : GoDebugSession) (d : Delve) (threadId total : Z)
    (startFrame levels : option Z) (locations : list DebugLocation)
    (frames : list StackFrame) (k : nat) (f : StackFrame) :
  delve this = Some d ->
  0 < nextHandle (stackFrameHandles this) ->
  stackTraceRequest_callback h path_basename this threadId startFrame levels
    (Resolved locations)
  = Some (this', [Replied (StackTraceReply frames total)]) ->
  frames !! k = Some f ->
  let frame := Z.of_nat (skippedFrames startFrame + k) in
  (forall o r, scopesRequest this' (frame_id f) o = Some r ->
     exists rest,
       r.2 = Call "ListLocalVars" (listVarsArgs d threadId frame) :: rest
       /\ forall locals, out_ListLocalVars o = Resolved locals ->
            exists rest',
              rest = Call "ListFunctionArgs" (listVarsArgs d threadId frame) :: rest')
  /\ forall expression,
       evaluateRequest this' expression (Some (frame_id f))
       = Some [Call (if isApiV1 d then "EvalSymbol" else "Eval")
                 [if isApiV1 d
                  then JObj [("symbol", JStr expression);
                             ("scope", json_of_scope threadId frame)]
                  else JObj [("Expr", JStr expression);
                             ("Scope", json_of_scope threadId frame);
                             ("Cfg", json_of_LoadConfig (loadConfig d))]]].
Proof.
  intros Hd Hpos Hcb Hk frame.
  destruct (stackTraceRequest_callback_frames h path_basename this d threadId
              startFrame levels locations Hd)
    as (this1 & frames1 & Heq & Hd' & _ & Hframes).
  rewrite Heq in Hcb. injection Hcb as -> -> _.
  destruct (Hframes k f Hk) as (location & _ & _ & Hid & Hget).
  split.
  - intros o r Hr. unfold scopesRequest in Hr. rewrite Hget, Hd' in Hr.
    cbn [mbind option_bind] in Hr.
    destruct (out_ListLocalVars o) as [err|locals] eqn:Hlocals.
    + destruct (err_truthy err); [|done]. injection Hr as <-.
      eexists. split; [reflexivity|]. intros locals Hl. done.
    + destruct (out_ListFunctionArgs o) as [err|functionArgs].
      * destruct (err_truthy err); [|done]. injection Hr as <-.
        eexists. split; [reflexivity|]. intros ? _. eexists. reflexivity.
      * revert Hr. unfold Handles_create at 1.
        destruct (negb (showGlobalVariables this')).
        { intros [= <-]. eexists. split; [reflexivity|]. intros ? _. by eexists. }
        destruct (debugState this') as [st|]; [|done]. cbn [mbind option_bind].
        case_match.
        { intros [= <-]. eexists. split; [reflexivity|]. intros ? _. by eexists. }
        destruct (out_ListPackageVars o) as [err|globals].
        { destruct (err_truthy err); [|done]. intros [= <-].
          eexists. split; [reflexivity|]. intros ? _. by eexists. }
        intros [= <-]. eexists. split; [reflexivity|]. intros ? _. by eexists.
  - intros expression. unfold evaluateRequest, evaluateRequestImpl.
    assert (Hnz : truthy_num (Some (frame_id f)) = true).
    { unfold truthy_num. apply negb_true_iff, Z.eqb_neq. lia. }
    rewrite Hnz. change (default 0 (Some (frame_id f))) with (frame_id f).
    rewrite Hget, Hd'. reflexivity.
Qed.

Lemma frame_id_selects_frame_witness :
  exists this' f,
    [f] !! O = Some f
    /\ (forall o r, scopesRequest this' (frame_id f) o = Some r ->
          exists rest,
            r.2 = Call "ListLocalVars" (listVarsArgs launchedDelve 1 1) :: rest
            /\ forall locals, out_ListLocalVars o = Resolved locals ->
                 exists rest',
                   rest = Call "ListFunctionArgs" (listVarsArgs launchedDelve 1 1) :: rest')
    /\ forall expression,
         evaluateRequest this' expression (Some (frame_id f))
         = Some [Call "Eval"
                   [JObj [("Expr", JStr expression);
                          ("Scope", json_of_scope 1 1);
                          ("Cfg", json_of_LoadConfig defaultLoadConfig)]]].
Proof.
  eexists _, _. split; [reflexivity|].
  refine (frame_id_selects_frame (posix_host None None) (fun p => p) launchedSession _
            launchedDelve 1 2 (Some 1) (Some 1) twoLocations _ O _
            eq_refl eq_refl eq_refl eq_refl).
Defined.

(** A scopes request for that frame, answered by a backend that lists no
    variable. *)
Example scopes_of_second_frame :
  exists this' f,
    stackTraceRequest_callback (posix_host None None) (fun p => p) launchedSession 1
      (Some 1) (Some 1) (Resolved twoLocations)
    = Some (this', [Replied (StackTraceReply [f] 2)])
    /\ frame_id f = 1001
    /\ snd <$> scopesRequest this' 1001
                 {| out_ListLocalVars := Resolved []; out_ListFunctionArgs := Resolved [];
                    out_getPackageInfo := None; out_ListPackageVars := Resolved [] |}
       = Some [Call "ListLocalVars" (listVarsArgs launchedDelve 1 1);
               Call "ListFunctionArgs" (listVarsArgs launchedDelve 1 1);
               SendResponse (ScopesBody [{| scope_name := "Local";
                                            scope_variablesReference := 1000;
                                            scope_expensive := false |}])].
Proof. eexists _, _. split; [reflexivity|]. split; reflexivity. Qed.

(** ** Configuration done *)

Lemma continue_effects (this : GoDebugSession) (d : Delve) :
  delve this = Some d ->
  continue this
  = Some (set_continueRequestRunning
            (set_continueEpoch this (js_increment (continueEpoch this))) true,
          js_increment (continueEpoch this), [continueCall]).
Proof. intros Hd. unfold continue. cbn. by rewrite Hd. Qed.

(** X3 (configurationDoneRequest, continueRequest): the request is answered
    exactly when the session stops on entry or the backend reports a target
    that is not running, and in the latter case only is the target resumed.
    When the target already runs, or its state cannot be read, the request
    gets no response at all. *)
Theorem configurationDone_answer (this : GoDebugSession) (d : Delve)
    (out_State : RpcOutcome DebuggerState) :
  delve this = Some d ->
  let stopped :=
    match out_State with
    | Resolved st => negb (Running st)
    | Rejected _ => false
    end in
  exists this' effs,
    configurationDoneRequest this out_State = Some (this', effs)
    /\ List.filter isResponse effs
       = (if stopOnEntry this || stopped then [SendResponse NoBody] else [])
    /\ (In continueCall effs <-> stopOnEntry this = false /\ stopped = true)
    /\ continueRequestRunning this'
       = (negb (stopOnEntry this) && stopped) || continueRequestRunning this.
Proof.
  intros Hd stopped. unfold configurationDoneRequest.
  destruct (stopOnEntry this) eqn:Hentry.
  - eexists _, _. split; [reflexivity|]. split; [reflexivity|].
    split; [|reflexivity]. split.
    + intros [H|[H|[]]]; discriminate H.
    + intros [? _]. done.
  - rewrite Hd. cbn [mbind option_bind]. destruct out_State as [err|st].
    + eexists _, _. split; [reflexivity|]. split; [reflexivity|].
      split; [|reflexivity]. subst stopped. split.
      * intros [H|[]]. discriminate H.
      * intros [_ ?]. done.
    + subst stopped. destruct (Running st) eqn:Hrun; cbn [negb].
      * eexists _, _. split; [reflexivity|]. split; [reflexivity|].
        split; [|reflexivity]. split.
        -- intros [H|[]]. discriminate H.
        -- intros [_ ?]. done.
      * unfold continueRequest.
        rewrite (continue_effects (set_debugState this (Some st)) d Hd).
        cbn [mbind option_bind].
        eexists _, _. split; [reflexivity|]. split; [reflexivity|].
        split; [|reflexivity]. split; [done|].
        intros _. right. left. reflexivity.
Qed.

Lemma configurationDone_answer_witness :
  exists this' effs,
    configurationDoneRequest launchedSession (Resolved stoppedState) = Some (this', effs)
    /\ List.filter isResponse effs = [SendResponse NoBody]
    /\ (In continueCall effs <-> false = false /\ true = true)
    /\ continueRequestRunning this' = true.
Proof.
  exact (configurationDone_answer launchedSession launchedDelve (Resolved stoppedState)
           eq_refl).
Defined.

(** A target that already runs: the state is read and nothing is sent. *)
Example configurationDone_running :
  snd <$> configurationDoneRequest launchedSession
            (Resolved {| exited := false; exitStatus := 0; currentThread := None;
                         currentGoroutine := None; Running := true |})
  = Some [getDebugState].
Proof. reflexivity. Qed.

(** ** Disconnect *)

(** X4 (disconnectRequest, Delve.close): in a remote session the adapter
    reads the state, resumes a target that is stopped, and ends the
    connection. It neither halts nor detaches, and the request itself is
    never answered nor the session shut down, since [close] leaves its
    promise unresolved. *)
Theorem disconnect_remote (this this' : GoDebugSession) (d : Delve)
    (out_State : RpcOutcome DebuggerState) (o : CloseOutcomes) (acts : list Action) :
  delve this = Some d ->
  isRemoteDebugging d = true ->
  noDebug d = false ->
  disconnectRequest this out_State o = Some (this', acts) ->
  (forall body, ~ In (Did (SendResponse body)) acts)
  /\ ~ In Shutdown acts
  /\ ~ In (Did haltCall) acts
  /\ (forall args, ~ In (Did (Call "Detach" args)) acts)
  /\ forall st, out_State = Resolved st ->
       In (Did EndConnection) acts
       /\ (In (Did continueCall) acts <-> Running st = false).
Proof.
  intros Hd Hremote Hdebug. unfold disconnectRequest. rewrite Hd.
  cbn [mbind option_bind]. rewrite Hremote.
  destruct out_State as [err|st].
  - intros [= <- <-].
    split; [intros body [H|[]]; discriminate H|].
    split; [intros [H|[]]; discriminate H|].
    split; [intros [H|[]]; discriminate H|].
    split; [intros args [H|[]]; discriminate H|].
    intros st H. discriminate H.
  - unfold close. rewrite Hdebug, Hremote.
    destruct (Running st) eqn:Hrun; cbn [negb mbind option_bind].
    + intros [= <- <-]. cbn.
      split; [intros body H; intuition discriminate|].
      split; [intros H; intuition discriminate|].
      split; [intros H; intuition discriminate|].
      split; [intros args H; intuition discriminate|].
      intros st0 [= <-]. split; [tauto|]. rewrite Hrun.
      split; [intros H; intuition discriminate|discriminate].
    + rewrite (continue_effects (set_debugState this (Some st)) d Hd).
      cbn [mbind option_bind]. intros [= <- <-]. cbn.
      split; [intros body H; intuition discriminate|].
      split; [intros H; intuition discriminate|].
      split; [intros H; intuition discriminate|].
      split; [intros args H; intuition discriminate|].
      intros st0 [= <-]. split; [tauto|]. rewrite Hrun.
      split; [reflexivity|]. intros _. right. left. reflexivity.
Qed.

Lemma disconnect_remote_witness :
  (forall body,
     ~ In (Did (SendResponse body))
          [Did getDebugState; Did continueCall; Did EndConnection])
  /\ ~ In Shutdown [Did getDebugState; Did continueCall; Did EndConnection]
  /\ ~ In (Did haltCall) [Did getDebugState; Did continueCall; Did EndConnection]
  /\ (forall args,
        ~ In (Did (Call "Detach" args))
             [Did getDebugState; Did continueCall; Did EndConnection])
  /\ forall st, Resolved stoppedState = Resolved st ->
       In (Did EndConnection) [Did getDebugState; Did continueCall; Did EndConnection]
       /\ (In (Did continueCall) [Did getDebugState; Did continueCall; Did EndConnection]
           <-> Running st = false).
Proof.
  exact (disconnect_remote (remoteSession "/w/" "/srv/" "/" "/") _ _
           (Resolved stoppedState) exitedHalt _ eq_refl eq_refl eq_refl eq_refl).
Defined.

Lemma answerClose_first (before after : list Effect) :
  ~ In ResolveClose before ->
  answerClose (before ++ ResolveClose :: after)
  = map Did before ++ [Did ResolveClose; Did (SendResponse NoBody); Shutdown]
    ++ map Did after.
Proof.
  induction before as [|e before IH]; intros Hnot; [reflexivity|].
  cbn [app answerClose map].
  rewrite IH by (intros H; apply Hnot; by right).
  destruct e; try reflexivity. exfalso. apply Hnot. by left.
Qed.

Lemma close_not_remote (d : Delve) (o : CloseOutcomes) (effs : list Effect) :
  isRemoteDebugging d = false ->
  close d o = Some effs ->
  (forall body, ~ In (SendResponse body) effs)
  /\ exists before after,
       effs = before ++ ResolveClose :: after /\ ~ In ResolveClose before.
Proof.
  intros Hrem. destruct (noDebug d) eqn:Hnd.
  - unfold close. rewrite Hnd. intros [= <-]. split.
    + intros body [H|[]]. discriminate H.
    + exists [], []. split; [reflexivity|]. intros [].
  - destruct (close_effects d o Hnd Hrem) as (watchdog & cleanup & Hshape & ->).
    intros [= <-].
    assert (Hcleanup : forall e, In e cleanup -> isForcedCleanup e = true).
    { destruct (isLocalDebugging d).
      - destruct Hshape as (pid & _ & -> & _). intros e [<-|[<-|[]]]; reflexivity.
      - destruct Hshape as [-> _]. intros e []. }
    assert (Hwatchdog : watchdog = [] \/ watchdog = cleanup ++ [ResolveClose]).
    { destruct (isLocalDebugging d).
      - destruct Hshape as (pid & _ & _ & H). exact H.
      - left. tauto. }
    set (rest := if shouldDetach (haltErrMsg (out_Command_halt o))
                 then detachCall d :: (if resolved (out_Detach o) then [] else cleanup)
                 else cleanup).
    assert (Hrest : forall e, In e rest -> isForcedCleanup e = true \/ e = detachCall d).
    { subst rest. intros e. destruct (shouldDetach _).
      - intros [<-|He]; [by right|]. destruct (resolved _); [done|]. left. auto.
      - intros He. left. auto. }
    split.
    + intros body Hin. cbn in Hin. destruct Hin as [H|Hin]; [discriminate H|].
      rewrite !in_app_iff in Hin. destruct Hin as [Hin|[Hin|[H|[]]]].
      * destruct Hwatchdog as [->| ->]; [done|].
        apply in_app_iff in Hin as [Hin|[H|[]]]; [|discriminate H].
        apply Hcleanup in Hin. discriminate Hin.
      * apply Hrest in Hin as [Hin|Hin]; discriminate Hin.
      * discriminate H.
    + destruct Hwatchdog as [->| ->].
      * exists (haltCall :: rest), []. split; [reflexivity|].
        intros [H|Hin]; [discriminate H|].
        apply Hrest in Hin as [Hin|Hin]; discriminate Hin.
      * exists (haltCall :: cleanup), (rest ++ [ResolveClose]). split.
        { cbn. by rewrite <- app_assoc. }
        intros [H|Hin]; [discriminate H|]. apply Hcleanup in Hin. discriminate Hin.
Qed.

(** X5 (disconnectRequest, Delve.close): in a session that is not remote the
    adapter neither reads the state nor resumes the target; the session is
    left as it was. The request is answered once, and the session shut down,
    right after [close] first resolves its promise. *)
Theorem disconnect_local (this this' : GoDebugSession) (d : Delve)
    (out_State : RpcOutcome DebuggerState) (o : CloseOutcomes) (acts : list Action) :
  delve this = Some d ->
  isRemoteDebugging d = false ->
  disconnectRequest this out_State o = Some (this', acts) ->
  this' = this
  /\ exists before after,
       close d o = Some (before ++ ResolveClose :: after)
       /\ ~ In ResolveClose before
       /\ (forall body, ~ In (SendResponse body) (before ++ after))
       /\ acts = map Did before
                 ++ [Did ResolveClose; Did (SendResponse NoBody); Shutdown]
                 ++ map Did after.
Proof.
  intros Hd Hrem. unfold disconnectRequest. rewrite Hd. cbn [mbind option_bind].
  rewrite Hrem. destruct (close d o) as [closing|] eqn:Hclose; [|done].
  cbn [mbind option_bind]. intros [= <- <-]. split; [reflexivity|].
  destruct (close_not_remote d o closing Hrem Hclose)
    as (Hnone & before & after & -> & Hfirst).
  exists before, after. split; [reflexivity|]. split; [exact Hfirst|].
  split.
  - intros body Hin. apply (Hnone body). rewrite in_app_iff in *.
    destruct Hin; [by left|]. right. by right.
  - by apply answerClose_first.
Qed.

Lemma disconnect_local_witness :
  launchedSession = launchedSession
  /\ exists before after,
       close launchedDelve exitedHalt = Some (before ++ ResolveClose :: after)
       /\ ~ In ResolveClose before
       /\ (forall body, ~ In (SendResponse body) (before ++ after))
       /\ [Did haltCall; Did (detachCall launchedDelve); Did ResolveClose;
           Did (SendResponse NoBody); Shutdown]
          = map Did before
            ++ [Did ResolveClose; Did (SendResponse NoBody); Shutdown]
            ++ map Did after.
Proof.
  exact (disconnect_local launchedSession _ launchedDelve (Resolved stoppedState)
           exitedHalt _ eq_refl eq_refl eq_refl).
Defined.

(** X6 (Delve.close): [close] kills the debug process and removes the debug
    binary only in a session that was launched, with a child process, for
    debugging on this machine; and in such a session it leaves them alone
    only after a [Detach] that the backend accepted. *)
Theorem close_cleanup_local_launch_only (d : Delve) (o : CloseOutcomes)
    (effs : list Effect) :
  close d o = Some effs ->
  (existsb isForcedCleanup effs = true ->
     request d = RequestLaunch /\ is_Some (debugProcess d)
     /\ noDebug d = false /\ isRemoteDebugging d = false)
  /\ (noDebug d = false -> isRemoteDebugging d = false ->
      isLocalDebugging d = true ->
      existsb isForcedCleanup effs = false ->
      existsb isDetach effs = true /\ resolved (out_Detach o) = true).
Proof.
  intros Hclose. split.
  - intros Hforced. destruct (noDebug d) eqn:Hnd.
    { unfold close in Hclose. rewrite Hnd in Hclose. injection Hclose as <-.
      discriminate Hforced. }
    destruct (isRemoteDebugging d) eqn:Hrem.
    { unfold close in Hclose. rewrite Hnd, Hrem in Hclose. injection Hclose as <-.
      discriminate Hforced. }
    destruct (close_effects d o Hnd Hrem) as (watchdog & cleanup & Hshape & Heq).
    destruct (isLocalDebugging d) eqn:Hlocal.
    + unfold isLocalDebugging in Hlocal. destruct (request d); [|done].
      apply bool_decide_eq_true in Hlocal. done.
    + destruct Hshape as [-> ->]. rewrite Heq in Hclose. injection Hclose as <-.
      exfalso. cbn in Hforced.
      destruct (shouldDetach _); [destruct (resolved _)|]; discriminate Hforced.
  - intros Hnd Hrem Hlocal Hkept.
    destruct (close_effects d o Hnd Hrem) as (watchdog & cleanup & Hshape & Heq).
    rewrite Hlocal in Hshape. destruct Hshape as (pid & _ & -> & Hwatchdog).
    rewrite Heq in Hclose. injection Hclose as <-.
    revert Hkept. cbn [existsb app]. rewrite !existsb_app.
    destruct (shouldDetach _).
    + cbn [existsb]. destruct (resolved (out_Detach o)).
      * intros _. split; [|reflexivity]. cbn. by rewrite !orb_true_r.
      * cbn. rewrite !orb_true_r. discriminate.
    + cbn. rewrite !orb_true_r. discriminate.
Qed.

Lemma close_cleanup_local_launch_only_witness :
  (existsb isForcedCleanup [haltCall; detachCall launchedDelve; ResolveClose] = true ->
     request launchedDelve = RequestLaunch /\ is_Some (debugProcess launchedDelve)
     /\ noDebug launchedDelve = false /\ isRemoteDebugging launchedDelve = false)
  /\ (noDebug launchedDelve = false -> isRemoteDebugging launchedDelve = false ->
      isLocalDebugging launchedDelve = true ->
      existsb isForcedCleanup [haltCall; detachCall launchedDelve; ResolveClose] = false ->
      existsb isDetach [haltCall; detachCall launchedDelve; ResolveClose] = true
      /\ resolved (Resolved tt) = true).
Proof.
  exact (close_cleanup_local_launch_only launchedDelve exitedHalt _ eq_refl).
Defined.

(** ** Re-entering the debugger *)

Lemma handleReenterDebug_spec (this this' : GoDebugSession) (effs : list Effect) :
  handleReenterDebug this = Some (this', effs) ->
  this' = cleanupHandles this.
Proof.
  unfold handleReenterDebug. cbn.
  destruct (debugState this) as [st|]; [|done]. cbn.
  destruct (exited st); [by intros [= <- _]|].
  destruct (delve this); [|done]. by intros [= <- _].
Qed.

Lemma handleReenterDebug_no_dump (this this' : GoDebugSession) (effs : list Effect) :
  handleReenterDebug this = Some (this', effs) -> ~ In DumpStacktrace effs.
Proof.
  unfold handleReenterDebug. cbn.
  destruct (debugState this) as [st|]; [|done]. cbn.
  destruct (exited st).
  - intros [= _ <-] [H|[]]. discriminate H.
  - destruct (delve this); [|done]. intros [= _ <-] [H|[]]. discriminate H.
Qed.

Lemma handleReenterDebug_callback_handles (reason : string)
    (listing : RpcOutcome (list DebugGoroutine)) (this this' : GoDebugSession)
    (effs : list Effect) :
  handleReenterDebug_callback reason listing this = Some (this', effs) ->
  variableHandles this' = variableHandles this
  /\ stackFrameHandles this' = stackFrameHandles this
  /\ continueRequestRunning this' = continueRequestRunning this
  /\ continueEpoch this' = continueEpoch this.
Proof.
  unfold handleReenterDebug_callback. intros H.
  repeat (simplify_option_eq || case_match); done.
Qed.

(** The listing callback starts [dumpStacktrace] only for an error. *)
Lemma handleReenterDebug_callback_dump (reason : string)
    (listing : RpcOutcome (list DebugGoroutine)) (this this' : GoDebugSession)
    (effs : list Effect) :
  handleReenterDebug_callback reason listing this = Some (this', effs) ->
  In DumpStacktrace effs ->
  exists err, listing = Rejected err /\ err_truthy err = true.
Proof.
  unfold handleReenterDebug_callback. intros H Hin.
  destruct listing as [err|gs].
  - exists err. split; [done|]. destruct (err_truthy err) eqn:Htruthy; [done|].
    exfalso. repeat (simplify_option_eq || case_match); cbn in Hin;
      intuition discriminate.
  - exfalso. repeat (simplify_option_eq || case_match); cbn in Hin;
      intuition discriminate.
Qed.

Lemma reenterDebug_reset (reason : string) (listing : RpcOutcome (list DebugGoroutine))
    (this this' : GoDebugSession) (effs : list Effect) :
  reenterDebug reason listing this = Some (this', effs) ->
  variableHandles this' = Handles_new
  /\ stackFrameHandles this' = Handles_new
  /\ (In DumpStacktrace effs ->
      exists err, listing = Rejected err /\ err_truthy err = true).
Proof.
  unfold reenterDebug.
  destruct (handleReenterDebug this) as [[this1 effs1]|] eqn:H1; [|done].
  pose proof (handleReenterDebug_no_dump _ _ _ H1) as Hnone.
  apply handleReenterDebug_spec in H1 as ->. cbn [mbind option_bind].
  destruct (debugState (cleanupHandles this)) as [st|]; [|done].
  cbn [mbind option_bind].
  destruct (exited st); [by intros [= <- <-]|].
  destruct (handleReenterDebug_callback reason listing (cleanupHandles this))
    as [[this2 effs2]|] eqn:H2; [|done].
  cbn [mbind option_bind]. intros [= <- <-].
  pose proof (handleReenterDebug_callback_dump _ _ _ _ _ H2) as Hdump.
  apply handleReenterDebug_callback_handles in H2 as (-> & -> & _).
  split; [done|]. split; [done|].
  intros [Hin|Hin]%in_app_or; [done|by apply Hdump].
Qed.

Lemma reenterDebug_forgets (reason : string) (listing : RpcOutcome (list DebugGoroutine))
    (this this' : GoDebugSession) (effs : list Effect) :
  reenterDebug reason listing this = Some (this', effs) -> forgetsHandles this'.
Proof.
  intros (Hv & Hf & _)%reenterDebug_reset.
  split; intros key; [rewrite Hv|rewrite Hf]; apply lookup_empty.
Qed.

(** X7 (handleReenterDebug, cleanupHandles, continue, nextRequest,
    stepInRequest, stepOutRequest, pauseRequest, scopesRequest,
    logDelveError, dumpStacktrace): whenever a continue, a step or a pause
    comes back with a state, the handles issued before are forgotten when
    the callbacks return: no variables reference and no frame id of an
    earlier stop means anything then, and a scopes request handled in that
    state throws. [dumpStacktrace] is started on the way only when the
    goroutine listing failed; its callback then makes frame handles again,
    counting from 1000, for the goroutine it asked about. *)
Theorem handles_forgotten_on_reentry :
  (forall closureEpoch state listing this this' effs,
     continue_completed closureEpoch state listing this = Some (this', effs) ->
     forgetsHandles this'
     /\ (In DumpStacktrace effs ->
         exists err, listing = Rejected err /\ err_truthy err = true))
  /\ (forall state listing this this' effs,
        stepRequest_callback (Resolved state) listing this = Some (this', effs) ->
        forgetsHandles this'
        /\ (In DumpStacktrace effs ->
            exists err, listing = Rejected err /\ err_truthy err = true))
  /\ (forall state listing this this' effs,
        pauseRequest_callback (Resolved state) listing this = Some (this', effs) ->
        forgetsHandles this'
        /\ (In DumpStacktrace effs ->
            exists err, listing = Rejected err /\ err_truthy err = true))
  /\ (forall this frameId o, forgetsHandles this -> scopesRequest this frameId o = None)
  /\ forall h path_basename reason listing this this1 effs goroutineId locations this2
            returns,
       reenterDebug reason listing this = Some (this1, effs) ->
       dumpStacktrace_callback h path_basename this1 goroutineId (Resolved locations)
       = Some (this2, returns) ->
       (forall variablesReference,
          Handles_get (variableHandles this2) variablesReference = None)
       /\ forall (k : nat),
            (k < length locations)%nat ->
            Handles_get (stackFrameHandles this2) (START_HANDLE + Z.of_nat k)
            = Some (goroutineId, Z.of_nat k).
Proof.
  split; [|split; [|split; [|split]]].
  - intros closureEpoch state listing this this' effs. unfold continue_completed.
    destruct (delve _); [|done]. cbn [mbind option_bind]. intros H.
    split; [by eapply reenterDebug_forgets|].
    by apply reenterDebug_reset in H as (_ & _ & H).
  - intros state listing this this' effs. unfold stepRequest_callback.
    destruct (delve _); [|done]. cbn [mbind option_bind]. intros H.
    split; [by eapply reenterDebug_forgets|].
    by apply reenterDebug_reset in H as (_ & _ & H).
  - intros state listing this this' effs. unfold pauseRequest_callback.
    destruct (delve _); [|done]. cbn [mbind option_bind]. intros H.
    split; [by eapply reenterDebug_forgets|].
    by apply reenterDebug_reset in H as (_ & _ & H).
  - intros this frameId o [_ Hframes]. unfold scopesRequest. by rewrite Hframes.
  - intros h path_basename reason listing this this1 effs goroutineId locations this2
      returns Hre. apply reenterDebug_reset in Hre as (Hv & Hf & _).
    unfold dumpStacktrace_callback.
    destruct (delve this1) as [d|] eqn:Hd; [|done]. cbn [mbind option_bind].
    destruct (stackFrames_from_spec h path_basename this1 d goroutineId locations Hd 0%nat
                (stackFrameHandles this1))
      as (hs & frames & -> & _ & Hlen & _ & Hframes).
    cbn [mbind option_bind]. intros [= <- _].
    cbn [variableHandles stackFrameHandles set_stackFrameHandles]. split.
    + intros variablesReference. rewrite Hv. apply lookup_empty.
    + intros k Hk.
      destruct (lookup_lt_is_Some_2 frames k) as [f Hfk]; [lia|].
      destruct (Hframes k f Hfk) as (location & _ & _ & Hid & Hget).
      rewrite Hf in Hid. cbn [nextHandle Handles_new] in Hid. by rewrite <- Hid, Hget.
Qed.

(** A step that ends at a stop: the stop is reported with the reason [step],
    and the frame id 1000 of the stop before means nothing any more. *)
Example step_forgets_frames :
  exists this1 this2 o,
    fst <$> stackTraceRequest_callback (posix_host None None) (fun p => p)
              launchedSession 1 None None (Resolved twoLocations)
    = Some this1
    /\ Handles_get (stackFrameHandles this1) 1000 = Some (1, 0)
    /\ stepRequest_callback (Resolved stoppedState) (Resolved [mainGoroutine]) this1
       = Some (this2, [Call "ListGoroutines" [JObj [("count", JNum 1)]];
                       SendEvent (StoppedEvent "step" 1 true)])
    /\ scopesRequest this2 1000 o = None.
Proof.
  eexists _, _,
    {| out_ListLocalVars := Resolved []; out_ListFunctionArgs := Resolved [];
       out_getPackageInfo := None; out_ListPackageVars := Resolved [] |}.
  split; [reflexivity|]. split; [reflexivity|]. split; reflexivity.
Qed.

(** A step under API v1 whose goroutine listing fails: the frame id 1000 of
    the stop before means nothing when the callbacks return, and names the
    topmost frame again once the stack trace of [dumpStacktrace] is there. *)
Example dump_makes_frames_again :
  exists this1 this2 this3 o,
    fst <$> stackTraceRequest_callback (posix_host None None) (fun p => p)
              attachedSession 1 None None (Resolved twoLocations)
    = Some this1
    /\ Handles_get (stackFrameHandles this1) 1000 = Some (1, 0)
    /\ stepRequest_callback (Resolved stoppedState)
         (Rejected (ErrObject "Error: connection lost")) this1
       = Some (this2, [Call "ListGoroutines" [JObj [("count", JNum 1)]];
                       DumpStacktrace;
                       SendEvent (StoppedEvent "step" 1 true)])
    /\ scopesRequest this2 1000 o = None
    /\ dumpStacktrace this2 (Resolved stoppedState)
       = Some [Call "State" [JObj [("NonBlocking", JBool true)]];
               Call "StacktraceGoroutine" [JObj [("id", JNum 1); ("depth", JNum 50)]]]
    /\ dumpStacktrace_callback (posix_host None None) (fun p => p) this2 1
         (Resolved twoLocations)
       = Some (this3, true)
    /\ Handles_get (stackFrameHandles this3) 1000 = Some (1, 0)
    /\ (snd <$> scopesRequest this3 1000 o)
       = Some [Call "ListLocalVars" [JObj [("goroutineID", JNum 1); ("frame", JNum 0)]];
               Call "ListFunctionArgs" [JObj [("goroutineID", JNum 1); ("frame", JNum 0)]];
               SendResponse
                 (ScopesBody [{| scope_name := "Local"; scope_variablesReference := 1000;
                                 scope_expensive := false |}])].
Proof.
  eexists _, _, _,
    {| out_ListLocalVars := Resolved []; out_ListFunctionArgs := Resolved [];
       out_getPackageInfo := None; out_ListPackageVars := Resolved [] |}.
  split; [reflexivity|]. split; [reflexivity|]. split; [reflexivity|].
  split; [reflexivity|]. split; [reflexivity|]. split; [reflexivity|].
  split; reflexivity.
Qed.

Lemma stop_event_callback_skipped (reason : string)
    (listing : RpcOutcome (list DebugGoroutine)) (this this' : GoDebugSession)
    (effs : list Effect) :
  handleReenterDebug_callback reason listing this = Some (this', effs) ->
  skipStopEventOnce this = true ->
  skipStopEventOnce this' = false /\ forall e, ~ In (SendEvent e) effs.
Proof.
  unfold handleReenterDebug_callback. intros H Hskip.
  destruct (delve this) as [d|]; [|done]. cbn [mbind option_bind] in H.
  destruct (debugState this) as [st|]; [|done]. cbn [mbind option_bind] in H.
  match type of H with
  | context [match ?x with Some _ => _ | None => None end] => idtac
  | _ => idtac
  end.
  repeat (simplify_option_eq || case_match); try done.
  all: split; [reflexivity|]; intros e Hin; cbn in Hin; intuition discriminate.
Qed.

(** X8 (handleReenterDebug): the callback of the goroutine listing always
    leaves [skipStopEventOnce] cleared, so that one stop at most is passed
    over. With the flag set it sends no event; with the flag clear it ends
    by sending the stopped event with the reason it was given, for the
    goroutine that the state already named or else the first one listed. *)
Theorem stop_event_skipped_once (reason : string)
    (listing : RpcOutcome (list DebugGoroutine)) (this this' : GoDebugSession)
    (effs : list Effect) :
  handleReenterDebug_callback reason listing this = Some (this', effs) ->
  skipStopEventOnce this' = false
  /\ (skipStopEventOnce this = true -> forall e, ~ In (SendEvent e) effs)
  /\ (skipStopEventOnce this = false ->
      exists st st' g,
        debugState this = Some st /\ debugState this' = Some st'
        /\ currentGoroutine st' = Some g
        /\ last effs = Some (SendEvent (StoppedEvent reason (g_id g) true))
        /\ (forall g0, currentGoroutine st = Some g0 -> g = g0)
        /\ (currentGoroutine st = None -> exists gs, listing = Resolved (g :: gs))).
Proof.
  unfold handleReenterDebug_callback.
  destruct (delve this) as [d|]; [|done]. cbn [mbind option_bind].
  destruct (debugState this) as [st|] eqn:Hst; [|done]. cbn [mbind option_bind].
  set (logged := match listing with
                 | Rejected err => if err_truthy err then logDelveError err else []
                 | Resolved _ => []
                 end).
  assert (Hlogged : forall e, ~ In (SendEvent e) logged).
  { intros e. subst logged. destruct listing as [err|gs]; [|intros []].
    destruct (err_truthy err); [|intros []]. intros [H|[]]. discriminate H. }
  destruct (match listing with
            | Rejected _ => if isApiV1 d then Some None else None
            | Resolved gs => Some (Some gs)
            end) as [goroutines|] eqn:Hgoroutines; [|done].
  cbn [mbind option_bind].
  destruct (match currentGoroutine st with
            | Some _ => Some st
            | None => gs ← goroutines;
                      match gs with
                      | g :: _ => Some (set_currentGoroutine st g)
                      | [] => Some st
                      end
            end) as [st'|] eqn:Hst'; [|done].
  cbn [mbind option_bind].
  change (skipStopEventOnce (set_debugState this (Some st')))
    with (skipStopEventOnce this).
  destruct (skipStopEventOnce this) eqn:Hskip.
  - intros [= <- <-]. split; [reflexivity|]. split; [intros _; exact Hlogged|done].
  - change (debugState (set_debugState this (Some st'))) with (Some st').
    cbn [mbind option_bind].
    destruct (currentGoroutine st') as [g|] eqn:Hg; [|done].
    cbn [mbind option_bind]. intros [= <- <-].
    split; [exact Hskip|]. split; [done|]. intros _.
    exists st, st', g. split; [reflexivity|]. split; [reflexivity|].
    split; [exact Hg|]. split; [by rewrite last_snoc|].
    split.
    + intros g0 Hg0. rewrite Hg0 in Hst'. injection Hst' as <-. congruence.
    + intros Hnone. rewrite Hnone in Hst'.
      destruct goroutines as [gs|]; [|done]. cbn in Hst'.
      destruct gs as [|g1 gs].
      * injection Hst' as <-. congruence.
      * injection Hst' as <-. cbn in Hg. injection Hg as ->.
        destruct listing as [err|gs']; [destruct (isApiV1 d); done|].
        injection Hgoroutines as ->. by exists gs.
Qed.

Lemma stop_event_skipped_once_witness :
  skipStopEventOnce launchedSession = false
  /\ (skipStopEventOnce
        (set_debugState (set_skipStopEventOnce launchedSession true) (Some stoppedState))
      = true -> forall e, ~ In (SendEvent e) [])
  /\ (skipStopEventOnce
        (set_debugState (set_skipStopEventOnce launchedSession true) (Some stoppedState))
      = false ->
      exists st st' g,
        debugState
          (set_debugState (set_skipStopEventOnce launchedSession true) (Some stoppedState))
        = Some st
        /\ Some stoppedState = Some st'
        /\ currentGoroutine st' = Some g
        /\ last [] = Some (SendEvent (StoppedEvent "breakpoint" (g_id g) true))
        /\ (forall g0, currentGoroutine st = Some g0 -> g = g0)
        /\ (currentGoroutine st = None ->
            exists gs, Resolved [mainGoroutine] = Resolved (g :: gs))).
Proof.
  exact (stop_event_skipped_once "breakpoint" (Resolved [mainGoroutine])
           (set_debugState (set_skipStopEventOnce launchedSession true) (Some stoppedState))
           _ _ eq_refl).
Defined.

(** Two stops in a row with the flag set before the first: only the second
    one is reported. *)
Example second_stop_reported :
  exists this1,
    handleReenterDebug_callback "breakpoint" (Resolved [mainGoroutine])
      (set_debugState (set_skipStopEventOnce launchedSession true) (Some stoppedState))
    = Some (this1, [])
    /\ snd <$> handleReenterDebug_callback "pause" (Resolved [mainGoroutine]) this1
       = Some [SendEvent (StoppedEvent "pause" 1 true)].
Proof. eexists. split; reflexivity. Qed.

(** ** Breakpoints while the target runs *)

Lemma setBreakPoints_frame (h : Host) (this this' : GoDebugSession)
    (args : SetBreakpointsArguments) (o : BreakpointBackend) (arrivals : list Arrival)
    (effs : list Effect) (isSettled : bool) :
  setBreakPoints h this args o arrivals = Some (this', effs, isSettled) ->
  delve this' = delve this
  /\ continueEpoch this' = continueEpoch this
  /\ continueRequestRunning this' = continueRequestRunning this
  /\ skipStopEventOnce this' = skipStopEventOnce this
  /\ debugState this' = debugState this.
Proof.
  unfold setBreakPoints. intros H.
  repeat (simplify_option_eq || case_match); done.
Qed.

Lemma existsb_map_false {A : Type} (p : Effect -> bool) (f : A -> Effect) (l : list A) :
  (forall x, p (f x) = false) -> existsb p (map f l) = false.
Proof.
  intros Hf. induction l as [|x l IH]; [done|]. cbn [map existsb]. by rewrite Hf, IH.
Qed.

(** A reconciliation reports no stop. *)
Lemma setBreakPoints_quiet (h : Host) (this this' : GoDebugSession)
    (args : SetBreakpointsArguments) (o : BreakpointBackend) (arrivals : list Arrival)
    (effs : list Effect) (isSettled : bool) :
  setBreakPoints h this args o arrivals = Some (this', effs, isSettled) ->
  existsb isStoppedEvent effs = false.
Proof.
  unfold setBreakPoints.
  destruct (toDebuggerPath h _ _) as [remoteFile|]; [|done]. cbn [mbind option_bind].
  destruct (delve _) as [d|]; [|done]. cbn [mbind option_bind].
  set (clears := map _ (default [] _)).
  assert (Hclears : existsb isStoppedEvent clears = false)
    by by apply existsb_map_false.
  destruct (firstRejectedClear o _) as [err|].
  { intros [= _ <- _]. by rewrite existsb_app, Hclears. }
  unfold createBreakpoints. cbv zeta.
  set (creates := map (createCall d remoteFile) (args_breakpoints args)).
  assert (Hcreates : existsb isStoppedEvent creates = false)
    by by apply existsb_map_false.
  set (listed := replicate _ (listCall d)).
  assert (Hlisted : existsb isStoppedEvent listed = false).
  { subst listed. induction (listings _) as [|n IH]; [done|]. exact IH. }
  destruct (mapM _ _) as [bps|].
  - destruct (responseBreakpoints _ 0 bps); intros [= _ <- _];
      by rewrite !existsb_app, Hclears, Hcreates, Hlisted.
  - intros [= _ <- _]. by rewrite !existsb_app, Hclears, Hcreates, Hlisted.
Qed.

Lemma continue_callback_spec (closureEpoch : Z) (state : DebuggerState)
    (this this' : GoDebugSession) (effs : list Effect) :
  continue_callback closureEpoch state this = Some (this', effs) ->
  delve this' = delve this
  /\ existsb isStoppedEvent effs = false
  /\ continueRequestRunning this'
     = (if closureEpoch =? continueEpoch this then false else continueRequestRunning this)
  /\ continueEpoch this' = continueEpoch this
  /\ skipStopEventOnce this' = skipStopEventOnce this.
Proof.
  unfold continue_callback, handleReenterDebug. intros H.
  destruct (closureEpoch =? continueEpoch this);
    cbn [delve set_continueRequestRunning set_debugState cleanupHandles debugState] in H;
    destruct (delve this) eqn:Hd; try done; cbn [mbind option_bind] in H;
    destruct (exited state); injection H as <- <-; by rewrite <- Hd.
Qed.

Lemma handleReenterDebug_callback_skipped (reason : string)
    (out_listing : RpcOutcome (list DebugGoroutine)) (this this' : GoDebugSession)
    (effs : list Effect) :
  skipStopEventOnce this = true ->
  handleReenterDebug_callback reason out_listing this = Some (this', effs) ->
  delve this' = delve this
  /\ existsb isStoppedEvent effs = false
  /\ continueRequestRunning this' = continueRequestRunning this
  /\ continueEpoch this' = continueEpoch this
  /\ skipStopEventOnce this' = false.
Proof.
  unfold handleReenterDebug_callback, logDelveError. intros Hskip H.
  repeat (simplify_option_eq || case_match); done.
Qed.

(** What one step does to the flags of the session, and that it reports no
    stop when the listing finds [skipStopEventOnce] set. *)
Lemma step_spec (h : Host) (d : Delve) (args : SetBreakpointsArguments)
    (o : BreakpointBackend) (arrivals : list Arrival) (closureEpoch : Z)
    (state : DebuggerState) (out_listing : RpcOutcome (list DebugGoroutine))
    (st st' : Halted) (s : Step) :
  delve (session st) = Some d ->
  (listingAsked st = true -> skipStopEventOnce (session st) = true) ->
  existsb isStoppedEvent (trace st) = false ->
  step h args o arrivals closureEpoch state out_listing st s = Some st' ->
  delve (session st') = Some d
  /\ existsb isStoppedEvent (trace st') = false
  /\ (In continueCall (trace st) -> In continueCall (trace st'))
  /\ match s with
     | Reconciled =>
         listingAsked st' = listingAsked st
         /\ skipStopEventOnce (session st') = skipStopEventOnce (session st)
         /\ continueRequestRunning (session st') = continueRequestRunning (session st)
         /\ continueEpoch (session st') = continueEpoch (session st)
     | Resumed =>
         breakpointsSettled st' = breakpointsSettled st
         /\ listingAsked st' = listingAsked st
         /\ skipStopEventOnce (session st') = skipStopEventOnce (session st)
         /\ if breakpointsSettled st
            then continueRequestRunning (session st') = true
                 /\ continueEpoch (session st') = js_increment (continueEpoch (session st))
                 /\ In continueCall (trace st')
            else continueRequestRunning (session st') = continueRequestRunning (session st)
                 /\ continueEpoch (session st') = continueEpoch (session st)
     | ContinueCompleted =>
         breakpointsSettled st' = breakpointsSettled st
         /\ listingAsked st' = negb (exited state)
         /\ skipStopEventOnce (session st') = skipStopEventOnce (session st)
         /\ continueRequestRunning (session st')
            = (if closureEpoch =? continueEpoch (session st) then false
               else continueRequestRunning (session st))
         /\ continueEpoch (session st') = continueEpoch (session st)
     | GoroutinesListed =>
         breakpointsSettled st' = breakpointsSettled st
         /\ listingAsked st' = false
         /\ skipStopEventOnce (session st')
            = (if listingAsked st then false else skipStopEventOnce (session st))
         /\ continueRequestRunning (session st') = continueRequestRunning (session st)
         /\ continueEpoch (session st') = continueEpoch (session st)
     end.
Proof.
  intros Hd Hskip Hquiet. destruct s; cbn [step].
  - destruct (setBreakPoints h (session st) args o arrivals)
      as [[[this effs] isSettled]|] eqn:Hset; [|done].
    cbn [mbind option_bind]. intros [= <-]. cbn [session trace breakpointsSettled listingAsked].
    pose proof (setBreakPoints_quiet _ _ _ _ _ _ _ _ Hset) as Heffs.
    apply setBreakPoints_frame in Hset as (Hd' & He & Hr & Hs & _).
    split; [congruence|]. split; [by rewrite existsb_app, Hquiet, Heffs|].
    split; [intros Hin; apply in_or_app; by left|]. done.
  - destruct (breakpointsSettled st) eqn:Hsettled.
    + unfold setBreakPointsRequest_resume. rewrite (continue_effects _ d Hd).
      cbn [mbind option_bind]. intros [= <-].
      cbn [session trace breakpointsSettled listingAsked].
      split; [done|]. split; [by rewrite existsb_app, Hquiet|].
      split; [intros Hin; apply in_or_app; by left|].
      split; [done|]. split; [done|]. split; [done|]. split; [done|]. split; [done|].
      apply in_or_app. right. by left.
    + intros [= <-]. rewrite Hsettled. done.
  - destruct (continue_callback closureEpoch state (session st))
      as [[this effs]|] eqn:Hcb; [|done].
    cbn [mbind option_bind]. intros [= <-]. cbn [session trace breakpointsSettled listingAsked].
    apply continue_callback_spec in Hcb as (Hd' & Heffs & Hr & He & Hs).
    split; [congruence|]. split; [by rewrite existsb_app, Hquiet, Heffs|].
    split; [intros Hin; apply in_or_app; by left|]. done.
  - destruct (listingAsked st) eqn:Hasked.
    + destruct (handleReenterDebug_callback "breakpoint" out_listing (session st))
        as [[this effs]|] eqn:Hcb; [|done].
      cbn [mbind option_bind]. intros [= <-].
      cbn [session trace breakpointsSettled listingAsked].
      apply handleReenterDebug_callback_skipped in Hcb as (Hd' & Heffs & Hr & He & Hs);
        [|by apply Hskip].
      split; [congruence|]. split; [by rewrite existsb_app, Hquiet, Heffs|].
      split; [intros Hin; apply in_or_app; by left|]. done.
    + intros [= <-]. rewrite Hasked. done.
Qed.


Lemma interleaved_pairs {A : Type} (a b c e : A) (s : list A) :
  Interleaved [a; b] [c; e] s ->
  s = [a; b; c; e] \/ s = [a; c; b; e] \/ s = [a; c; e; b]
  \/ s = [c; a; b; e] \/ s = [c; a; e; b] \/ s = [c; e; a; b].
Proof.
  intros H.
  repeat match goal with
         | H : Interleaved _ _ _ |- _ => inversion H; subst; clear H
         end; tauto.
Qed.

Lemma setBreakPointsRequest_start_running (this this0 : GoDebugSession) (d : Delve)
    (out_State : RpcOutcome DebuggerState) (effs0 : list Effect) (isHalted : bool) :
  delve this = Some d ->
  continueRequestRunning this = true ->
  setBreakPointsRequest_start this out_State = Some (this0, effs0, isHalted) ->
  isHalted = true
  /\ (exists before,
        effs0 = before ++ [haltCall]
        /\ forall command a, In (Call command a) before -> command = "State")
  /\ delve this0 = Some d
  /\ skipStopEventOnce this0 = true
  /\ continueRequestRunning this0 = true
  /\ continueEpoch this0 = continueEpoch this.
Proof.
  intros Hd Hrunning. unfold setBreakPointsRequest_start. rewrite Hd.
  cbn [mbind option_bind].
  destruct out_State as [err|st0].
  - destruct (debugState this) as [st|]; [|done]. cbn [mbind option_bind].
    rewrite Hrunning, andb_false_r. intros [= <- <- <-].
    split; [done|]. split; [|done].
    exists (Call "State" [JObj [("NonBlocking", JBool true)]] :: logDelveError err).
    split; [reflexivity|].
    intros command a [H|[H|[]]]; [|discriminate H]. by injection H as <- _.
  - cbn [debugState set_debugState mbind option_bind continueRequestRunning].
    rewrite Hrunning, andb_false_r. intros [= <- <- <-].
    split; [done|]. split; [|done].
    exists [Call "State" [JObj [("NonBlocking", JBool true)]]].
    split; [reflexivity|].
    intros command a [H|[]]. by injection H as <- _.
Qed.

(** One step of a run, with what is known of the session before it. *)
Ltac advance d :=
  match goal with
  | Hrun : (step ?h ?args ?o ?arr ?e ?state ?l ?st ?s ≫= _) = Some _,
    Hd : delve (session ?st) = Some d,
    Hq : existsb isStoppedEvent (trace ?st) = false,
    Hset : breakpointsSettled ?st = _,
    Hask : listingAsked ?st = _,
    Hskip : skipStopEventOnce (session ?st) = _,
    Hrn : continueRequestRunning (session ?st) = _,
    Hep : continueEpoch (session ?st) = _ |- _ =>
      let st' := fresh "st" in
      let Hs := fresh "Hs" in
      let Hflags := fresh "Hflags" in
      let Hsettled := fresh "Hsettled" in
      destruct (step h args o arr e state l st s) as [st'|] eqn:Hs;
      [|discriminate Hrun];
      cbn [mbind option_bind] in Hrun;
      apply (step_spec h d) in Hs as (? & ? & ? & Hflags);
      [|exact Hd|rewrite Hask, Hskip; done|exact Hq];
      cbv beta iota in Hflags;
      rewrite ?Hset, ?Hask, ?Hskip, ?Hrn, ?Hep in Hflags;
      cbv beta iota in Hflags;
      destruct_and?;
      lazymatch s with
      | Reconciled => destruct (breakpointsSettled st') eqn:Hsettled
      | _ => idtac
      end
  end.

(** X9 (setBreakPointsRequest, setBreakPoints, continue, handleReenterDebug):
    when breakpoints are set while a continue is outstanding, the target is
    halted before any breakpoint RPC, with [skipStopEventOnce] set. The
    outstanding continue completes and has the goroutines listed; the
    breakpoints are reconciled and, once they are, the target is resumed. In
    whatever order the two pairs fall together, no stop is reported to the
    client, and in the end the session is running under the next epoch,
    with [skipStopEventOnce] cleared unless the target has exited. *)
Theorem breakpoints_set_while_running (h : Host) (this this0 : GoDebugSession)
    (d : Delve) (args : SetBreakpointsArguments) (out_State : RpcOutcome DebuggerState)
    (o : BreakpointBackend) (arrivals : list Arrival) (state : DebuggerState)
    (out_listing : RpcOutcome (list DebugGoroutine)) (steps : list Step)
    (effs0 : list Effect) (isHalted : bool) (st : Halted) :
  delve this = Some d ->
  continueRequestRunning this = true ->
  continueEpoch this < 2 ^ 53 ->
  setBreakPointsRequest_start this out_State = Some (this0, effs0, isHalted) ->
  Interleaved [Reconciled; Resumed] [ContinueCompleted; GoroutinesListed] steps ->
  run h args o arrivals (continueEpoch this) state out_listing (halted this0) steps
  = Some st ->
  breakpointsSettled st = true ->
  isHalted = true
  /\ (exists before,
        effs0 = before ++ [haltCall]
        /\ forall command a, In (Call command a) before -> command = "State")
  /\ skipStopEventOnce this0 = true
  /\ existsb isStoppedEvent (trace st) = false
  /\ In continueCall (trace st)
  /\ continueRequestRunning (session st) = true
  /\ continueEpoch (session st) = continueEpoch this + 1
  /\ skipStopEventOnce (session st) = exited state.
Proof.
  intros Hd Hrunning Hepoch Hstart Hsteps Hrun Hsettled.
  destruct (setBreakPointsRequest_start_running _ _ _ _ _ _ Hd Hrunning Hstart)
    as (-> & Hbefore & Hd0 & Hskip0 & Hrunning0 & Hepoch0).
  split; [done|]. split; [exact Hbefore|]. split; [exact Hskip0|].
  assert (Hinc : js_increment (continueEpoch this) = continueEpoch this + 1).
  { unfold js_increment. destruct (continueEpoch this <? 2 ^ 53) eqn:Hlt; [done|].
    apply Z.ltb_ge in Hlt. lia. }
  rewrite <- Hinc.
  assert (Hsame : (continueEpoch this =? continueEpoch this) = true)
    by apply Z.eqb_refl.
  assert (Hnext : (continueEpoch this =? js_increment (continueEpoch this)) = false)
    by (rewrite Hinc; apply Z.eqb_neq; lia).
  set (epoch := continueEpoch this) in *.
  assert (Hd1 : delve (session (halted this0)) = Some d) by exact Hd0.
  assert (Hq1 : existsb isStoppedEvent (trace (halted this0)) = false) by reflexivity.
  assert (Hset1 : breakpointsSettled (halted this0) = false) by reflexivity.
  assert (Hask1 : listingAsked (halted this0) = false) by reflexivity.
  assert (Hskip1 : skipStopEventOnce (session (halted this0)) = true) by exact Hskip0.
  assert (Hrn1 : continueRequestRunning (session (halted this0)) = true)
    by exact Hrunning0.
  assert (Hep1 : continueEpoch (session (halted this0)) = epoch) by exact Hepoch0.
  clear Hstart Hbefore Hd0 Hskip0 Hrunning0 Hepoch0.
  generalize dependent (halted this0). intros st0 Hrun Hd1 Hq1 Hset1 Hask1 Hskip1 Hrn1 Hep1.
  destruct (exited state) eqn:Hexited;
    apply interleaved_pairs in Hsteps as [->|[->|[->|[->|[->| ->]]]]];
    cbn [run] in Hrun;
    do 4 (advance d; rewrite ?Hsame, ?Hnext, ?Hexited in *; cbn [negb] in * );
    injection Hrun as <-; first [congruence | auto 10].
Qed.

Lemma breakpoints_set_while_running_witness :
  exists this0 effs0 st,
    setBreakPointsRequest_start runningSession (Resolved runningState)
    = Some (this0, effs0, true)
    /\ run (posix_host None None) threeBreakpoints pickyBackend
         [CreateAnswered 0; CreateAnswered 1; ListAnswered 1; CreateAnswered 2] 1
         stoppedState (Resolved [mainGoroutine]) (halted this0)
         [ContinueCompleted; Reconciled; GoroutinesListed; Resumed]
       = Some st
    /\ breakpointsSettled st = true
    /\ (exists before,
          effs0 = before ++ [haltCall]
          /\ forall command a, In (Call command a) before -> command = "State")
    /\ skipStopEventOnce this0 = true
    /\ existsb isStoppedEvent (trace st) = false
    /\ In continueCall (trace st)
    /\ continueRequestRunning (session st) = true
    /\ continueEpoch (session st) = 1 + 1
    /\ skipStopEventOnce (session st) = false.
Proof.
  destruct (setBreakPointsRequest_start runningSession (Resolved runningState))
    as [[[this0 effs0] isHalted]|] eqn:Hstart; [|discriminate Hstart].
  destruct (run (posix_host None None) threeBreakpoints pickyBackend
              [CreateAnswered 0; CreateAnswered 1; ListAnswered 1; CreateAnswered 2] 1
              stoppedState (Resolved [mainGoroutine]) (halted this0)
              [ContinueCompleted; Reconciled; GoroutinesListed; Resumed])
    as [st|] eqn:Hrun.
  - assert (Hsteps : Interleaved [Reconciled; Resumed]
                       [ContinueCompleted; GoroutinesListed]
                       [ContinueCompleted; Reconciled; GoroutinesListed; Resumed])
      by (repeat constructor).
    assert (Hsettled : breakpointsSettled st = true).
    { injection Hstart as <- _ _. vm_compute in Hrun. by injection Hrun as <-. }
    destruct (breakpoints_set_while_running (posix_host None None) runningSession this0
                launchedDelve threeBreakpoints (Resolved runningState) pickyBackend
                _ stoppedState (Resolved [mainGoroutine]) _
                effs0 isHalted st eq_refl eq_refl eq_refl Hstart Hsteps Hrun Hsettled)
      as (-> & H).
    exists this0, effs0, st. split; [reflexivity|]. split; [exact Hrun|].
    split; [exact Hsettled|]. exact H.
  - exfalso. injection Hstart as <- _ _. vm_compute in Hrun. discriminate Hrun.
Defined.

(** The halt answered first, then the breakpoints reconciled, then the
    outstanding continue completing: it finds its own epoch and clears
    [continueRequestRunning], its listing is passed over in silence, and the
    resuming continue sets the flag again. *)
Example breakpoints_set_completion_first :
  ('(this0, effs0, _) ←
     setBreakPointsRequest_start runningSession (Resolved runningState);
   st1 ← run (posix_host None None) threeBreakpoints pickyBackend (inRequestOrder 3) 1
           stoppedState (Resolved [mainGoroutine]) (halted this0)
           [Reconciled; ContinueCompleted];
   st2 ← run (posix_host None None) threeBreakpoints pickyBackend (inRequestOrder 3) 1
           stoppedState (Resolved [mainGoroutine]) st1 [GoroutinesListed; Resumed];
   Some (effs0, continueRequestRunning (session st1), last (trace st1),
         continueRequestRunning (session st2), last (trace st2),
         skipStopEventOnce (session st2)))
  = Some ([getDebugState; haltCall], false,
          Some (Call "ListGoroutines" [JObj [("count", JNum 1)]]),
          true, Some continueCall, false).
Proof. vm_compute. reflexivity. Qed.

(** The same request when nothing else is handled in between. *)
Example breakpoints_set_while_running_calls :
  (fun r => (head r.2, r.2 !! 1%nat, last r.2, continueEpoch r.1)) <$>
    setBreakPointsRequest (posix_host None None) runningSession threeBreakpoints
      (Resolved runningState) (Resolved tt) pickyBackend (inRequestOrder 3)
  = Some (Some getDebugState, Some haltCall, Some continueCall, 2).
Proof. vm_compute. reflexivity. Qed.

(** ** Starting the backend *)

Lemma Delve_launch_shape (h : Host) (launchArgs : RequestArguments) (program : string) :
  LaunchShape h launchArgs (Delve_launch h launchArgs program).
Proof.
  unfold Delve_launch.
  repeat match goal with
         | |- LaunchShape _ _ (if ?b then _ else _) => destruct b eqn:?
         | |- LaunchShape _ _ (match ?x with _ => _ end) => destruct x eqn:?
         end;
    try (eapply ShapeRejected; reflexivity);
    try (eapply ShapeRun; reflexivity).
  all: eapply ShapeSpawned; try reflexivity; try (by eexists).
  all: rewrite !in_app_iff; cbn; tauto.
Qed.

Lemma Delve_attach_shape (h : Host) (launchArgs : RequestArguments) (program : string) :
  LaunchShape h launchArgs (Delve_attach h launchArgs program).
Proof.
  unfold Delve_attach.
  repeat match goal with
         | |- LaunchShape _ _ (if ?b then _ else _) => destruct b eqn:?
         end;
    try (eapply ShapeRejected; reflexivity).
  eapply ShapeSpawned; try reflexivity; try (by eexists).
  all: cbn; tauto.
Qed.

(** Case analysis on how [Delve_new] produced its result. *)
Ltac launch_shape Hnew :=
  unfold Delve_new in Hnew;
  repeat match type of Hnew with
         | context [match ?x with _ => _ end] => destruct x; try discriminate Hnew
         end;
  injection Hnew as <-;
  first [ apply Delve_launch_shape | apply Delve_attach_shape
        | by apply ShapeRemote | by eapply ShapeRejected ].

(** X10 (Delve constructor): the constructor ends in one of four ways. It
    rejects the connection and starts nothing; or, for a launch without
    debugging, it runs the program with [go run] and never connects; or, in
    remote mode, it spawns nothing and connects to the endpoint at once; or
    it spawns dlv once, headless, told to listen on the very endpoint that
    the adapter connects to at the first output of dlv. *)
Theorem Delve_new_starts_once (h : Host) (launchArgs : RequestArguments)
    (program : option string) (l : Launched) :
  Delve_new h launchArgs program = Some l -> LaunchShape h launchArgs l.
Proof. intros Hnew. by launch_shape Hnew. Qed.

Lemma Delve_new_starts_once_witness :
  LaunchShape workstation (launchMainGo false)
    (Delve_launch workstation (launchMainGo false) "/w/main.go").
Proof.
  exact (Delve_new_starts_once workstation (launchMainGo false) (Some "/w/main.go")
           _ eq_refl).
Defined.

(** The command line of that launch, and the connection that follows the
    first output of dlv. *)
Example launch_main_go :
  exists l,
    Delve_new workstation (launchMainGo false) (Some "/w/main.go") = Some l
    /\ launched_effects l
       = [Spawn "/home/u/go/bin/dlv"
            ["debug"; "/w/main.go"; "--headless=true"; "--listen=127.0.0.1:38000";
             "--api-version=2"; "--"; "-v"]
            "/w"]
    /\ Delve_onFirstStdout (launchMainGo false) l = [ConnectClient 38000 "127.0.0.1"]
    /\ localDebugeePath (launched_delve l) = Some "/w/main.go/debug".
Proof. eexists. split; [reflexivity|]. repeat split; reflexivity. Qed.




(** ** The roots of a remote session *)

Lemma splitSlashes_from_cons (cur s : string) :
  exists x l, JS.splitSlashes_from cur s = x :: l.
Proof.
  revert cur. induction s as [|c s IH]; intros cur; cbn; [eauto|].
  destruct (JS.is_slash c); eauto.
Qed.

Lemma slashFree_app (s1 s2 : string) :
  slashFree (s1 +:+ s2) = slashFree s1 && slashFree s2.
Proof.
  induction s1 as [|c s1 IH]; [done|]. rewrite sapp_cons. cbn.
  by rewrite IH, andb_assoc.
Qed.

Lemma mapSlashes_slashFree (c : ascii) (s : string) :
  slashFree s = true -> mapSlashes c s = s.
Proof.
  induction s as [|x s IH]; [done|]. cbn. intros [Hx Hs]%andb_true_iff.
  apply negb_true_iff in Hx. by rewrite Hx, IH.
Qed.

Lemma mapSlashes_separated (c : ascii) (s : string) :
  separated_by (String c "") s = true -> mapSlashes c s = s.
Proof.
  induction s as [|x s IH]; [done|]. cbn [separated_by mapSlashes].
  intros [Hx Hs]%andb_true_iff. rewrite (IH Hs).
  destruct (JS.is_slash x); [|done]. cbn [negb orb] in Hx.
  by apply String.eqb_eq in Hx as [= ->].
Qed.

(** The pieces between slashes contain none, and joining them with a
    character gives the string with that character for every slash. *)
Lemma splitSlashes_from_spec (c : ascii) (s cur : string) :
  slashFree cur = true ->
  Forall (fun x => slashFree x = true) (JS.splitSlashes_from cur s)
  /\ JS.join (JS.splitSlashes_from cur s) (String c "") = cur +:+ mapSlashes c s.
Proof.
  revert cur. induction s as [|x s IH]; intros cur Hcur.
  - cbn. split; [by constructor|]. by rewrite sapp_nil_r.
  - cbn [JS.splitSlashes_from mapSlashes]. destruct (JS.is_slash x) eqn:Hx.
    + destruct (IH "" eq_refl) as [Hall Hjoin].
      split; [by constructor|].
      destruct (splitSlashes_from_cons "" s) as (y & l & Hyl).
      unfold JS.join in *. rewrite Hyl in *. rewrite concat_cons, Hjoin.
      by rewrite sapp_nil_l.
    + destruct (IH (cur +:+ String x "")) as [Hall Hjoin].
      { by rewrite slashFree_app, Hcur; cbn; rewrite Hx. }
      split; [exact Hall|]. rewrite Hjoin. by rewrite sapp_assoc.
Qed.

Lemma join_app_segments (l1 l2 : list string) (sep : string) :
  l1 <> [] -> l2 <> [] ->
  JS.join (l1 ++ l2) sep = JS.join l1 sep +:+ sep +:+ JS.join l2 sep.
Proof.
  intros H1 H2. unfold JS.join. induction l1 as [|x l1 IH]; [done|].
  destruct l1 as [|y l1].
  - destruct l2 as [|z l2]; [done|]. cbn [app]. by rewrite concat_cons.
  - cbn [app] in *. rewrite !concat_cons, IH by done. by rewrite !sapp_assoc.
Qed.

Lemma mapSlashes_join (c c' : ascii) (l : list string) :
  Forall (fun x => slashFree x = true) l ->
  JS.is_slash c' = true ->
  mapSlashes c (JS.join l (String c' "")) = JS.join l (String c "").
Proof.
  intros Hl Hc'. unfold JS.join. induction Hl as [|x l Hx Hl IH]; [done|].
  destruct l as [|y l].
  - cbn. by apply mapSlashes_slashFree.
  - rewrite !concat_cons, !mapSlashes_app, IH, (mapSlashes_slashFree c x Hx).
    cbn. by rewrite Hc'.
Qed.

Lemma no_dollar_app (s1 s2 : string) :
  no_dollar (s1 +:+ s2) = no_dollar s1 && no_dollar s2.
Proof.
  induction s1 as [|c s1 IH]; [done|]. rewrite sapp_cons. cbn.
  by rewrite IH, andb_assoc.
Qed.

Lemma sharedSegments_spec (a b : list string) :
  take (sharedSegments a b) a = take (sharedSegments a b) b
  /\ (sharedSegments a b <= length a)%nat
  /\ (sharedSegments a b <= length b)%nat.
Proof.
  revert b. induction a as [|x a IH]; intros b; [cbn; repeat split; lia|].
  destruct b as [|y b]; [cbn; repeat split; lia|].
  cbn [sharedSegments]. destruct (String.eqb_spec x y) as [->|Hne].
  - cbn [negb orb]. destruct (String.eqb y "src"); [cbn; repeat split; lia|].
    destruct (IH b) as (Htake & Ha & Hb). cbn. rewrite Htake. repeat split; lia.
  - cbn. repeat split; lia.
Qed.

(** The segments that two paths share at their ends. *)
Lemma sharedTail_spec (localPath remotePath : string) :
  let llist := JS.splitSlashes localPath in
  let rlist := JS.splitSlashes remotePath in
  let i := sharedTail localPath remotePath in
  drop (length llist - i) llist = drop (length rlist - i) rlist
  /\ (i <= length llist)%nat /\ (i <= length rlist)%nat.
Proof.
  intros llist rlist i.
  destruct (sharedSegments_spec (rev llist) (rev rlist)) as (Htake & Hl & Hr).
  fold (sharedTail localPath remotePath) in Htake, Hl, Hr. fold i in Htake, Hl, Hr.
  rewrite !length_rev in *. rewrite !firstn_rev in Htake.
  apply (f_equal (@rev string)) in Htake. rewrite !rev_involutive in Htake.
  by repeat split.
Qed.

(** The roots that [settleRoots] settles on, when the two paths share a
    proper tail: each path is its root followed by that tail. *)
Lemma settleRoots_split (this : GoDebugSession) (localPath remotePath : string) :
  (0 < sharedTail localPath remotePath < length (JS.splitSlashes localPath))%nat ->
  (sharedTail localPath remotePath < length (JS.splitSlashes remotePath))%nat ->
  separated_by (findPathSeparator localPath) localPath = true ->
  separated_by (findPathSeparator remotePath) remotePath = true ->
  exists lc rc localRoot remoteRoot tail,
    settleRoots this localPath remotePath
    = (set_pathSeparators this (String lc "") (String rc ""), localRoot, remoteRoot)
    /\ findPathSeparator localPath = String lc ""
    /\ JS.is_slash lc = true /\ JS.is_slash rc = true
    /\ Forall (fun x => slashFree x = true) tail
    /\ localPath = localRoot +:+ JS.join tail (String lc "")
    /\ remotePath = remoteRoot +:+ JS.join tail (String rc "")
    /\ remoteRoot <> "".
Proof.
  intros [Hpos Hl] Hr HsepL HsepR.
  destruct (separator_char _ (findPathSeparator_is_separator localPath))
    as (lc & Hlc & Hlslash).
  destruct (separator_char _ (findPathSeparator_is_separator remotePath))
    as (rc & Hrc & Hrslash).
  rewrite Hlc in HsepL. rewrite Hrc in HsepR.
  destruct (sharedTail_spec localPath remotePath) as (Htail & _ & _).
  destruct (splitSlashes_from_spec lc localPath "" eq_refl) as [HallL HjoinL].
  destruct (splitSlashes_from_spec rc remotePath "" eq_refl) as [HallR HjoinR].
  fold (JS.splitSlashes localPath) in HallL, HjoinL.
  fold (JS.splitSlashes remotePath) in HallR, HjoinR.
  rewrite sapp_nil_l, (mapSlashes_separated _ _ HsepL) in HjoinL.
  rewrite sapp_nil_l, (mapSlashes_separated _ _ HsepR) in HjoinR.
  set (llist := JS.splitSlashes localPath) in *.
  set (rlist := JS.splitSlashes remotePath) in *.
  set (i := sharedTail localPath remotePath) in *.
  exists lc, rc, (dropSegments llist i (String lc "")),
    (dropSegments rlist i (String rc "")), (drop (length llist - i) llist).
  split.
  { unfold settleRoots. rewrite Hlc, Hrc.
    change (sharedSegments (rev (JS.splitSlashes localPath))
              (rev (JS.splitSlashes remotePath))) with i.
    destruct (0 <? i)%nat eqn:Hi; [reflexivity|]. apply Nat.ltb_ge in Hi. lia. }
  split; [exact Hlc|]. split; [exact Hlslash|]. split; [exact Hrslash|].
  split; [by apply Forall_drop|].
  assert (Hne : forall (l : list string) k, (0 < k < length l)%nat ->
                  take (length l - k) l <> [] /\ drop (length l - k) l <> []).
  { intros l k Hk. split; intros Hnil; apply (f_equal length) in Hnil;
      rewrite ?length_take, ?length_drop in Hnil; cbn in Hnil; lia. }
  split; [|split].
  - unfold dropSegments. rewrite sapp_assoc.
    rewrite <- join_app_segments by (apply Hne; lia).
    by rewrite take_drop.
  - unfold dropSegments. rewrite sapp_assoc, Htail.
    rewrite <- join_app_segments by (apply Hne; lia).
    by rewrite take_drop.
  - unfold dropSegments. intros Hnil. apply (f_equal String.length) in Hnil.
    rewrite slength_app in Hnil. cbn in Hnil. lia.
Qed.

Lemma Delve_new_roots (h : Host) (launchArgs : RequestArguments) (prog : string)
    (l : Launched) :
  Delve_new h launchArgs (Some prog) = Some l ->
  program (launched_delve l) = normalizePath h prog
  /\ remotePath (launched_delve l) = or_empty (req_remotePath launchArgs).
Proof.
  unfold Delve_new, Delve_launch, Delve_attach. intros H.
  repeat match type of H with
         | context [match ?x with _ => _ end] => destruct x; try discriminate H
         end.
  all: injection H as <-; split; reflexivity.
Qed.

(** X12 (initLaunchAttachRequest, toDebuggerPath, toLocalPath): after a
    launch or attach on a host that is not Windows, with a remote path that
    shares a proper tail of segments with the local path of the
    configuration, the two paths stand for each other: [toDebuggerPath] maps
    the local path to the remote path and [toLocalPath] maps it back. Each
    path uses one kind of separator, and neither contains a dollar sign. *)
Theorem configured_roots_correspond (h : Host) (this s : GoDebugSession)
    (args : RequestArguments) (effs : list Effect) (localPath remotePath : string) :
  platform_win32 h = false ->
  localPathOf args = Some localPath ->
  req_remotePath args = Some remotePath ->
  (0 < sharedTail localPath remotePath < length (JS.splitSlashes localPath))%nat ->
  (sharedTail localPath remotePath < length (JS.splitSlashes remotePath))%nat ->
  separated_by (findPathSeparator localPath) localPath = true ->
  separated_by (findPathSeparator remotePath) remotePath = true ->
  no_dollar localPath = true ->
  no_dollar remotePath = true ->
  initLaunchAttachRequest h this args = (effs, Some s) ->
  toDebuggerPath h s localPath = Some remotePath
  /\ toLocalPath h s remotePath = Some localPath.
Proof.
  intros Hposix Hlocal Hremote Hl Hr HsepL HsepR HdollarL HdollarR.
  unfold initLaunchAttachRequest. fold (localPathOf args).
  rewrite Hlocal, Hremote.
  assert (Htruthy : truthy_opt (Some remotePath) = true).
  { destruct remotePath; [cbn in Hr; lia|done]. }
  rewrite Htruthy. cbn [or_empty].
  assert (Hlen : (0 <? String.length remotePath)%nat = true).
  { destruct remotePath; [cbn in Hr; lia|done]. }
  rewrite Hlen. cbn [mbind option_bind].
  set (this0 := set_launchOptions _ _ _).
  destruct (settleRoots_split this0 localPath remotePath Hl Hr HsepL HsepR)
    as (lc & rc & localRoot & remoteRoot & tail & -> & Hlsep & Hlc & Hrc & Htail
        & HL & HR & Hne).
  match goal with
  | |- context [Delve_new ?h ?a ?p] =>
      destruct (Delve_new h a p) as [l|] eqn:Hnew; [|done]
  end.
  apply Delve_new_roots in Hnew as [Hprogram Hroot].
  unfold normalizePath in Hprogram. rewrite Hposix in Hprogram.
  cbn [req_remotePath with_endpoint or_empty] in Hroot.
  intros [= _ <-].
  assert (HdL : no_dollar localRoot = true).
  { rewrite HL, no_dollar_app in HdollarL. by apply andb_true_iff in HdollarL as []. }
  assert (HdR : no_dollar remoteRoot = true).
  { rewrite HR, no_dollar_app in HdollarR. by apply andb_true_iff in HdollarR as []. }
  split.
  - rewrite HL at 1. rewrite <- Hprogram.
    rewrite (toDebuggerPath_under_root h _ (launched_delve l) rc);
      [|reflexivity|by rewrite Hroot|reflexivity|by rewrite Hroot].
    rewrite Hroot, (mapSlashes_join rc lc tail Htail Hlc). by rewrite <- HR.
  - rewrite HR at 1. rewrite <- Hroot.
    rewrite (toLocalPath_under_root h _ (launched_delve l) rc);
      [|reflexivity|by rewrite Hroot|reflexivity|by rewrite Hprogram].
    rewrite Hprogram. cbn [localPathSeparator set_delve set_pathSeparators].
    rewrite Hlsep, HL, separated_by_app in HsepL.
    apply andb_true_iff in HsepL as [HsepRoot HsepTail].
    rewrite HL, substChar_app. f_equal. f_equal.
    + by apply substChar_separated.
    + rewrite <- (mapSlashes_join rc lc tail Htail Hlc).
      by apply substChar_mapSlashes.
Qed.

Lemma configured_roots_correspond_witness :
  exists s,
    (initLaunchAttachRequest workstation GoDebugSession_new attachRemote).2 = Some s
    /\ toDebuggerPath workstation s "/home/u/proj" = Some "/go/src/proj"
    /\ toLocalPath workstation s "/go/src/proj" = Some "/home/u/proj".
Proof.
  eexists. split; [reflexivity|].
  refine (configured_roots_correspond workstation GoDebugSession_new _ attachRemote _
            "/home/u/proj" "/go/src/proj" eq_refl eq_refl eq_refl _ _
            eq_refl eq_refl eq_refl eq_refl eq_refl).
  all: vm_compute; lia.
Defined.

(** The roots of that session, and a file under them. *)
Example remote_roots :
  exists s d,
    (initLaunchAttachRequest workstation GoDebugSession_new attachRemote).2 = Some s
    /\ delve s = Some d
    /\ program d = "/home/u/" /\ remotePath d = "/go/src/"
    /\ toDebuggerPath workstation s "/home/u/proj/cmd/main.go"
       = Some "/go/src/proj/cmd/main.go".
Proof. eexists _, _. repeat split; reflexivity. Qed.

(** A remote path that the local path ends with leaves no remote root but
    the separator, and the two paths do not correspond. *)
Example remote_path_is_tail :
  exists s d,
    (initLaunchAttachRequest workstation GoDebugSession_new
       (with_endpoint attachRemote 2345 "10.0.0.5" "proj")).2 = Some s
    /\ delve s = Some d
    /\ program d = "/home/u/" /\ remotePath d = "\"
    /\ toDebuggerPath workstation s "/home/u/proj" = Some "\proj".
Proof. eexists _, _. repeat split; reflexivity. Qed.

(** ** Threads *)

(** X13 (threadsRequest): while a continue is outstanding the threads request
    is answered with the thread [Dummy] and the backend is not asked. For a
    program that has not exited, an answer of the backend becomes a response
    that is never empty: one thread per goroutine, in order and under the
    goroutine's id, or [Dummy] alone when there is no goroutine. *)
Theorem threads_response_never_empty (this : GoDebugSession)
    (goroutines : list DebugGoroutine) :
  (continueRequestRunning this = true ->
   threadsRequest this = Some [SendResponse (ThreadsBody [Dummy])])
  /\ ((forall st, debugState this = Some st -> exited st = false) ->
      exists threads,
        threadsRequest_callback this (Resolved goroutines)
        = Some [SendResponse (ThreadsBody threads)]
        /\ threads <> []
        /\ map thread_id threads
           = match goroutines with [] => [1] | _ => map g_id goroutines end).
Proof.
  split.
  - intros Hrunning. unfold threadsRequest. by rewrite Hrunning.
  - intros Hlive. unfold threadsRequest_callback.
    replace (match debugState this with Some st => exited st | None => false end)
      with false.
    2:{ destruct (debugState this) as [st|]; [|done]. symmetry. by apply Hlive. }
    destruct goroutines as [|g gs].
    + eexists. split; [reflexivity|]. split; [done|reflexivity].
    + eexists. split; [reflexivity|]. split; [done|].
      cbn [length Nat.eqb map thread_id threadOfGoroutine]. f_equal.
      rewrite map_map. reflexivity.
Qed.

Lemma threads_response_never_empty_witness :
  (continueRequestRunning runningSession = true ->
   threadsRequest runningSession = Some [SendResponse (ThreadsBody [Dummy])])
  /\ ((forall st, debugState runningSession = Some st -> exited st = false) ->
      exists threads,
        threadsRequest_callback runningSession (Resolved [mainGoroutine])
        = Some [SendResponse (ThreadsBody threads)]
        /\ threads <> []
        /\ map thread_id threads = map g_id [mainGoroutine]).
Proof. exact (threads_response_never_empty runningSession [mainGoroutine]). Defined.

(** ** Scopes *)

(** X14 (scopesRequest): in a scopes response the first scope is [Local],
    and its reference resolves, in the session that the handler leaves, to a
    variable whose children are the arguments followed by the locals, as
    [localScopeVariables] arranges them. A second scope, [Global], is there
    only if global variables are shown; its reference is another one and
    resolves to the package variables, as [globalScopeVariables] arranges
    them for the package found. *)
Theorem scopes_references_resolve (this this' : GoDebugSession) (frameId : Z)
    (o : ScopesOutcomes) (effs : list Effect) (scopes : list Scope) :
  scopesRequest this frameId o = Some (this', effs) ->
  In (SendResponse (ScopesBody scopes)) effs ->
  exists locals functionArgs localScope others,
    out_ListLocalVars o = Resolved locals
    /\ out_ListFunctionArgs o = Resolved functionArgs
    /\ scopes = localScope :: others
    /\ scope_name localScope = "Local"
    /\ Handles_get (variableHandles this') (scope_variablesReference localScope)
       = Some (scopeVariable "Local" (localScopeVariables locals functionArgs))
    /\ (others = []
        \/ exists globalScope packageName globals,
             others = [globalScope]
             /\ showGlobalVariables this = true
             /\ out_getPackageInfo o = Some packageName
             /\ out_ListPackageVars o = Resolved globals
             /\ scope_name globalScope = "Global"
             /\ scope_variablesReference globalScope
                <> scope_variablesReference localScope
             /\ Handles_get (variableHandles this')
                  (scope_variablesReference globalScope)
                = Some (scopeVariable "Global"
                          (globalScopeVariables packageName globals))).
Proof.
  unfold scopesRequest.
  destruct (Handles_get (stackFrameHandles this) frameId) as [[goroutineId n]|];
    [|done].
  cbn [mbind option_bind]. destruct (delve this) as [d|]; [|done].
  cbn [mbind option_bind].
  destruct (out_ListLocalVars o) as [err|locals].
  { destruct (err_truthy err); [|done]. intros [= <- <-] Hin. cbn in Hin.
    exfalso. intuition discriminate. }
  destruct (out_ListFunctionArgs o) as [err|functionArgs].
  { destruct (err_truthy err); [|done]. intros [= <- <-] Hin. cbn in Hin.
    exfalso. intuition discriminate. }
  unfold Handles_create at 1.
  set (localVariables := scopeVariable "Local" (localScopeVariables locals functionArgs)).
  assert (Hlocal : forall body,
            SendResponse (ScopesBody body) = SendResponse (ScopesBody scopes)
            -> body = scopes) by (by intros body [= ->]).
  destruct (negb (showGlobalVariables this)) eqn:Hglobal.
  { intros [= <- <-] Hin. cbn in Hin.
    destruct Hin as [H|[H|[H|[]]]]; try discriminate H. apply Hlocal in H as <-.
    eexists locals, functionArgs, _, []. repeat split; try reflexivity.
    - unfold Handles_get. cbn. apply lookup_insert_eq.
    - by left. }
  apply negb_false_iff in Hglobal.
  destruct (debugState this) as [st|]; [|done]. cbn [mbind option_bind].
  match goal with
  | |- context [truthy_opt ?x] => destruct (truthy_opt x) eqn:Hpackage
  end; cbn [negb].
  2:{ intros [= <- <-] Hin. cbn in Hin.
      destruct Hin as [H|[H|[H|[]]]]; try discriminate H. apply Hlocal in H as <-.
      eexists locals, functionArgs, _, []. repeat split; try reflexivity.
      - unfold Handles_get. cbn. apply lookup_insert_eq.
      - by left. }
  assert (Hname : exists packageName, out_getPackageInfo o = Some packageName).
  { destruct (currentThread st) as [thread|]; [|done].
    destruct (JS.truthy (th_file thread)); [|done].
    destruct (out_getPackageInfo o) as [packageName|]; [eauto|done]. }
  destruct Hname as [packageName Hname].
  match goal with
  | |- context [or_empty ?x] => replace x with (Some packageName)
  end.
  2:{ destruct (currentThread st) as [thread|]; [|done].
      destruct (JS.truthy (th_file thread)); [|done]. by rewrite Hname. }
  cbn [or_empty].
  destruct (out_ListPackageVars o) as [err|globals].
  { destruct (err_truthy err); [|done]. intros [= <- <-] Hin. cbn in Hin.
    exfalso. intuition discriminate. }
  unfold Handles_create. intros [= <- <-] Hin. cbn in Hin.
  destruct Hin as [H|[H|[H|[H|[]]]]]; try discriminate H. apply Hlocal in H as <-.
  eexists locals, functionArgs, _, _. repeat split; try reflexivity.
  - unfold Handles_get. cbn. rewrite lookup_insert_ne by lia. apply lookup_insert_eq.
  - right. eexists _, packageName, globals. repeat split; try reflexivity; try done.
    + cbn. lia.
    + unfold Handles_get. cbn. apply lookup_insert_eq.
Qed.

Lemma scopes_references_resolve_witness :
  exists this' locals functionArgs localScope others,
    out_ListLocalVars oneLocal = Resolved locals
    /\ out_ListFunctionArgs oneLocal = Resolved functionArgs
    /\ [{| scope_name := "Local"; scope_variablesReference := 1000;
           scope_expensive := false |}] = localScope :: others
    /\ scope_name localScope = "Local"
    /\ Handles_get (variableHandles this') (scope_variablesReference localScope)
       = Some (scopeVariable "Local" (localScopeVariables locals functionArgs))
    /\ (others = []
        \/ exists globalScope packageName globals,
             others = [globalScope]
             /\ showGlobalVariables stoppedInFrame = true
             /\ out_getPackageInfo oneLocal = Some packageName
             /\ out_ListPackageVars oneLocal = Resolved globals
             /\ scope_name globalScope = "Global"
             /\ scope_variablesReference globalScope
                <> scope_variablesReference localScope
             /\ Handles_get (variableHandles this')
                  (scope_variablesReference globalScope)
                = Some (scopeVariable "Global"
                          (globalScopeVariables packageName globals))).
Proof.
  eexists.
  exact (scopes_references_resolve stoppedInFrame _ 1000 oneLocal _ _ eq_refl
           (or_intror (or_intror (or_introl eq_refl)))).
Defined.

(** ** Rendering a variable *)

(** X15 (convertDebugVariableToProtocolVariable): rendering a variable either
    gives the reference 0 and leaves the handles alone, or gives the next
    free handle, which from then on resolves to the variable as the call
    leaves it, while every other handle resolves as before. Kind, name and
    the number of children of the variable are kept. *)
Theorem rendered_reference_resolves (hs hs' : Handles DebugVariable)
    (v v' : DebugVariable) (result : string) (variablesReference : Z) :
  convertDebugVariableToProtocolVariable hs v
  = Some (hs', v', (result, variablesReference)) ->
  ((variablesReference = 0 /\ hs' = hs)
   \/ (variablesReference = nextHandle hs
       /\ nextHandle hs' = nextHandle hs + 1
       /\ Handles_get hs' variablesReference = Some v'
       /\ forall key, key <> variablesReference ->
            Handles_get hs' key = Handles_get hs key))
  /\ kind v' = kind v /\ name v' = name v
  /\ length (children v') = length (children v).
Proof.
  assert (Hcreate : forall (x : DebugVariable),
            (Handles_create hs x).2 = nextHandle hs
            /\ nextHandle (Handles_create hs x).1 = nextHandle hs + 1
            /\ Handles_get (Handles_create hs x).1 (nextHandle hs) = Some x
            /\ forall key, key <> nextHandle hs ->
                 Handles_get (Handles_create hs x).1 key = Handles_get hs key).
  { intros x. split; [reflexivity|]. split; [reflexivity|].
    split; [apply Handles_get_create|]. intros key Hkey.
    by apply Handles_get_create_ne. }
  unfold convertDebugVariableToProtocolVariable.
  destruct (kind v) eqn:Hkind;
    repeat match goal with
           | |- context [head ?l] => destruct l as [|c0 cs] eqn:?; cbn [head mbind option_bind]
           | |- context [if ?b then _ else _] => destruct b eqn:?
           | |- context [Handles_create hs ?x] =>
               destruct (Hcreate x) as (? & ? & ? & ?);
               destruct (Handles_create hs x) as [hs1 ref1]; cbn [fst snd] in *
           end;
    try discriminate; intros [= <- <- <- <-]; subst;
    (split; [first [left; split; reflexivity | right; repeat split; assumption]|]);
    cbn; unfold qualifyChildren; rewrite ?Hkind, ?length_map; repeat split;
    try reflexivity; try congruence;
    match goal with H : children v = _ |- _ => by rewrite H end.
Qed.

Lemma rendered_reference_resolves_witness :
  exists hs' v',
    ((1000 = 0 /\ hs' = Handles_new)
     \/ (1000 = nextHandle (Handles_new (T := DebugVariable))
         /\ nextHandle hs' = nextHandle (Handles_new (T := DebugVariable)) + 1
         /\ Handles_get hs' 1000 = Some v'
         /\ forall key, key <> 1000 ->
              Handles_get hs' key = Handles_get Handles_new key))
    /\ kind v' = kind structWithField /\ name v' = name structWithField
    /\ length (children v') = length (children structWithField).
Proof.
  eexists _, _.
  exact (rendered_reference_resolves Handles_new _ structWithField _ _ 1000 eq_refl).
Defined.

(** ** The breakpoints that the session remembers *)






(** X17 (continue, handleReenterDebug, threadsRequest): a continue whose RPC
    fails leaves [continueRequestRunning] set. Neither the error callback
    nor the goroutine listing that follows it clears the flag, so threads
    requests go on being answered with [Dummy], without the backend. *)
Theorem failed_continue_stays_running (this this1 this2 : GoDebugSession) (d : Delve)
    (closureEpoch : Z) (err : JsErr) (effs1 effs2 : list Effect) :
  delve this = Some d ->
  continue this = Some (this1, closureEpoch, effs1) ->
  continue_errorCallback err this1 = Some (this2, effs2) ->
  continueRequestRunning this2 = true
  /\ threadsRequest this2 = Some [SendResponse (ThreadsBody [Dummy])]
  /\ forall reason listing this3 effs3,
       handleReenterDebug_callback reason listing this2 = Some (this3, effs3) ->
       continueRequestRunning this3 = true
       /\ threadsRequest this3 = Some [SendResponse (ThreadsBody [Dummy])].
Proof.
  intros Hd Hcontinue Herr. rewrite (continue_effects this d Hd) in Hcontinue.
  injection Hcontinue as <- _ _. unfold continue_errorCallback in Herr.
  destruct (handleReenterDebug _) as [[this' effs']|] eqn:Hre; [|done].
  apply handleReenterDebug_spec in Hre. cbn [mbind option_bind] in Herr.
  injection Herr as <- _. subst this'.
  split; [reflexivity|]. split; [reflexivity|].
  intros reason listing this3 effs3 Hcb.
  apply handleReenterDebug_callback_handles in Hcb as (_ & _ & Hrunning & _).
  split; [exact Hrunning|]. unfold threadsRequest. by rewrite Hrunning.
Qed.

Lemma failed_continue_stays_running_witness :
  exists this2,
    continueRequestRunning this2 = true
    /\ threadsRequest this2 = Some [SendResponse (ThreadsBody [Dummy])]
    /\ forall reason listing this3 effs3,
         handleReenterDebug_callback reason listing this2 = Some (this3, effs3) ->
         continueRequestRunning this3 = true
         /\ threadsRequest this3 = Some [SendResponse (ThreadsBody [Dummy])].
Proof.
  eexists.
  exact (failed_continue_stays_running
           (set_debugState launchedSession (Some stoppedState)) _ _ launchedDelve _
           (ErrObject "Error: connection lost") _ _ eq_refl eq_refl eq_refl).
Defined.

(** ** Go to definition *)

(** X18 (parseMissingError, provideDefinition): [parseMissingError]
    recognises exactly the rejections that the three definition tools build
    for a missing tool, and gives the tool's name back; the provider then
    asks for that tool and resolves to [null] instead of failing. *)
Theorem missing_tool_recognised (err : option JsErr) (tool : string) :
  (parseMissingError err = (true, Some tool) <-> err = Some (missingTool tool))
  /\ provideDefinition_onRejected (Some (missingTool tool)) = ResolvedNull (Some tool).
Proof.
  assert (Hparse : parseMissingError (Some (missingTool tool)) = (true, Some tool)).
  { unfold parseMissingError, missingTool, JS.startsWith.
    rewrite prefix_app, substr_app. reflexivity. }
  split; [split|].
  - unfold parseMissingError. destruct err as [[s|s]|]; try done.
    destruct (JS.truthy s); [|done]. cbn [andb].
    destruct (JS.startsWith s missingToolMsg) eqn:Hprefix; [|done].
    apply prefix_inv in Hprefix as [t ->]. rewrite substr_app.
    by intros [= ->].
  - by intros ->.
  - unfold provideDefinition_onRejected. by rewrite Hparse.
Qed.

(** An error that is not a string, although it reads the same, is passed on. *)
Example missing_tool_object :
  provideDefinition_onRejected (Some (ErrObject "Missing tool: godef"))
  = RejectedAgain (ErrObject "Missing tool: godef").
Proof. reflexivity. Qed.

(** X19 (adjustWordPosition): when [adjustWordPosition] accepts a position
    that lies in its word, the word being on one line and not empty, the
    position it returns lies in the word too and before its end, and the
    word it returns is the text of the word's range. A position at the end
    of the word is moved one character to the left. Lines and characters of
    a position are not negative. *)
Theorem adjusted_position_in_word (document : TextDocument)
    (isPositionInString : Position -> bool) (goKeywords : list string)
    (position adjusted : Position) (range : Range) (word : string) :
  getWordRangeAtPosition document position = Some range ->
  0 <= pos_line (range_start range) ->
  0 <= pos_character (range_start range) ->
  pos_line (range_start range) = pos_line (range_end range) ->
  Position_lt (range_start range) (range_end range) ->
  Position_le (range_start range) position ->
  Position_le position (range_end range) ->
  adjustWordPosition document isPositionInString goKeywords position
  = Some (Some (word, adjusted)) ->
  word = getText document range
  /\ Position_le (range_start range) adjusted
  /\ Position_lt adjusted (range_end range)
  /\ (position = range_end range ->
      adjusted = {| pos_line := pos_line position;
                    pos_character := pos_character position - 1 |}).
Proof.
  intros Hrange Hl0 Hc0 Hline Hword Hstart Hend. unfold adjustWordPosition.
  rewrite Hrange. destruct (_ || _ || _ || _); [done|].
  unfold Position_isEqual, Position_isAfter, Position_translate,
    Position_le, Position_lt in *.
  destruct position as [l c], range as [[sl sc] [el ec]]. cbn in *.
  destruct ((l =? el) && (c =? ec)) eqn:Hequal.
  - apply andb_true_iff in Hequal as [Hl Hc].
    apply Z.eqb_eq in Hl, Hc. subst l c.
    replace ((sl <? el) || (el =? sl) && (sc <? ec)) with true
      by (symmetry; apply orb_true_iff; right; apply andb_true_iff;
          split; [apply Z.eqb_eq|apply Z.ltb_lt]; lia).
    cbn [andb]. replace ((el + 0 <? 0) || (ec + -1 <? 0)) with false
      by (symmetry; apply orb_false_iff; split; apply Z.ltb_ge; lia).
    cbn [mbind option_bind]. intros [= <- <-]. cbn.
    split; [reflexivity|]. split; [lia|]. split; [lia|].
    intros _. f_equal; lia.
  - cbn [andb]. intros [= <- <-]. cbn.
    split; [reflexivity|]. split; [lia|].
    apply andb_false_iff in Hequal. split.
    + destruct Hequal as [Hne|Hne]; apply Z.eqb_neq in Hne; lia.
    + intros [= -> ->]. rewrite !Z.eqb_refl in Hequal. by destruct Hequal.
Qed.

Lemma adjusted_position_in_word_witness :
  "total" = getText (oneWordDocument "total")
              {| range_start := {| pos_line := 0; pos_character := 0 |};
                 range_end := {| pos_line := 0; pos_character := 5 |} |}
  /\ Position_le {| pos_line := 0; pos_character := 0 |}
                 {| pos_line := 0; pos_character := 4 |}
  /\ Position_lt {| pos_line := 0; pos_character := 4 |}
                 {| pos_line := 0; pos_character := 5 |}
  /\ ({| pos_line := 0; pos_character := 5 |} = {| pos_line := 0; pos_character := 5 |} ->
      {| pos_line := 0; pos_character := 4 |}
      = {| pos_line := 0; pos_character := 5 - 1 |}).
Proof.
  refine (adjusted_position_in_word (oneWordDocument "total") (fun _ => false)
            ["break"; "case"; "func"] {| pos_line := 0; pos_character := 5 |}
            {| pos_line := 0; pos_character := 4 |}
            {| range_start := {| pos_line := 0; pos_character := 0 |};
               range_end := {| pos_line := 0; pos_character := 5 |} |}
            "total" eq_refl _ _ eq_refl _ _ _ eq_refl);
    unfold Position_lt, Position_le; cbn; lia.
Defined.

(** The keyword that comes first in the list is not held back, the others
    are; and a number is held back when it has two digits at least. *)
Example first_keyword_accepted :
  adjustWordPosition (oneWordDocument "break") (fun _ => false)
    ["break"; "case"; "func"] {| pos_line := 0; pos_character := 2 |}
  = Some (Some ("break", {| pos_line := 0; pos_character := 2 |}))
  /\ adjustWordPosition (oneWordDocument "case") (fun _ => false)
       ["break"; "case"; "func"] {| pos_line := 0; pos_character := 2 |}
     = Some None.
Proof. split; reflexivity. Qed.

Example numbers_held_back :
  map matchesNumber ["7"; "42"; "4x2"; "1.5"; "x42"; "42x"]
  = [false; true; true; true; false; false].
Proof. reflexivity. Qed.
